(** * Video production pipeline: a shallow embedding of the orchestrator

  The development follows the Python sources file by file:

  - [Py]             the few Python primitives the code relies on
                     (exceptions, truthiness, [range], [/]);
  - [Models]         models/database.py (enums and rows);
  - [Orm]            the SQLAlchemy session and the Celery broker, as a
                     state-and-exception monad;
  - [Provider]       providers/ai/base.py ([generate_with_retry]);
  - [VideoBuilder]   services/video.py;
  - [Uploader]       services/upload.py;
  - [VideosApi]      api/v1/videos.py;
  - [VideoTasks]     tasks/video_tasks.py;
  - [AnalyticsTasks] tasks/analytics_tasks.py;
  - [Unawaited]      the services as the tasks call them;
  - [Spec], [Views], [Samples]  the vocabulary of the statements and the
                     concrete inputs they are tried on;
  - [Campaigns]      the periodic tasks of tasks/video_tasks.py and
                     tasks/analytics_tasks.py that create work;
  - [VideosCrud]     the other endpoints of api/v1/videos.py;
  - [AnalyticsApi]   api/v1/analytics.py;
  - [Pipeline]       sequences of requests, jobs and campaigns, one at a
                     time.

  The modules whose names end in [Facts] hold the properties, numbered
  C1 to C10 after the claims they settle; those whose names end in
  [Extras] hold further properties of the same code, numbered X1 to
  X29.

  Modelling conventions.  Python [int] is [Z].  A Python [float] is
  represented by the rational number the expression denotes; rounding to
  binary64 is not modelled, and a counter obtained by truncating a float
  is an input.  [datetime.utcnow()], [random] and the file system are
  inputs of the functions that use them.

  The three service methods the tasks use are coroutine functions, and
  the tasks call them without [await].  The task bodies are embedded
  against a collaborator given by a world record, which says whether the
  call and the reads of its result answer or raise; a statement made for
  every world covers every way the collaborator can behave.  What the
  repository itself does is the case singled out in [Unawaited]: the
  call runs nothing of the service and the first read of its result
  raises [TypeError].  Statements about what the repository does, as
  opposed to what the task bodies do with a given collaborator, are made
  for that case.

  Queries and commits always succeed; column defaults and [onupdate]
  hooks are not modelled, except that a row the code inserts carries the
  defaults of the columns it does not set, and that the commit of a
  [NULL] title, which the NOT NULL constraint refuses, raises.  Logging
  is omitted. *)

From Stdlib Require Import ZArith List String Bool Lia QArith DecimalString.
Import ListNotations.
Close Scope Q_scope.
Local Open Scope string_scope.
Local Open Scope Z_scope.

(* ===================================================================== *)
(** ** Python primitives *)
(* ===================================================================== *)

Module Py.

(** Exception classes that occur in the modelled code.  The first five are
    declared at the end of providers/ai/base.py. *)
Inductive ExnClass :=
| AIProviderError
| AIProviderAuthError
| AIProviderRateLimitError
| AIProviderTimeoutError
| AIProviderInvalidRequestError
| HTTPException (status_code : Z)
| TypeError
| ZeroDivisionError
| OtherError (name : string).

(** An exception instance built from one message argument. *)
Record Exn := mkExn { exn_class : ExnClass; exn_msg : string }.

(** [str(e)] *)
Definition str (e : Exn) : string := exn_msg e.

(** [issubclass(type(e), AIProviderError)] *)
Definition is_provider_error (e : Exn) : bool :=
  match exn_class e with
  | AIProviderError | AIProviderAuthError | AIProviderRateLimitError
  | AIProviderTimeoutError | AIProviderInvalidRequestError => true
  | _ => false
  end.

(** [raise x] where [x] may be [None]: Python 3 refuses to raise a
    non-exception and raises [TypeError] instead. *)
Definition raise_value (x : option Exn) : Exn :=
  match x with
  | Some e => e
  | None => mkExn TypeError "exceptions must derive from BaseException"
  end.

(** Numbers as the analytics code produces them: the conditional
    expression of [get_video_analytics] yields a float or the int [0]. *)
Inductive Num :=
| Int (n : Z)
| Float (q : Q).

(** [a / b] on ints: true division, [ZeroDivisionError] when [b] is 0. *)
Definition truediv (a b : Z) : Exn + Num :=
  if b =? 0 then inl (mkExn ZeroDivisionError "division by zero")
  else inr (Float (Qdiv (inject_Z a) (inject_Z b))).

(** The value a Float column gives back for a number stored in it. *)
Definition to_float (x : Num) : Q :=
  match x with
  | Int n => inject_Z n
  | Float q => q
  end.

(** [list(range(n))] *)
Definition range (n : Z) : list Z := map Z.of_nat (seq 0 (Z.to_nat n)).

(** Truthiness of an optional string ([None] and [""] are falsy). *)
Definition truthy_str (s : option string) : bool :=
  match s with
  | None => false
  | Some s => negb (String.eqb s "")
  end.

(** [x or ""] *)
Definition or_empty (s : option string) : string :=
  match s with
  | Some s => if String.eqb s "" then "" else s
  | None => ""
  end.

(** [str(n)] on an int. *)
Definition str_int (n : Z) : string := NilZero.string_of_int (Z.to_int n).

End Py.

(* ===================================================================== *)
(** ** models/database.py *)
(* ===================================================================== *)

Module Models.

Inductive ChannelStatus := ACTIVE | INACTIVE | SUSPENDED.

Inductive VideoStatus :=
| DRAFT | GENERATING | GENERATED | UPLOADING | UPLOADED | FAILED.

(** [VideoStatus.value] *)
Definition value (s : VideoStatus) : string :=
  match s with
  | DRAFT => "draft"
  | GENERATING => "generating"
  | GENERATED => "generated"
  | UPLOADING => "uploading"
  | UPLOADED => "uploaded"
  | FAILED => "failed"
  end.

Definition status_eqb (a b : VideoStatus) : bool :=
  match a, b with
  | DRAFT, DRAFT | GENERATING, GENERATING | GENERATED, GENERATED
  | UPLOADING, UPLOADING | UPLOADED, UPLOADED | FAILED, FAILED => true
  | _, _ => false
  end.

Definition channel_status_eqb (a b : ChannelStatus) : bool :=
  match a, b with
  | ACTIVE, ACTIVE | INACTIVE, INACTIVE | SUSPENDED, SUSPENDED => true
  | _, _ => false
  end.

(** The keys of the JSON column [Video.metadata] that the tasks read. *)
Record Metadata := mkMetadata {
  md_duration : option Z;
  md_tags : option (list string);
  md_category_id : option string
}.

Record Channel := mkChannel {
  c_id : Z;
  c_status : ChannelStatus;
  c_auto_upload : bool;
  c_auto_generate : bool;
  c_owner_id : Z
}.

Record Video := mkVideo {
  id : Z;
  title : string;
  description : option string;
  script : option string;
  status : VideoStatus;
  youtube_video_id : option string;
  video_path : option string;
  thumbnail_path : option string;
  duration : option Z;
  file_size : option Z;
  metadata : option Metadata;
  generation_progress : Z;
  error_message : option string;
  created_at : Z;
  updated_at : Z;
  published_at : option Z;
  channel_id : Z
}.

(** Attribute assignment, one function per attribute the code assigns. *)
Definition set_status (x : VideoStatus) (v : Video) : Video :=
  mkVideo (id v) (title v) (description v) (script v) x
    (youtube_video_id v) (video_path v) (thumbnail_path v) (duration v)
    (file_size v) (metadata v) (generation_progress v) (error_message v)
    (created_at v) (updated_at v) (published_at v) (channel_id v).

Definition set_generation_progress (x : Z) (v : Video) : Video :=
  mkVideo (id v) (title v) (description v) (script v) (status v)
    (youtube_video_id v) (video_path v) (thumbnail_path v) (duration v)
    (file_size v) (metadata v) x (error_message v)
    (created_at v) (updated_at v) (published_at v) (channel_id v).

Definition set_script (x : option string) (v : Video) : Video :=
  mkVideo (id v) (title v) (description v) x (status v)
    (youtube_video_id v) (video_path v) (thumbnail_path v) (duration v)
    (file_size v) (metadata v) (generation_progress v) (error_message v)
    (created_at v) (updated_at v) (published_at v) (channel_id v).

Definition set_error_message (x : option string) (v : Video) : Video :=
  mkVideo (id v) (title v) (description v) (script v) (status v)
    (youtube_video_id v) (video_path v) (thumbnail_path v) (duration v)
    (file_size v) (metadata v) (generation_progress v) x
    (created_at v) (updated_at v) (published_at v) (channel_id v).

Definition set_video_path (x : option string) (v : Video) : Video :=
  mkVideo (id v) (title v) (description v) (script v) (status v)
    (youtube_video_id v) x (thumbnail_path v) (duration v)
    (file_size v) (metadata v) (generation_progress v) (error_message v)
    (created_at v) (updated_at v) (published_at v) (channel_id v).

Definition set_thumbnail_path (x : option string) (v : Video) : Video :=
  mkVideo (id v) (title v) (description v) (script v) (status v)
    (youtube_video_id v) (video_path v) x (duration v)
    (file_size v) (metadata v) (generation_progress v) (error_message v)
    (created_at v) (updated_at v) (published_at v) (channel_id v).

Definition set_duration (x : option Z) (v : Video) : Video :=
  mkVideo (id v) (title v) (description v) (script v) (status v)
    (youtube_video_id v) (video_path v) (thumbnail_path v) x
    (file_size v) (metadata v) (generation_progress v) (error_message v)
    (created_at v) (updated_at v) (published_at v) (channel_id v).

Definition set_file_size (x : option Z) (v : Video) : Video :=
  mkVideo (id v) (title v) (description v) (script v) (status v)
    (youtube_video_id v) (video_path v) (thumbnail_path v) (duration v)
    x (metadata v) (generation_progress v) (error_message v)
    (created_at v) (updated_at v) (published_at v) (channel_id v).

Definition set_youtube_video_id (x : option string) (v : Video) : Video :=
  mkVideo (id v) (title v) (description v) (script v) (status v)
    x (video_path v) (thumbnail_path v) (duration v)
    (file_size v) (metadata v) (generation_progress v) (error_message v)
    (created_at v) (updated_at v) (published_at v) (channel_id v).

Definition set_updated_at (x : Z) (v : Video) : Video :=
  mkVideo (id v) (title v) (description v) (script v) (status v)
    (youtube_video_id v) (video_path v) (thumbnail_path v) (duration v)
    (file_size v) (metadata v) (generation_progress v) (error_message v)
    (created_at v) x (published_at v) (channel_id v).

Definition set_published_at (x : option Z) (v : Video) : Video :=
  mkVideo (id v) (title v) (description v) (script v) (status v)
    (youtube_video_id v) (video_path v) (thumbnail_path v) (duration v)
    (file_size v) (metadata v) (generation_progress v) (error_message v)
    (created_at v) (updated_at v) x (channel_id v).

(** [video.metadata.get("duration", 300) if video.metadata else 300] *)
Definition metadata_duration (v : Video) : Z :=
  match metadata v with
  | Some md => match md_duration md with Some d => d | None => 300 end
  | None => 300
  end.

(** [video.metadata.get("tags", []) if video.metadata else []] *)
Definition metadata_tags (v : Video) : list string :=
  match metadata v with
  | Some md => match md_tags md with Some t => t | None => [] end
  | None => []
  end.

(** [video.metadata.get("category_id", "22") if video.metadata else "22"] *)
Definition metadata_category_id (v : Video) : string :=
  match metadata v with
  | Some md => match md_category_id md with Some c => c | None => "22" end
  | None => "22"
  end.

(** [VideoAnalytics]; the surrogate key [id] is never read by the tasks
    and is left out. *)
Record VideoAnalytics := mkVideoAnalytics {
  a_video_id : Z;
  views : Z;
  likes : Z;
  dislikes : Z;
  comments : Z;
  shares : Z;
  watch_time : Z;
  average_view_duration : Q;
  click_through_rate : Q;
  engagement_rate : Py.Num;
  revenue : Q;
  last_updated : Z
}.

End Models.

(* ===================================================================== *)
(** ** The SQLAlchemy session and the Celery broker *)
(* ===================================================================== *)

Module Orm.
Import Py Models.

(** The tables.  A list keeps the rows in the order in which a query
    without ORDER BY returns them. *)
Record DB := mkDB {
  videos : list Video;
  channels : list Channel;
  analytics : list VideoAnalytics
}.

(** Jobs put on the task queue by [task.delay(...)]. *)
Inductive Job :=
| GenerateVideoJob (video_id : Z)
| UploadVideoJob (video_id : Z) (privacy_status : string)
    (notify_subscribers : bool)
| SyncAnalyticsJob (video_id : Z).

(** What one request or one task works on:
    - [rows]    the committed contents of the database;
    - [objs]    the session's objects, pending attribute writes included
                (a query returns these objects);
    - [queue]   the broker;
    - [commits] the database contents after each [commit()], oldest
                first: the states a concurrent reader can observe. *)
Record Session := mkSession {
  rows : DB;
  objs : DB;
  queue : list Job;
  commits : list DB
}.

(** The dictionaries the tasks return. *)
Inductive TaskResult :=
| TaskError (video_id : option Z) (message : string)
| TaskSkipped (message : string)
| GenerateSuccess (video_id : Z) (video_path : option string)
    (duration : option Z)
| UploadSuccess (video_id : Z) (youtube_video_id : option string)
    (url : string)
| SyncSuccess (video_id : Z) (views : Z) (engagement_rate : Num)
| BatchSuccess (channels_processed : Z) (videos_queued : Z).

Definition open_session (db : DB) (q : list Job) : Session :=
  mkSession db db q [].

(** Computations: a state transformer that returns a value or raises. *)
Definition M (A : Type) : Type := Session -> Session * (Exn + A).

Definition ret {A} (a : A) : M A := fun s => (s, inr a).

Definition raise {A} (e : Exn) : M A := fun s => (s, inl e).

Definition bind {A B} (m : M A) (k : A -> M B) : M B :=
  fun s =>
    match m s with
    | (s', inr a) => k a s'
    | (s', inl e) => (s', inl e)
    end.

(** [try: m  except Exception as e: handler(e)] *)
Definition try_except {A} (m : M A) (handler : Exn -> M A) : M A :=
  fun s =>
    match m s with
    | (s', inr a) => (s', inr a)
    | (s', inl e) => handler e s'
    end.

(** Lifting of a pure computation that may raise. *)
Definition lift {A} (r : Exn + A) : M A := fun s => (s, r).

Declare Scope orm_scope.
Delimit Scope orm_scope with orm.
Notation "x <- m ;; k" := (bind m (fun x => k))
  (at level 61, m at next level, right associativity) : orm_scope.
Notation "m ;; k" := (bind m (fun _ => k))
  (at level 61, right associativity) : orm_scope.
Local Open Scope orm_scope.

(** [for x in xs: body(x)] *)
Fixpoint for_each {A} (xs : list A) (body : A -> M unit) : M unit :=
  match xs with
  | [] => ret tt
  | x :: xs' => body x ;; for_each xs' body
  end.

(** [for x in xs: acc = body(x, acc)], for a loop that updates a local
    variable. *)
Fixpoint for_fold {A S} (xs : list A) (body : A -> S -> M S) (acc : S)
    : M S :=
  match xs with
  | [] => ret acc
  | x :: xs' => acc' <- body x acc ;; for_fold xs' body acc'
  end.

(** Row lookup and update by primary key. *)
Definition find_video (video_id : Z) (l : list Video) : option Video :=
  find (fun v => id v =? video_id) l.

Definition update_video (video_id : Z) (f : Video -> Video)
    (l : list Video) : list Video :=
  map (fun v => if id v =? video_id then f v else v) l.

Definition find_analytics (video_id : Z) (l : list VideoAnalytics)
    : option VideoAnalytics :=
  find (fun a => a_video_id a =? video_id) l.

Definition update_analytics (video_id : Z)
    (f : VideoAnalytics -> VideoAnalytics) (l : list VideoAnalytics)
    : list VideoAnalytics :=
  map (fun a => if a_video_id a =? video_id then f a else a) l.

(** [db.query(Video).filter(Video.id == video_id).first()] *)
Definition query_video (video_id : Z) : M (option Video) :=
  fun s => (s, inr (find_video video_id (videos (objs s)))).

(** [db.query(Video).filter(p).all()] *)
Definition query_videos (p : Video -> bool) : M (list Video) :=
  fun s => (s, inr (filter p (videos (objs s)))).

(** [db.query(Channel).filter(p).all()] *)
Definition query_channels (p : Channel -> bool) : M (list Channel) :=
  fun s => (s, inr (filter p (channels (objs s)))).

(** [db.query(VideoAnalytics).filter(VideoAnalytics.video_id == video_id).first()] *)
Definition query_analytics (video_id : Z) : M (option VideoAnalytics) :=
  fun s => (s, inr (find_analytics video_id (analytics (objs s)))).

(** Reading the attributes of a loaded object [v]: its current state in
    the session. *)
Definition load (v : Video) : M Video :=
  fun s => (s, inr match find_video (id v) (videos (objs s)) with
                   | Some v' => v'
                   | None => v
                   end).

(** [video.<attr> = x] on the loaded object with key [video_id]. *)
Definition setattr (video_id : Z) (f : Video -> Video) : M unit :=
  fun s =>
    (mkSession (rows s)
       (mkDB (update_video video_id f (videos (objs s)))
             (channels (objs s)) (analytics (objs s)))
       (queue s) (commits s), inr tt).

(** [analytics.<attr> = x] *)
Definition setattr_analytics (video_id : Z)
    (f : VideoAnalytics -> VideoAnalytics) : M unit :=
  fun s =>
    (mkSession (rows s)
       (mkDB (videos (objs s)) (channels (objs s))
             (update_analytics video_id f (analytics (objs s))))
       (queue s) (commits s), inr tt).

(** [db.add(analytics)] *)
Definition add_analytics (a : VideoAnalytics) : M unit :=
  fun s =>
    (mkSession (rows s)
       (mkDB (videos (objs s)) (channels (objs s))
             (analytics (objs s) ++ [a]))
       (queue s) (commits s), inr tt).

(** [db.commit()] *)
Definition commit : M unit :=
  fun s => (mkSession (objs s) (objs s) (queue s) (commits s ++ [objs s]),
            inr tt).

(** [task.delay(...)] *)
Definition delay (j : Job) : M unit :=
  fun s => (mkSession (rows s) (objs s) (queue s ++ [j]) (commits s),
            inr tt).

End Orm.

(* ===================================================================== *)
(** ** providers/ai/base.py *)
(* ===================================================================== *)

Module Provider.
Import Py.

(** [AIResponse] (the fields that do not depend on the clock). *)
Record AIResponse := mkAIResponse {
  content : string;
  model : string;
  provider : string;
  tokens_used : Z
}.

(** What one run of [generate_with_retry] did: the calls made to
    [generate_text], the arguments of [asyncio.sleep] in order, and the
    local [last_error]. *)
Record Run := mkRun {
  calls : nat;
  sleeps : list Z;
  last_error : option Exn
}.

Definition start : Run := mkRun 0 [] None.

(** The abstract method [generate_text] of the provider at hand: the
    outcome of its [n]-th call (counting from 0), a response or a raised
    exception. *)
Definition GenerateText := nat -> Exn + AIResponse.

(** The body of [for attempt in range(max_retries)], and the final
    [raise last_error] when the loop runs out. *)
Fixpoint retry_loop (generate_text : GenerateText) (max_retries : Z)
    (attempts : list Z) (st : Run) : Run * (Exn + AIResponse) :=
  match attempts with
  | [] => (st, inl (raise_value (last_error st)))
  | attempt :: rest =>
      match generate_text (calls st) with
      | inr response =>
          (mkRun (S (calls st)) (sleeps st) (last_error st), inr response)
      | inl e =>
          let wait_time := 2 ^ attempt in
          retry_loop generate_text max_retries rest
            (mkRun (S (calls st))
               (if attempt <? max_retries - 1
                then sleeps st ++ [wait_time] else sleeps st)
               (Some e))
      end
  end.

Definition generate_with_retry (generate_text : GenerateText)
    (max_retries : Z) : Run * (Exn + AIResponse) :=
  retry_loop generate_text max_retries (range max_retries) start.

End Provider.

(* ===================================================================== *)
(** ** services/video.py *)
(* ===================================================================== *)

Module VideoBuilder.
Import Py Models Orm.
Local Open Scope orm_scope.

(** The result dictionary of [generate_video] (the keys the task reads). *)
Record VideoResult := mkVideoResult {
  r_video_path : string;
  r_thumbnail_path : string;
  r_duration : Z;
  r_file_size : Z
}.

(** What the clock and the file system contribute to one call:
    - [timestamp]  [datetime.utcnow().strftime('%Y%m%d%H%M%S')];
    - [getsize]    [os.path.getsize(video_path)];
    - [fault]      [Some (k, e)] when the call raises [e] after [k]
                   progress steps have been reported ([k] of 7 or more:
                   while the files are written). *)
Record Host := mkHost {
  timestamp : string;
  getsize : Z;
  fault : option (nat * Exn)
}.

Definition storage_path : string := "/app/storage".

Definition steps : list (Z * string) :=
  [ (10, "Initializing video generation...");
    (20, "Generating audio from script...");
    (40, "Creating video frames...");
    (60, "Adding background music...");
    (80, "Rendering final video...");
    (90, "Generating thumbnail...");
    (100, "Video generation complete!") ].

Definition report (progress_callback : option (Z -> string -> M unit))
    (step : Z * string) : M unit :=
  match progress_callback with
  | Some callback => callback (fst step) (snd step)
  | None => ret tt
  end.

(** The file names and the dictionary built after the loop. *)
Definition video_result (h : Host) (video_id : Z) (duration : Z)
    : VideoResult :=
  let video_filename :=
    ("video_" ++ str_int video_id ++ "_" ++ timestamp h ++ ".mp4")%string in
  let video_path :=
    (storage_path ++ "/videos/" ++ video_filename)%string in
  let thumbnail_filename :=
    ("thumb_" ++ str_int video_id ++ "_" ++ timestamp h ++ ".jpg")%string in
  let thumbnail_path :=
    (storage_path ++ "/thumbnails/" ++ thumbnail_filename)%string in
  mkVideoResult video_path thumbnail_path duration (getsize h).

Definition generate_video (h : Host) (video_id : Z) (script : string)
    (title : string) (duration : Z)
    (progress_callback : option (Z -> string -> M unit)) : M VideoResult :=
  match fault h with
  | Some (k, e) =>
      for_each (firstn k steps) (report progress_callback) ;;
      raise e
  | None =>
      for_each steps (report progress_callback) ;;
      ret (video_result h video_id duration)
  end.

End VideoBuilder.

(* ===================================================================== *)
(** ** services/upload.py *)
(* ===================================================================== *)

Module Uploader.
Import Py Models Orm.
Local Open Scope orm_scope.

(** The result dictionary of [upload_video] (the keys the task reads). *)
Record UploadResult := mkUploadResult {
  r_youtube_video_id : string;
  r_url : string
}.

(** One call of [upload_video]: the value of
    [random.randint(100000, 999999)], and the exception the publishing
    service raises, if it does. *)
Record UploadHost := mkUploadHost {
  randint_id : Z;
  upload_fault : option Exn
}.

Definition upload_steps : list (Z * string) :=
  [ (10, "Preparing video for upload...");
    (25, "Uploading video to YouTube...");
    (50, "Processing video...");
    (75, "Uploading thumbnail...");
    (90, "Finalizing upload...");
    (100, "Upload complete!") ].

Definition upload_video (h : UploadHost) (video_path : option string)
    (title description : string) (tags : list string)
    (category_id privacy_status : string) (thumbnail_path : option string)
    (notify_subscribers : bool)
    (progress_callback : option (Z -> string -> M unit)) : M UploadResult :=
  match upload_fault h with
  | Some e => raise e
  | None =>
      for_each upload_steps (VideoBuilder.report progress_callback) ;;
      let video_id := ("STUB_" ++ str_int (randint_id h))%string in
      ret (mkUploadResult video_id
             ("https://www.youtube.com/watch?v=" ++ video_id)%string)
  end.

(** The result dictionary of [get_video_analytics]. *)
Record AnalyticsData := mkAnalyticsData {
  d_views : Z;
  d_likes : Z;
  d_dislikes : Z;
  d_comments : Z;
  d_shares : Z;
  d_watch_time : Z;
  d_average_view_duration : Q;
  d_click_through_rate : Q;
  d_engagement_rate : Num;
  d_revenue : Q
}.

(** One call of [get_video_analytics]: the value of
    [random.randint(100, 10000)]; the values of the expressions built
    from [random.uniform], in the order of the dictionary (the counters
    are truncations of binary64 products, which an exact product does
    not reproduce, so they are taken as they come out); and the
    exception the publishing service raises, if it does. *)
Record MetricsHost := mkMetricsHost {
  randint_views : Z;
  int_likes : Z;
  int_comments : Z;
  int_dislikes : Z;
  int_shares : Z;
  int_watch_time : Z;
  uniform_average_view_duration : Q;
  uniform_click_through_rate : Q;
  float_revenue : Q;
  metrics_fault : option Exn
}.

(** [(likes + comments) / views if views > 0 else 0] *)
Definition engagement (likes comments views : Z) : Exn + Num :=
  if views >? 0 then truediv (likes + comments) views else inr (Int 0).

Definition get_video_analytics (h : MetricsHost) (youtube_video_id : string)
    : M AnalyticsData :=
  match metrics_fault h with
  | Some e => raise e
  | None =>
      let views := randint_views h in
      let likes := int_likes h in
      let comments := int_comments h in
      engagement_rate <- lift (engagement likes comments views) ;;
      ret (mkAnalyticsData
             views
             likes
             (int_dislikes h)
             comments
             (int_shares h)
             (int_watch_time h)
             (uniform_average_view_duration h)
             (uniform_click_through_rate h)
             engagement_rate
             (float_revenue h))
  end.

End Uploader.

(* ===================================================================== *)
(** ** api/v1/videos.py *)
(* ===================================================================== *)

Module VideosApi.
Import Py Models Orm.
Local Open Scope orm_scope.

(** [VideoProgressResponse] *)
Record VideoProgressResponse := mkProgress {
  p_video_id : Z;
  p_status : string;
  p_progress : Z;
  p_message : string;
  p_error : option string
}.

(** [db.query(Video).join(Channel).filter(Video.id == video_id,
    Channel.owner_id == current_user.id).first()] *)
Definition find_owned_video (video_id current_user_id : Z) (db : DB)
    : option Video :=
  find (fun v =>
          (id v =? video_id)
          && existsb (fun c => (c_id c =? channel_id v)
                               && (c_owner_id c =? current_user_id))
                     (channels db))
       (videos db).

Definition query_owned_video (video_id current_user_id : Z)
    : M (option Video) :=
  fun s => (s, inr (find_owned_video video_id current_user_id (objs s))).

Definition not_found : Exn := mkExn (HTTPException 404) "Video not found".

(** POST /{video_id}/generate, the [requestGeneration] entry point. *)
Definition generate_video (video_id current_user_id : Z)
    : M VideoProgressResponse :=
  video <- query_owned_video video_id current_user_id ;;
  match video with
  | None => raise not_found
  | Some video =>
      (* Check if video is already being generated *)
      if status_eqb (status video) GENERATING then
        ret (mkProgress (id video) (value (status video))
               (generation_progress video)
               "Video generation in progress" None)
      else
        (* Update video status *)
        setattr (id video) (set_status GENERATING) ;;
        setattr (id video) (set_generation_progress 0) ;;
        commit ;;
        (* TODO in the source: no Celery task is queued here *)
        video <- load video ;;
        ret (mkProgress (id video) (value (status video)) 0
               "Video generation queued (STUB - Celery task not implemented yet)"
               None)
  end.

(** POST /{video_id}/upload, the [requestUpload] entry point. *)
Definition upload_video (video_id current_user_id : Z) : M Video :=
  video <- query_owned_video video_id current_user_id ;;
  match video with
  | None => raise not_found
  | Some video =>
      if negb (status_eqb (status video) GENERATED) then
        raise (mkExn (HTTPException 400)
                 "Video must be generated before uploading")
      else
        (* Update video status *)
        setattr (id video) (set_status UPLOADING) ;;
        commit ;;
        (* TODO in the source: no Celery task is queued here *)
        load video
  end.

End VideosApi.

(* ===================================================================== *)
(** ** tasks/video_tasks.py *)
(* ===================================================================== *)

Module VideoTasks.
Import Py Models Orm.
Local Open Scope orm_scope.

(** The collaborators of one run of [generate_video_task].
    [generate_script] stands for [ContentGeneratorService.generate_script],
    whose file (services/content.py) is not among the sources: it is a
    parameter, giving for (title, description, duration) the ["script"]
    entry of the returned dictionary or the exception the call raises. *)
Record GenerateWorld := mkGenerateWorld {
  generate_script : string -> string -> Z -> Exn + string;
  builder : VideoBuilder.Host;
  utcnow : Z
}.

(** The [try] block of [generate_video_task].  The block is written
    against a renderer that answers when called; [builder w] says what
    the call and the reads of its result do in the run at hand.
    video_tasks.py:83 calls the coroutine function without [await], so
    in the repository the call runs nothing of the renderer and the read
    at line 92 raises [TypeError]: the runs of the repository are those
    of [Unawaited.generates] below, and what is stated for every [w]
    holds for them. *)
Definition generate_body (w : GenerateWorld) (video_id : Z)
    : M TaskResult :=
  (* Get video from database *)
  video <- query_video video_id ;;
  match video with
  | None => ret (TaskError None "Video not found")
  | Some video =>
      (* Update status *)
      setattr (id video) (set_status GENERATING) ;;
      setattr (id video) (set_generation_progress 0) ;;
      commit ;;
      (* Progress callback *)
      let update_progress := fun (progress : Z) (message : string) =>
        setattr (id video) (set_generation_progress progress) ;;
        commit in
      (* Generate script if not exists *)
      cur <- load video ;;
      (if negb (truthy_str (script cur)) then
         script_data <- lift (generate_script w (title cur)
                                (or_empty (description cur))
                                (metadata_duration cur)) ;;
         setattr (id video) (set_script (Some script_data)) ;;
         commit
       else ret tt) ;;
      (* Generate video *)
      cur <- load video ;;
      video_result <- VideoBuilder.generate_video (builder w) (id cur)
                        (or_empty (script cur)) (title cur)
                        (metadata_duration cur) (Some update_progress) ;;
      (* Update video record *)
      setattr (id video)
        (set_video_path (Some (VideoBuilder.r_video_path video_result))) ;;
      setattr (id video)
        (set_thumbnail_path
           (Some (VideoBuilder.r_thumbnail_path video_result))) ;;
      setattr (id video)
        (set_duration (Some (VideoBuilder.r_duration video_result))) ;;
      setattr (id video)
        (set_file_size (Some (VideoBuilder.r_file_size video_result))) ;;
      setattr (id video) (set_status GENERATED) ;;
      setattr (id video) (set_generation_progress 100) ;;
      setattr (id video) (set_updated_at (utcnow w)) ;;
      commit ;;
      cur <- load video ;;
      ret (GenerateSuccess video_id (video_path cur) (duration cur))
  end.

(** The [except Exception as e] block shared by both tasks. *)
Definition mark_failed (video_id : Z) (e : Exn) : M TaskResult :=
  (* Update video status *)
  video <- query_video video_id ;;
  match video with
  | Some video =>
      setattr (id video) (set_status FAILED) ;;
      setattr (id video) (set_error_message (Some (str e))) ;;
      commit
  | None => ret tt
  end ;;
  ret (TaskError (Some video_id) (str e)).

Definition generate_video_task (w : GenerateWorld) (video_id : Z)
    : M TaskResult :=
  try_except (generate_body w video_id) (mark_failed video_id).

(** The collaborators of one run of [upload_video_task]. *)
Record UploadWorld := mkUploadWorld {
  uploader : Uploader.UploadHost;
  upload_utcnow : Z
}.

(** The [try] block of [upload_video_task].  As for generation, the
    call at video_tasks.py:163 is not awaited and the read at line 175
    raises [TypeError]: the runs of the repository are those of
    [Unawaited.uploads]. *)
Definition upload_body (w : UploadWorld) (video_id : Z)
    (privacy_status : string) (notify_subscribers : bool) : M TaskResult :=
  (* Get video from database *)
  video <- query_video video_id ;;
  match video with
  | None => ret (TaskError None "Video not found")
  | Some video =>
      if negb (status_eqb (status video) GENERATED) then
        ret (TaskError None "Video must be generated before uploading")
      else
        (* Update status *)
        setattr (id video) (set_status UPLOADING) ;;
        commit ;;
        (* Prepare metadata *)
        cur <- load video ;;
        let tags := metadata_tags cur in
        let category_id := metadata_category_id cur in
        (* Upload video *)
        upload_result <- Uploader.upload_video (uploader w)
                           (video_path cur) (title cur)
                           (or_empty (description cur)) tags category_id
                           privacy_status (thumbnail_path cur)
                           notify_subscribers None ;;
        (* Update video record *)
        setattr (id video)
          (set_youtube_video_id
             (Some (Uploader.r_youtube_video_id upload_result))) ;;
        setattr (id video) (set_status UPLOADED) ;;
        setattr (id video) (set_published_at (Some (upload_utcnow w))) ;;
        setattr (id video) (set_updated_at (upload_utcnow w)) ;;
        commit ;;
        cur <- load video ;;
        ret (UploadSuccess video_id (youtube_video_id cur)
               (Uploader.r_url upload_result))
  end.

Definition upload_video_task (w : UploadWorld) (video_id : Z)
    (privacy_status : string) (notify_subscribers : bool) : M TaskResult :=
  try_except (upload_body w video_id privacy_status notify_subscribers)
    (mark_failed video_id).

(** The loop of [auto_upload_videos] over one channel; the value is the
    running [uploaded_count]. *)
Definition auto_upload_channel (channel : Channel) (uploaded_count : Z)
    : M Z :=
  try_except
    ((* Find generated videos for this channel *)
     videos <- query_videos
                 (fun v => (channel_id v =? c_id channel)
                           && status_eqb (status v) GENERATED) ;;
     (* .limit(1): upload one video at a time *)
     let videos := firstn 1 videos in
     for_fold videos
       (fun (video : Video) (uploaded_count : Z) =>
          (* Queue upload task *)
          delay (UploadVideoJob (id video) "public" true) ;;
          ret (uploaded_count + 1))
       uploaded_count)
    (fun _ => ret uploaded_count).

Definition auto_upload_videos : M TaskResult :=
  try_except
    ((* Find channels with auto_upload enabled *)
     channels <- query_channels
                   (fun c => Bool.eqb (c_auto_upload c) true
                             && channel_status_eqb (c_status c) ACTIVE) ;;
     uploaded_count <- for_fold channels auto_upload_channel 0 ;;
     ret (BatchSuccess (Z.of_nat (List.length channels)) uploaded_count))
    (fun e => ret (TaskError None (str e))).

End VideoTasks.

(* ===================================================================== *)
(** ** tasks/analytics_tasks.py *)
(* ===================================================================== *)

Module AnalyticsTasks.
Import Py Models Orm.
Local Open Scope orm_scope.

(** The collaborators of one run of [sync_video_analytics]. *)
Record SyncWorld := mkSyncWorld {
  metrics : Uploader.MetricsHost;
  sync_utcnow : Z
}.

(** [VideoAnalytics(video_id=video_id)]; every other attribute is
    assigned before the object is flushed. *)
Definition new_analytics (video_id : Z) : VideoAnalytics :=
  mkVideoAnalytics video_id 0 0 0 0 0 0 (inject_Z 0) (inject_Z 0) (Int 0)
    (inject_Z 0) 0.

(** The eleven assignments under "Update analytics", as the commit
    that follows them stores them: [engagement_rate] is a Float column,
    so the int [0] of the conditional expression is stored, and read
    back, as [0.0]. *)
Definition assign (d : Uploader.AnalyticsData) (now : Z)
    (a : VideoAnalytics) : VideoAnalytics :=
  mkVideoAnalytics (a_video_id a)
    (Uploader.d_views d) (Uploader.d_likes d) (Uploader.d_dislikes d)
    (Uploader.d_comments d) (Uploader.d_shares d)
    (Uploader.d_watch_time d) (Uploader.d_average_view_duration d)
    (Uploader.d_click_through_rate d)
    (Float (to_float (Uploader.d_engagement_rate d)))
    (Uploader.d_revenue d) now.

(** [sync_video_analytics].  The fetch at analytics_tasks.py:62 is not
    awaited and the read at line 72 raises [TypeError] before anything
    is committed: the runs of the repository are those of
    [Unawaited.syncs]. *)
Definition sync_video_analytics (w : SyncWorld) (video_id : Z)
    : M TaskResult :=
  try_except
    ((* Get video from database *)
     video <- query_video video_id ;;
     match video with
     | None => ret (TaskError None "Video not found")
     | Some video =>
         if negb (status_eqb (status video) UPLOADED)
            || negb (truthy_str (youtube_video_id video))
         then ret (TaskSkipped "Video not uploaded")
         else
           (* Fetch analytics from YouTube *)
           analytics_data <-
             Uploader.get_video_analytics (metrics w)
               (or_empty (youtube_video_id video)) ;;
           (* Get or create analytics record *)
           analytics <- query_analytics video_id ;;
           match analytics with
           | None => add_analytics (new_analytics video_id)
           | Some _ => ret tt
           end ;;
           (* Update analytics *)
           setattr_analytics video_id
             (assign analytics_data (sync_utcnow w)) ;;
           commit ;;
           (* the result reads [analytics.views] and
              [analytics.engagement_rate] back from the committed row *)
           ret (SyncSuccess video_id (Uploader.d_views analytics_data)
                  (Float (to_float
                            (Uploader.d_engagement_rate analytics_data))))
     end)
    (fun e => ret (TaskError (Some video_id) (str e))).

End AnalyticsTasks.

(* ===================================================================== *)
(** ** Vocabulary of the statements *)
(* ===================================================================== *)

Module Spec.
Import Py Models Orm.

(** The failures the specification calls terminal for the provider. *)
Definition terminal (e : Exn) : bool :=
  match exn_class e with
  | AIProviderAuthError | AIProviderInvalidRequestError => true
  | _ => false
  end.

(** "Propagated immediately, without any retry": one call, no sleep, the
    error re-raised. *)
Definition propagates_immediately (generate_text : Provider.GenerateText)
    (max_retries : Z) : Prop :=
  forall e, generate_text 0%nat = inl e -> terminal e = true ->
    Provider.generate_with_retry generate_text max_retries
    = (Provider.mkRun 1 [] (Some e), inl e).

(** The backoff delays after [k] failed attempts: 2^0, ..., 2^(k-1). *)
Definition backoff (k : nat) : list Z :=
  map (fun attempt => 2 ^ attempt) (range (Z.of_nat k)).

(** [last_error] after [k] failed calls that raised [err 0 .. err (k-1)]. *)
Definition last_of (err : nat -> Exn) (k : nat) : option Exn :=
  match k with
  | O => None
  | S k' => Some (err k')
  end.

(** A channel the auto-upload campaign considers. *)
Definition eligible (c : Channel) : bool :=
  Bool.eqb (c_auto_upload c) true && channel_status_eqb (c_status c) ACTIVE.

(** A GENERATED video of channel [c]. *)
Definition generated_in (c : Channel) (v : Video) : bool :=
  (channel_id v =? c_id c) && status_eqb (status v) GENERATED.

(** The channel a job works for: the channel of the job's video. *)
Definition job_for (db : DB) (c : Channel) (j : Job) : bool :=
  match j with
  | UploadVideoJob video_id _ _ =>
      match find_video video_id (videos db) with
      | Some v => channel_id v =? c_id c
      | None => false
      end
  | _ => false
  end.

(** The oldest of a list of videos by [created_at] (the first of them
    on a tie). *)
Fixpoint oldest (l : list Video) : option Video :=
  match l with
  | [] => None
  | v :: l' =>
      match oldest l' with
      | Some w => if created_at w <? created_at v then Some w else Some v
      | None => Some v
      end
  end.

(** The upload job the campaign enqueues for a video. *)
Definition upload_job (v : Video) : Job := UploadVideoJob (id v) "public" true.

Definition jobs_of (v : option Video) : list Job :=
  match v with
  | Some v => [upload_job v]
  | None => []
  end.

(** "Exactly one upload job, for the oldest GENERATED video of the
    channel, and none when there is no such video." *)
Definition uploads_oldest (db : DB) : Prop :=
  forall c, In c (channels db) -> eligible c = true ->
    filter (job_for db c)
      (queue (fst (VideoTasks.auto_upload_videos (open_session db []))))
    = jobs_of (oldest (filter (generated_in c) (videos db))).

(** "Generation is started only from DRAFT or FAILED": the request
    leaves a video in any other state as it is. *)
Definition generation_only_from_draft_or_failed (db : DB)
    (video_id user : Z) : Prop :=
  forall v, VideosApi.find_owned_video video_id user db = Some v ->
    status v <> DRAFT -> status v <> FAILED ->
    let s := fst (VideosApi.generate_video video_id user (open_session db []))
    in option_map status (find_video video_id (videos (rows s)))
       = Some (status v).

End Spec.

(* ===================================================================== *)
(** ** Database states named in the statements *)
(* ===================================================================== *)

Module Views.
Import Py Models Orm.

(** The database after [f] was applied to the video [video_id]. *)
Definition with_video (video_id : Z) (f : Video -> Video) (db : DB) : DB :=
  mkDB (update_video video_id f (videos db)) (channels db) (analytics db).

(** [status = GENERATING; generation_progress = 0] *)
Definition start_generating (v : Video) : Video :=
  set_generation_progress 0 (set_status GENERATING v).

(** [status = FAILED; error_message = str(e)] *)
Definition fail_with (e : Exn) (v : Video) : Video :=
  set_error_message (Some (str e)) (set_status FAILED v).

(** [status = UPLOADING], then the four assignments after a successful
    upload. *)
Definition finish_upload (youtube_id : string) (now : Z) (v : Video)
    : Video :=
  set_updated_at now
    (set_published_at (Some now)
       (set_status UPLOADED
          (set_youtube_video_id (Some youtube_id)
             (set_status UPLOADING v)))).

(** The video after the progress callback ran for each of [ps]. *)
Fixpoint progressed (ps : list (Z * string)) (v : Video) : Video :=
  match ps with
  | [] => v
  | p :: ps' => progressed ps' (set_generation_progress (fst p) v)
  end.

(** The commits of the progress callback for each of [ps], when the
    video was [f v] before. *)
Fixpoint progress_trace (video_id : Z) (f : Video -> Video) (db : DB)
    (ps : list (Z * string)) : list DB :=
  match ps with
  | [] => []
  | p :: ps' =>
      with_video video_id
        (fun v => set_generation_progress (fst p) (f v)) db
      :: progress_trace video_id
           (fun v => set_generation_progress (fst p) (f v)) db ps'
  end.

(** [not video.script] *)
Definition needs_script (v : Video) : bool := negb (truthy_str (script v)).

(** The call of [generate_script] the task makes for [v]. *)
Definition script_call (w : VideoTasks.GenerateWorld) (v : Video)
    : Exn + string :=
  VideoTasks.generate_script w (title v) (or_empty (description v))
    (metadata_duration v).

(** Script generation does not raise for [v]. *)
Definition script_ok (w : VideoTasks.GenerateWorld) (v : Video) : Prop :=
  needs_script v = false \/ exists s, script_call w v = inr s.

(** The generation job for [v] raises [e]: in script generation, or in
    rendering after some number of progress steps. *)
Definition job_raises (w : VideoTasks.GenerateWorld) (v : Video) (e : Exn)
    : Prop :=
  (needs_script v = true /\ script_call w v = inl e)
  \/ (script_ok w v
      /\ exists k, VideoBuilder.fault (VideoTasks.builder w) = Some (k, e)).

(** The loaded video [x] when rendering starts, for a task that found
    the row [v]. *)
Definition with_script (w : VideoTasks.GenerateWorld) (v x : Video)
    : Video :=
  if needs_script v then
    match script_call w v with
    | inr s => set_script (Some s) (start_generating x)
    | inl _ => start_generating x
    end
  else start_generating x.

(** The commits up to that point. *)
Definition script_commits (w : VideoTasks.GenerateWorld) (v : Video)
    (video_id : Z) (db : DB) : list DB :=
  with_video video_id start_generating db
  :: (if needs_script v then
        match script_call w v with
        | inr s => [with_video video_id (with_script w v) db]
        | inl _ => []
        end
      else []).

(** The seven assignments under "Update video record". *)
Definition finish_generation (r : VideoBuilder.VideoResult) (now : Z)
    (v : Video) : Video :=
  set_updated_at now
    (set_generation_progress 100
       (set_status GENERATED
          (set_file_size (Some (VideoBuilder.r_file_size r))
             (set_duration (Some (VideoBuilder.r_duration r))
                (set_thumbnail_path (Some (VideoBuilder.r_thumbnail_path r))
                   (set_video_path (Some (VideoBuilder.r_video_path r))
                      v)))))).

(** The database after the analytics record of [video_id] was created
    if missing and assigned from the fetched dictionary [d]. *)
Definition with_analytics (video_id : Z) (d : Uploader.AnalyticsData)
    (now : Z) (db : DB) : DB :=
  mkDB (videos db) (channels db)
    (update_analytics video_id (AnalyticsTasks.assign d now)
       (match find_analytics video_id (analytics db) with
        | Some _ => analytics db
        | None => analytics db ++ [AnalyticsTasks.new_analytics video_id]
        end)).

End Views.

(* ===================================================================== *)
(** ** The services as the tasks call them *)
(* ===================================================================== *)

Module Unawaited.
Import Py Models Orm.

(** [generate_video], [upload_video] and [get_video_analytics] are
    declared [async def] (services/video.py:32, services/upload.py:26
    and 164).  The tasks are plain functions and call them without
    [await] (video_tasks.py:83 and 163, analytics_tasks.py:62): the call
    returns a coroutine object and runs nothing of the body, no progress
    callback included.  The next statement that reads an entry of the
    result (video_tasks.py:92 and 175, analytics_tasks.py:72) raises
    this exception.  Between the call and that read nothing is committed
    (the sync may add a new record to its session, which is discarded
    with the session), so the committed states and the result of a task
    are those it has with a service that raises this exception when
    called. *)
Definition not_subscriptable : Exn :=
  mkExn TypeError "'coroutine' object is not subscriptable".

(** The collaborator of a generation run of the repository: nothing is
    reported, and the result cannot be read. *)
Definition generates (w : VideoTasks.GenerateWorld) : Prop :=
  VideoBuilder.fault (VideoTasks.builder w)
  = Some (0%nat, not_subscriptable).

(** The collaborator of an upload run of the repository. *)
Definition uploads (w : VideoTasks.UploadWorld) : Prop :=
  Uploader.upload_fault (VideoTasks.uploader w) = Some not_subscriptable.

(** The collaborator of an analytics sync of the repository. *)
Definition syncs (w : AnalyticsTasks.SyncWorld) : Prop :=
  Uploader.metrics_fault (AnalyticsTasks.metrics w)
  = Some not_subscriptable.

(** Worlds of that kind.  The clock of the renderer, the file system and
    the random draws do not matter: the bodies that use them do not
    run. *)
Definition generate_world
    (generate_script : string -> string -> Z -> Exn + string)
    (utcnow : Z) : VideoTasks.GenerateWorld :=
  VideoTasks.mkGenerateWorld generate_script
    (VideoBuilder.mkHost "" 0 (Some (0%nat, not_subscriptable)))
    utcnow.

Definition upload_world (utcnow : Z) : VideoTasks.UploadWorld :=
  VideoTasks.mkUploadWorld
    (Uploader.mkUploadHost 0 (Some not_subscriptable)) utcnow.

Definition sync_world (utcnow : Z) : AnalyticsTasks.SyncWorld :=
  AnalyticsTasks.mkSyncWorld
    (Uploader.mkMetricsHost 0 0 0 0 0 0 (inject_Z 0) (inject_Z 0)
       (inject_Z 0) (Some not_subscriptable))
    utcnow.

End Unawaited.

(* ===================================================================== *)
(** ** Concrete inputs *)
(* ===================================================================== *)

Module Samples.
Import Py Models Orm Provider.

(** A provider that refuses the first call for authentication reasons and
    answers the second. *)
Definition answer : AIResponse := mkAIResponse "ok" "gpt-4" "OpenAI" 12.

Definition auth_error : Exn :=
  mkExn AIProviderAuthError "OpenAI authentication failed: 401".

Definition auth_then_answer : GenerateText :=
  fun n => match n with O => inl auth_error | _ => inr answer end.

(** Scenario E: two transient failures, then an answer. *)
Definition transient (n : nat) : Exn :=
  match n with
  | O => mkExn AIProviderTimeoutError "Ollama request timed out after 120s"
  | _ => mkExn AIProviderRateLimitError "OpenAI rate limit exceeded: 429"
  end.

Definition two_transient_then_answer : GenerateText :=
  fun n => match n with
           | O | S O => inl (transient n)
           | _ => inr answer
           end.

(** One channel of user 7 and one video of it that is already on
    YouTube. *)
Definition channel1 : Channel := mkChannel 1 ACTIVE true false 7.

Definition video_in (video_id : Z) (st : VideoStatus) (progress : Z)
    (created : Z) : Video :=
  mkVideo video_id "Title" None (Some "Script") st None None None None None
    None progress None created created None 1.

Definition db_uploaded : DB :=
  mkDB [video_in 5 UPLOADED 100 10] [channel1] [].

(** The same channel with a second video, rendered and waiting for its
    upload. *)
Definition db_two : DB :=
  mkDB [video_in 5 UPLOADED 100 10; video_in 6 GENERATED 100 20]
    [channel1] [].

Definition upload_world : VideoTasks.UploadWorld :=
  VideoTasks.mkUploadWorld (Uploader.mkUploadHost 123456 None) 1000.

(** A new video without a script, and a generation run in which the
    renderer times out after four progress steps. *)
Definition draft : Video :=
  mkVideo 9 "Ten facts" (Some "About facts") None DRAFT None None None None
    None None 0 None 50 50 None 1.

Definition db_draft : DB := mkDB [draft] [channel1] [].

Definition render_timeout : Exn :=
  mkExn (OtherError "TimeoutError") "rendering timed out after 600s".

Definition timeout_world : VideoTasks.GenerateWorld :=
  VideoTasks.mkGenerateWorld
    (fun _ _ _ => inr "Once upon a time")
    (VideoBuilder.mkHost "20250101120000" 2048 (Some (4%nat, render_timeout)))
    1000.

(** A generation run in which nothing fails. *)
Definition fine_world : VideoTasks.GenerateWorld :=
  VideoTasks.mkGenerateWorld
    (fun _ _ _ => inr "Once upon a time")
    (VideoBuilder.mkHost "20250101120000" 2048 None)
    1000.

(** An upload run in which the publishing service fails. *)
Definition quota_error : Exn :=
  mkExn (OtherError "HttpError") "quotaExceeded".

Definition failing_upload_world : VideoTasks.UploadWorld :=
  VideoTasks.mkUploadWorld (Uploader.mkUploadHost 123456 (Some quota_error))
    2000.

(** A published video, and two metric fetches for it: one that
    answers, and one that fails. *)
Definition published : Video :=
  mkVideo 5 "Title" None (Some "Script") UPLOADED (Some "STUB_123456")
    (Some "/app/storage/videos/video_5.mp4") None (Some 300) (Some 2048)
    None 100 None 10 20 (Some 20) 1.

Definition db_published : DB := mkDB [published] [channel1] [].

Definition some_views : Uploader.MetricsHost :=
  Uploader.mkMetricsHost 1000 50 10 2 10 150000 (180 # 1) (5 # 100)
    (3 # 1) None.

Definition service_down : Exn :=
  mkExn (OtherError "HttpError") "503 backendError".

Definition no_metrics : Uploader.MetricsHost :=
  Uploader.mkMetricsHost 1000 50 10 2 10 150000 (180 # 1) (5 # 100)
    (3 # 1) (Some service_down).

(** Two rendered videos of one channel; the table holds the newer one
    first. *)
Definition db_backlog : DB :=
  mkDB [video_in 2 GENERATED 100 200; video_in 1 GENERATED 100 100]
    [channel1] [].

End Samples.

(* ===================================================================== *)
(** ** tasks/video_tasks.py and tasks/analytics_tasks.py: the campaigns
     that create work *)
(* ===================================================================== *)

Module Campaigns.
Import Py Models Orm.
Local Open Scope orm_scope.

(** The dictionary [generate_complete_video_content] returns: the three
    entries the task reads with [content[...]] and the three it reads
    with [content.get(...)]. *)
Record Content := mkContent {
  ct_title : string;
  ct_description : string;
  ct_script : string;
  ct_tags : option (list string);
  ct_category : option string;
  ct_estimated_duration : option Z
}.

(** The collaborators of one run of [auto_generate_videos]:
    - [content_for]  what [generate_complete_video_content] yields when
                     called for a channel (its arguments, the niche and
                     the default duration, are attributes of the channel
                     row): the dictionary, or the exception raised by the
                     call or by a missing required entry.
                     services/content.py is not among the sources, so
                     this is a parameter;
    - [new_id]       the primary key the database assigns to a row
                     inserted into the given table;
    - [campaign_utcnow]  the clock, for the [created_at] and
                     [updated_at] column defaults. *)
Record GenerateCampaignWorld := mkGenerateCampaignWorld {
  content_for : Channel -> Exn + Content;
  new_id : list Video -> Z;
  campaign_utcnow : Z
}.

(** [db.add(video)] *)
Definition add_video (v : Video) : M unit :=
  fun s =>
    (mkSession (rows s)
       (mkDB (videos (objs s) ++ [v]) (channels (objs s))
          (analytics (objs s)))
       (queue s) (commits s), inr tt).

(** The table a new row is inserted into. *)
Definition current_videos : M (list Video) :=
  fun s => (s, inr (videos (objs s))).

(** [Video(title=..., description=..., script=..., channel_id=...,
    metadata={"tags", "category", "duration"}, status=DRAFT)] once
    flushed: the key and the column defaults filled in.  The metadata
    key written is ["category"]; no ["category_id"] is written. *)
Definition new_video (w : GenerateCampaignWorld) (channel : Channel)
    (content : Content) (table : list Video) : Video :=
  mkVideo (new_id w table) (ct_title content)
    (Some (ct_description content)) (Some (ct_script content)) DRAFT
    None None None None None
    (Some (mkMetadata
             (Some (match ct_estimated_duration content with
                    | Some d => d
                    | None => 300
                    end))
             (Some (match ct_tags content with
                    | Some t => t
                    | None => []
                    end))
             None))
    0 None (campaign_utcnow w) (campaign_utcnow w) None (c_id channel).

(** The body of the loop of [auto_generate_videos] for one channel; the
    value is the running [generated_count]. *)
Definition auto_generate_channel (w : GenerateCampaignWorld)
    (channel : Channel) (generated_count : Z) : M Z :=
  try_except
    ((* Generate video content *)
     content <- lift (content_for w channel) ;;
     (* Create video record *)
     table <- current_videos ;;
     let video := new_video w channel content table in
     add_video video ;;
     commit ;;
     (* Queue video generation task *)
     delay (GenerateVideoJob (id video)) ;;
     ret (generated_count + 1))
    (fun _ => ret generated_count).

Definition auto_generate_videos (w : GenerateCampaignWorld)
    : M TaskResult :=
  try_except
    ((* Find channels with auto_generate enabled *)
     channels <- query_channels
                   (fun c => Bool.eqb (c_auto_generate c) true
                             && channel_status_eqb (c_status c) ACTIVE) ;;
     generated_count <- for_fold channels (auto_generate_channel w) 0 ;;
     ret (BatchSuccess (Z.of_nat (List.length channels)) generated_count))
    (fun e => ret (TaskError None (str e))).

(** The dictionary [sync_all_analytics] returns. *)
Inductive SyncAllResult :=
| SyncAllSuccess (total_videos synced failed : Z)
| SyncAllError (message : string).

(** [Video.status == UPLOADED, Video.youtube_video_id.isnot(None)] *)
Definition to_sync (v : Video) : bool :=
  status_eqb (status v) UPLOADED
  && match youtube_video_id v with Some _ => true | None => false end.

(** The loop of [sync_all_analytics]; the value is the pair
    ([synced_count], [failed_count]). *)
Definition sync_all_video (video : Video) (counts : Z * Z) : M (Z * Z) :=
  try_except
    ((* Queue individual sync task *)
     delay (SyncAnalyticsJob (id video)) ;;
     ret (fst counts + 1, snd counts))
    (fun _ => ret (fst counts, snd counts + 1)).

Definition sync_all_analytics : M SyncAllResult :=
  try_except
    ((* Find all uploaded videos *)
     videos <- query_videos to_sync ;;
     counts <- for_fold videos sync_all_video (0, 0) ;;
     ret (SyncAllSuccess (Z.of_nat (List.length videos))
            (fst counts) (snd counts)))
    (fun e => ret (SyncAllError (str e))).

End Campaigns.

(* ===================================================================== *)
(** ** api/v1/videos.py: the other endpoints *)
(* ===================================================================== *)

Module VideosCrud.
Import Py Models Orm VideosApi.
Local Open Scope orm_scope.

(** [VideoCreate] *)
Record VideoCreate := mkVideoCreate {
  vc_title : string;
  vc_description : option string;
  vc_channel_id : Z;
  vc_metadata : option Metadata
}.

(** The key the database assigns and the clock of the column defaults. *)
Record Insert := mkInsert {
  insert_id : list Video -> Z;
  insert_utcnow : Z
}.

(** [db.query(Channel).filter(Channel.id == channel_id,
    Channel.owner_id == current_user.id).first()] *)
Definition find_owned_channel (channel_id current_user_id : Z) (db : DB)
    : option Channel :=
  find (fun c => (c_id c =? channel_id) && (c_owner_id c =? current_user_id))
       (channels db).

Definition channel_not_found : Exn :=
  mkExn (HTTPException 404) "Channel not found".

(** [video_data.metadata or {}] *)
Definition metadata_or_empty (md : option Metadata) : Metadata :=
  match md with
  | Some md => md
  | None => mkMetadata None None None
  end.

Definition query_owned_channel (channel_id current_user_id : Z)
    : M (option Channel) :=
  fun s => (s, inr (find_owned_channel channel_id current_user_id (objs s))).

(** POST / *)
Definition create_video (ins : Insert) (video_data : VideoCreate)
    (current_user_id : Z) : M Video :=
  (* Verify channel ownership *)
  channel <- query_owned_channel (vc_channel_id video_data)
               current_user_id ;;
  match channel with
  | None => raise channel_not_found
  | Some _ =>
      (* Create new video *)
      table <- Campaigns.current_videos ;;
      let new_video :=
        mkVideo (insert_id ins table) (vc_title video_data)
          (vc_description video_data) None DRAFT None None None None None
          (Some (metadata_or_empty (vc_metadata video_data))) 0 None
          (insert_utcnow ins) (insert_utcnow ins) None
          (vc_channel_id video_data) in
      Campaigns.add_video new_video ;;
      commit ;;
      ret new_video
  end.

(** GET /{video_id} *)
Definition get_video (video_id current_user_id : Z) : M Video :=
  video <- query_owned_video video_id current_user_id ;;
  match video with
  | None => raise not_found
  | Some video => ret video
  end.

(** [db.delete(video)]: the row goes, and with it the analytics row the
    relationship [Video.analytics] cascades to. *)
Definition delete (video : Video) : M unit :=
  fun s =>
    (mkSession (rows s)
       (mkDB
          (filter (fun v => negb (id v =? id video)) (videos (objs s)))
          (channels (objs s))
          (filter (fun a => negb (a_video_id a =? id video))
             (analytics (objs s))))
       (queue s) (commits s), inr tt).

(** DELETE /{video_id} *)
Definition delete_video (video_id current_user_id : Z) : M unit :=
  video <- query_owned_video video_id current_user_id ;;
  match video with
  | None => raise not_found
  | Some video =>
      delete video ;;
      commit
  end.

(** GET /{video_id}/progress *)
Definition get_video_progress (video_id current_user_id : Z)
    : M VideoProgressResponse :=
  video <- query_owned_video video_id current_user_id ;;
  match video with
  | None => raise not_found
  | Some video =>
      ret (mkProgress (id video) (value (status video))
             (generation_progress video)
             ("Video is " ++ value (status video))%string
             (error_message video))
  end.

(** [VideoStatus(s)]: the member with that value, [ValueError]
    otherwise. *)
Definition status_of_value (s : string) : Exn + VideoStatus :=
  if String.eqb s "draft" then inr DRAFT
  else if String.eqb s "generating" then inr GENERATING
  else if String.eqb s "generated" then inr GENERATED
  else if String.eqb s "uploading" then inr UPLOADING
  else if String.eqb s "uploaded" then inr UPLOADED
  else if String.eqb s "failed" then inr FAILED
  else inl (mkExn (OtherError "ValueError")
              ("'" ++ s ++ "' is not a valid VideoStatus")%string).

(** [VideoUpdate] as [dict(exclude_unset=True)] sees it: for every
    field, [None] when the request leaves it out, [Some x] when it
    carries the value [x], which may be [null]. *)
Record VideoUpdate := mkVideoUpdate {
  vu_title : option (option string);
  vu_description : option (option string);
  vu_script : option (option string);
  vu_metadata : option (option Metadata);
  vu_status : option (option string)
}.

Definition set_title (x : string) (v : Video) : Video :=
  mkVideo (id v) x (description v) (script v) (Models.status v)
    (youtube_video_id v) (video_path v) (thumbnail_path v) (duration v)
    (file_size v) (metadata v) (generation_progress v) (error_message v)
    (created_at v) (updated_at v) (published_at v) (Models.channel_id v).

Definition set_description (x : option string) (v : Video) : Video :=
  mkVideo (id v) (title v) x (script v) (Models.status v)
    (youtube_video_id v) (video_path v) (thumbnail_path v) (duration v)
    (file_size v) (metadata v) (generation_progress v) (error_message v)
    (created_at v) (updated_at v) (published_at v) (Models.channel_id v).

Definition set_metadata (x : option Metadata) (v : Video) : Video :=
  mkVideo (id v) (title v) (description v) (script v) (Models.status v)
    (youtube_video_id v) (video_path v) (thumbnail_path v) (duration v)
    (file_size v) x (generation_progress v) (error_message v)
    (created_at v) (updated_at v) (published_at v) (Models.channel_id v).

(** [VideoStatus(update_data["status"])]; [None] is not a value of the
    enumeration. *)
Definition status_of_field (x : option string) : Exn + VideoStatus :=
  match x with
  | Some s => status_of_value s
  | None => inl (mkExn (OtherError "ValueError")
                   "None is not a valid VideoStatus")
  end.

(** [f"Invalid status: {update_data['status']}"] *)
Definition invalid_status (x : option string) : Exn :=
  mkExn (HTTPException 400)
    ("Invalid status: " ++ match x with Some s => s | None => "None" end).

(** What the commit raises when [title], a column that is NOT NULL, was
    assigned [None]. *)
Definition integrity_error : Exn :=
  mkExn (OtherError "IntegrityError")
    "NOT NULL constraint failed: videos.title".

(** [setattr(video, field, value)] for a field of the request. *)
Definition assign_field {A} (video_id : Z) (field : option A)
    (set : A -> Video -> Video) : M unit :=
  match field with
  | Some value => setattr video_id (set value)
  | None => ret tt
  end.

(** PUT /{video_id} *)
Definition update_video (utcnow : Z) (video_id : Z)
    (video_data : VideoUpdate) (current_user_id : Z) : M Video :=
  video <- query_owned_video video_id current_user_id ;;
  match video with
  | None => raise not_found
  | Some video =>
      (* Validate status if provided *)
      new_status <-
        match vu_status video_data with
        | Some value =>
            try_except
              (x <- lift (status_of_field value) ;; ret (Some x))
              (fun _ => raise (invalid_status value))
        | None => ret None
        end ;;
      (* Update fields *)
      assign_field (id video) (vu_title video_data)
        (fun x v => match x with Some x => set_title x v | None => v end) ;;
      assign_field (id video) (vu_description video_data)
        set_description ;;
      assign_field (id video) (vu_script video_data) set_script ;;
      assign_field (id video) (vu_metadata video_data) set_metadata ;;
      assign_field (id video) new_status set_status ;;
      setattr (id video) (set_updated_at utcnow) ;;
      match vu_title video_data with
      | Some None => raise integrity_error
      | _ =>
          commit ;;
          video <- load video ;;
          ret video
      end
  end.

(** [VideoListResponse] *)
Record VideoListResponse := mkVideoList {
  total : Z;
  page : list Video
}.

(** [db.query(Video).join(Channel).filter(Channel.owner_id == user)]:
    one row for every pair of a video and a channel with the video's
    [channel_id], kept when the channel is the user's. *)
Definition owned_videos (current_user_id : Z) (db : DB) : list Video :=
  flat_map
    (fun v =>
       map (fun _ => v)
         (filter (fun c => (c_id c =? channel_id v)
                           && (c_owner_id c =? current_user_id))
            (channels db)))
    (videos db).

(** In [list_videos] the parameter [status] hides the module
    [fastapi.status]: [status.HTTP_...] is an attribute lookup on the
    filter value, a [str] or [None], and raises [AttributeError] before
    the [HTTPException] is built. *)
Definition attribute_error (status : option string) (attribute : string)
    : Exn :=
  mkExn (OtherError "AttributeError")
    (match status with
     | Some _ => "'str' object has no attribute '"
     | None => "'NoneType' object has no attribute '"
     end ++ attribute ++ "'")%string.

Definition query_owned_videos (current_user_id : Z) : M (list Video) :=
  fun s => (s, inr (owned_videos current_user_id (objs s))).

(** The block [if channel_id: ...] of [list_videos]. *)
Definition filter_by_channel (channel_id : option Z)
    (status : option string) (current_user_id : Z) (query : list Video)
    : M (list Video) :=
  match channel_id with
  | Some cid =>
      if cid =? 0 then ret query
      else
        (* Verify channel ownership *)
        channel <- query_owned_channel cid current_user_id ;;
        match channel with
        | None => raise (attribute_error status "HTTP_404_NOT_FOUND")
        | Some _ =>
            ret (filter (fun v => Models.channel_id v =? cid) query)
        end
  | None => ret query
  end.

(** The block [if status: ...] of [list_videos]. *)
Definition filter_by_status (status : option string) (query : list Video)
    : M (list Video) :=
  match status with
  | Some st =>
      if String.eqb st "" then ret query
      else
        try_except
          (video_status <- lift (status_of_value st) ;;
           ret (filter (fun v => status_eqb (Models.status v) video_status)
                  query))
          (fun _ => raise (attribute_error status "HTTP_400_BAD_REQUEST"))
  | None => ret query
  end.

(** GET /.  [channel_id] and [status] are the optional filters, [None]
    when absent; [skip] and [limit] arrive validated ([skip >= 0],
    [1 <= limit <= 100]). *)
Definition list_videos (channel_id : option Z) (status : option string)
    (skip limit : Z) (current_user_id : Z) : M VideoListResponse :=
  (* Build query *)
  query <- query_owned_videos current_user_id ;;
  (* Apply filters *)
  query <- filter_by_channel channel_id status current_user_id query ;;
  query <- filter_by_status status query ;;
  (* Get total count *)
  let total := Z.of_nat (List.length query) in
  (* Get paginated results *)
  let videos := firstn (Z.to_nat limit) (skipn (Z.to_nat skip) query) in
  ret (mkVideoList total videos).

End VideosCrud.

(* ===================================================================== *)
(** ** More concrete inputs *)
(* ===================================================================== *)

Module MoreSamples.
Import Py Models Orm Samples.

(** A video whose generation failed earlier. *)
Definition failed_once : Video :=
  mkVideo 9 "Ten facts" (Some "About facts") (Some "Once upon a time")
    FAILED None None None None None None 40
    (Some "rendering timed out after 600s") 50 60 None 1.

Definition db_failed_once : DB := mkDB [failed_once] [channel1] [].

(** A generation run whose content service is down; it matters only
    for videos without a script. *)
Definition no_script_world : VideoTasks.GenerateWorld :=
  VideoTasks.mkGenerateWorld
    (fun _ _ _ => inl (mkExn AIProviderError "OpenAI error: down"))
    (VideoBuilder.mkHost "20250101120000" 2048 None)
    1000.

(** Three channels that generate automatically; the content service
    fails for the second. *)
Definition channel_n (n owner : Z) : Channel := mkChannel n ACTIVE true true owner.

Definition db_three_channels : DB :=
  mkDB [] [channel_n 1 7; channel_n 2 7; channel_n 3 8] [].

Definition idea (n : Z) : Campaigns.Content :=
  Campaigns.mkContent ("Idea " ++ str_int n) "About it" "Script text"
    (Some ["ai"]) (Some "Education") None.

(** Keys as SQLite assigns them: one more than the largest in use. *)
Definition max_plus_one (table : list Video) : Z :=
  1 + fold_right Z.max 0 (map id table).

Definition campaign_world : Campaigns.GenerateCampaignWorld :=
  Campaigns.mkGenerateCampaignWorld
    (fun c => if c_id c =? 2
              then inl (mkExn AIProviderRateLimitError
                          "OpenAI rate limit exceeded: 429")
              else inr (idea (c_id c)))
    max_plus_one 500.

(** A published video whose platform identifier is the empty string,
    next to a properly published one. *)
Definition unnamed_upload : Video :=
  mkVideo 4 "No id" None (Some "Script") UPLOADED (Some "") None None None
    None None 100 None 10 20 (Some 20) 1.

Definition db_uploads : DB := mkDB [unnamed_upload; published] [channel1] [].

(** A request to create a video in channel 1, and the database's
    insert parameters. *)
Definition create_request : VideosCrud.VideoCreate :=
  VideosCrud.mkVideoCreate "Fresh idea" (Some "Words") 1 None.

Definition insert : VideosCrud.Insert :=
  VideosCrud.mkInsert max_plus_one 700.

(** Two users, two channels, three videos. *)
Definition channel2 : Channel := mkChannel 2 ACTIVE false false 8.

Definition video_of (video_id channel : Z) (st : VideoStatus) : Video :=
  mkVideo video_id "Title" None (Some "Script") st None None None None None
    None 0 None 10 10 None channel.

Definition db_shared : DB :=
  mkDB [video_of 1 1 DRAFT; video_of 2 2 DRAFT; video_of 3 1 GENERATED]
    [channel1; channel2]
    [mkVideoAnalytics 1 10 1 0 1 0 30 (inject_Z 3) (inject_Z 0) (Int 0)
       (inject_Z 0) 5].

End MoreSamples.

(* ===================================================================== *)
(** ** More vocabulary for the statements *)
(* ===================================================================== *)

Module MoreViews.
Import Py Models Orm Campaigns.

(** A channel the auto-generate campaign considers. *)
Definition generates (c : Channel) : bool :=
  Bool.eqb (c_auto_generate c) true
  && channel_status_eqb (c_status c) ACTIVE.

(** Content generation answers for the channel. *)
Definition content_ok (w : GenerateCampaignWorld) (c : Channel) : bool :=
  match content_for w c with
  | inr _ => true
  | inl _ => false
  end.

(** The videos one campaign run inserts for the channels [cs], in
    order, when the table holds [table] at the start. *)
Fixpoint created (w : GenerateCampaignWorld) (cs : list Channel)
    (table : list Video) : list Video :=
  match cs with
  | [] => []
  | c :: cs' =>
      match content_for w c with
      | inr content =>
          let v := new_video w c content table in
          v :: created w cs' (table ++ [v])
      | inl _ => created w cs' table
      end
  end.

(** The database after the videos [vs] were appended. *)
Definition with_new_videos (vs : list Video) (db : DB) : DB :=
  mkDB (videos db ++ vs) (channels db) (analytics db).

(** The states committed while [vs] are inserted one by one. *)
Fixpoint insert_trace (vs : list Video) (db : DB) : list DB :=
  match vs with
  | [] => []
  | v :: vs' =>
      with_new_videos [v] db :: insert_trace vs' (with_new_videos [v] db)
  end.

(** The database assigns keys that are not in use. *)
Definition fresh_ids (w : GenerateCampaignWorld) : Prop :=
  forall table, ~ In (new_id w table) (map id table).

(** The request changes only the status, to the value [x]. *)
Definition status_only (x : string) : VideosCrud.VideoUpdate :=
  VideosCrud.mkVideoUpdate None None None None (Some (Some x)).

End MoreViews.

(* ===================================================================== *)
(** ** api/v1/analytics.py: the endpoints that read the analytics
     records *)
(* ===================================================================== *)

Module AnalyticsApi.
Import Py Models Orm VideosApi VideosCrud.
Local Open Scope orm_scope.

(** [VideoAnalytics(video_id=video_id)] after [add], [commit] and
    [refresh]: the column defaults filled in, [last_updated] from the
    clock. *)
Definition created_analytics (video_id utcnow : Z) : VideoAnalytics :=
  mkVideoAnalytics video_id 0 0 0 0 0 0 (inject_Z 0) (inject_Z 0)
    (Float (inject_Z 0)) (inject_Z 0) utcnow.

(** GET /video/{video_id} *)
Definition get_video_analytics (utcnow : Z) (video_id current_user_id : Z)
    : M VideoAnalytics :=
  (* Verify video ownership *)
  video <- query_owned_video video_id current_user_id ;;
  match video with
  | None => raise not_found
  | Some _ =>
      (* Get or create analytics *)
      analytics <- query_analytics video_id ;;
      match analytics with
      | Some analytics => ret analytics
      | None =>
          (* Create analytics record if it doesn't exist *)
          let analytics := created_analytics video_id utcnow in
          add_analytics analytics ;;
          commit ;;
          ret analytics
      end
  end.

(** The dictionary stored in [top_video]. *)
Record TopVideo := mkTopVideo {
  tv_video_id : Z;
  tv_title : string;
  tv_views : Z;
  tv_engagement_rate : Num
}.

(** An entry of [recent_performance]. *)
Record Performance := mkPerformance {
  pf_video_id : Z;
  pf_title : string;
  pf_views : Z;
  pf_likes : Z;
  pf_engagement_rate : Num
}.

(** The local variables of [get_channel_analytics] that its loop
    updates. *)
Record Totals := mkTotals {
  t_views : Z;
  t_likes : Z;
  t_comments : Z;
  t_watch_time : Z;
  t_revenue : Q;
  t_engagement_rates : list Num;
  t_top_video : option TopVideo;
  t_max_views : Z;
  t_recent_performance : list Performance
}.

Definition no_totals : Totals :=
  mkTotals 0 0 0 0 (inject_Z 0) [] None 0 [].

(** [x > 0] on a number. *)
Definition positive (x : Num) : bool :=
  match x with
  | Int n => 0 <? n
  | Float q => negb (Qle_bool q (inject_Z 0))
  end.

(** The value of a number as a float. *)
Definition float (x : Num) : Q :=
  match x with
  | Int n => inject_Z n
  | Float q => q
  end.

Definition top_of (video : Video) (analytics : VideoAnalytics) : TopVideo :=
  mkTopVideo (id video) (title video) (views analytics)
    (engagement_rate analytics).

Definition performance_of (video : Video) (analytics : VideoAnalytics)
    : Performance :=
  mkPerformance (id video) (title video) (views analytics)
    (likes analytics) (engagement_rate analytics).

(** The body of [if analytics: ...] in the loop. *)
Definition account (video : Video) (analytics : VideoAnalytics)
    (t : Totals) : Totals :=
  mkTotals
    (t_views t + views analytics)
    (t_likes t + likes analytics)
    (t_comments t + comments analytics)
    (t_watch_time t + watch_time analytics)
    (Qplus (t_revenue t) (revenue analytics))
    (if positive (engagement_rate analytics)
     then t_engagement_rates t ++ [engagement_rate analytics]
     else t_engagement_rates t)
    (* Track top performing video *)
    (if t_max_views t <? views analytics
     then Some (top_of video analytics)
     else t_top_video t)
    (if t_max_views t <? views analytics
     then views analytics
     else t_max_views t)
    (* Recent performance (last 10 videos) *)
    (if (List.length (t_recent_performance t) <? 10)%nat
     then t_recent_performance t ++ [performance_of video analytics]
     else t_recent_performance t).

(** The body of [for video in videos]. *)
Definition channel_video (video : Video) (t : Totals) : M Totals :=
  analytics <- query_analytics (id video) ;;
  match analytics with
  | Some analytics => ret (account video analytics t)
  | None => ret t
  end.

(** [sum(engagement_rates)] *)
Definition sum (l : list Num) : Q :=
  fold_left (fun acc x => Qplus acc (float x)) l (inject_Z 0).

(** [a / n]: [ZeroDivisionError] when [n] is 0. *)
Definition div (a : Q) (n : Z) : Exn + Q :=
  if n =? 0 then inl (mkExn ZeroDivisionError "float division by zero")
  else inr (Qdiv a (inject_Z n)).

(** [sum(engagement_rates) / len(engagement_rates)
     if engagement_rates else 0.0] *)
Definition average (engagement_rates : list Num) : Exn + Q :=
  match engagement_rates with
  | [] => inr (inject_Z 0)
  | _ :: _ =>
      div (sum engagement_rates) (Z.of_nat (List.length engagement_rates))
  end.

(** [ChannelAnalyticsResponse] *)
Record ChannelAnalytics := mkChannelAnalytics {
  ca_channel_id : Z;
  total_videos : Z;
  total_views : Z;
  total_likes : Z;
  total_comments : Z;
  total_watch_time : Z;
  average_engagement_rate : Q;
  total_revenue : Q;
  top_performing_video : option TopVideo;
  recent_performance : list Performance
}.

(** GET /channel/{channel_id} *)
Definition get_channel_analytics (channel_id current_user_id : Z)
    : M ChannelAnalytics :=
  (* Verify channel ownership *)
  channel <- query_owned_channel channel_id current_user_id ;;
  match channel with
  | None => raise channel_not_found
  | Some _ =>
      (* Get channel videos *)
      videos <- query_videos (fun v => Models.channel_id v =? channel_id) ;;
      (* Calculate aggregated analytics *)
      let total_videos := Z.of_nat (List.length videos) in
      t <- for_fold videos channel_video no_totals ;;
      (* Calculate average engagement rate *)
      avg_engagement <- lift (average (t_engagement_rates t)) ;;
      ret (mkChannelAnalytics channel_id total_videos (t_views t)
             (t_likes t) (t_comments t) (t_watch_time t) avg_engagement
             (t_revenue t) (t_top_video t) (t_recent_performance t))
  end.

(** The local variables of [get_analytics_summary] that its loop
    updates: [total_views], [total_revenue], [engagement_rates]. *)
Record SummaryTotals := mkSummaryTotals {
  st_views : Z;
  st_revenue : Q;
  st_engagement_rates : list Num
}.

(** The body of [if analytics: ...] in the loop of
    [get_analytics_summary]. *)
Definition summary_account (analytics : VideoAnalytics)
    (t : SummaryTotals) : SummaryTotals :=
  mkSummaryTotals
    (st_views t + views analytics)
    (Qplus (st_revenue t) (revenue analytics))
    (if positive (engagement_rate analytics)
     then st_engagement_rates t ++ [engagement_rate analytics]
     else st_engagement_rates t).

(** The body of [for video in videos] in [get_analytics_summary]. *)
Definition summary_video (video : Video) (t : SummaryTotals)
    : M SummaryTotals :=
  analytics <- query_analytics (id video) ;;
  match analytics with
  | Some analytics => ret (summary_account analytics t)
  | None => ret t
  end.

(** [AnalyticsSummaryResponse] *)
Record AnalyticsSummary := mkAnalyticsSummary {
  s_total_channels : Z;
  s_total_videos : Z;
  s_total_views : Z;
  s_total_revenue : Q;
  s_average_engagement_rate : Q
}.

(** GET /summary *)
Definition get_analytics_summary (current_user_id : Z)
    : M AnalyticsSummary :=
  (* Get user's channels *)
  channels <- query_channels (fun c => c_owner_id c =? current_user_id) ;;
  let total_channels := Z.of_nat (List.length channels) in
  (* Get all videos across all channels *)
  let channel_ids := map c_id channels in
  videos <- match channel_ids with
            | [] => ret []
            | _ :: _ =>
                query_videos
                  (fun v => existsb (Z.eqb (Models.channel_id v))
                              channel_ids)
            end ;;
  let total_videos := Z.of_nat (List.length videos) in
  (* Calculate aggregated metrics *)
  t <- for_fold videos summary_video
         (mkSummaryTotals 0 (inject_Z 0) []) ;;
  (* Calculate average engagement rate *)
  avg_engagement <- lift (average (st_engagement_rates t)) ;;
  ret (mkAnalyticsSummary total_channels total_videos (st_views t)
         (st_revenue t) avg_engagement).

End AnalyticsApi.

(* ===================================================================== *)
(** ** Vocabulary for the statements about the analytics endpoints *)
(* ===================================================================== *)

Module AnalyticsViews.
Import Py Models Orm AnalyticsApi.

(** The videos of a channel, in table order. *)
Definition channel_videos (channel_id : Z) (db : DB) : list Video :=
  filter (fun v => Models.channel_id v =? channel_id) (videos db).

(** The videos among [vs] that have an analytics record, each with the
    record a lookup by its key finds. *)
Definition records (db : DB) (vs : list Video)
    : list (Video * VideoAnalytics) :=
  flat_map
    (fun v => match find_analytics (id v) (analytics db) with
              | Some a => [(v, a)]
              | None => []
              end)
    vs.

Definition sum_Z (l : list Z) : Z := fold_right Z.add 0 l.

Definition sum_Q (l : list Q) : Q := fold_right Qplus (inject_Z 0) l.

(** The loop variables after the records [rs] were accounted for. *)
Definition accounted (rs : list (Video * VideoAnalytics)) (t : Totals)
    : Totals :=
  fold_left (fun t p => account (fst p) (snd p) t) rs t.

Definition summarised (rs : list (Video * VideoAnalytics))
    (t : SummaryTotals) : SummaryTotals :=
  fold_left (fun t p => summary_account (snd p) t) rs t.

(** The views a video contributes: those of its record, 0 without
    one. *)
Definition views_of (db : DB) (v : Video) : Z :=
  match find_analytics (id v) (analytics db) with
  | Some a => views a
  | None => 0
  end.

(** The rates that enter the average. *)
Definition positive_rates (rs : list (Video * VideoAnalytics)) : list Num :=
  filter positive (map (fun p => engagement_rate (snd p)) rs).

(** The channels of a user, and the videos in them. *)
Definition user_channels (user : Z) (db : DB) : list Channel :=
  filter (fun c => c_owner_id c =? user) (channels db).

Definition user_videos (user : Z) (db : DB) : list Video :=
  filter (fun v => existsb (Z.eqb (Models.channel_id v))
                     (map c_id (user_channels user db)))
    (videos db).

(** [rc] is the report the user gets for the channel [c]. *)
Definition report_of (user : Z) (db : DB) (c : Channel)
    (rc : ChannelAnalytics) : Prop :=
  snd (get_channel_analytics (c_id c) user (open_session db []))
  = inr rc.

(** The database after the analytics record [a] was added. *)
Definition with_record (a : VideoAnalytics) (db : DB) : DB :=
  mkDB (videos db) (channels db) (analytics db ++ [a]).

End AnalyticsViews.

(* ===================================================================== *)
(** ** The pipeline: requests, jobs and campaigns, one at a time *)
(* ===================================================================== *)

Module Pipeline.
Import Py Models Orm.

(** The operations of the repository that write to the database, each
    with the collaborators of that run.  The endpoints that only read
    (list, get, progress, channel report, summary) are left out. *)
Inductive Op :=
| CreateVideo (ins : VideosCrud.Insert) (video_data : VideosCrud.VideoCreate)
    (current_user_id : Z)
| UpdateVideo (utcnow video_id : Z) (video_data : VideosCrud.VideoUpdate)
    (current_user_id : Z)
| DeleteVideo (video_id current_user_id : Z)
| RequestGeneration (video_id current_user_id : Z)
| RequestUpload (video_id current_user_id : Z)
| RequestAnalytics (utcnow video_id current_user_id : Z)
| GenerateJob (w : VideoTasks.GenerateWorld) (video_id : Z)
| UploadJob (w : VideoTasks.UploadWorld) (video_id : Z)
    (privacy_status : string) (notify_subscribers : bool)
| SyncJob (w : AnalyticsTasks.SyncWorld) (video_id : Z)
| AutoGenerateJob (w : Campaigns.GenerateCampaignWorld)
| AutoUploadJob
| SyncAllJob.

(** One operation on its own session; the session is closed afterwards,
    so the next operation starts from [rows]. *)
Definition run (op : Op) (db : DB) (q : list Job) : Session :=
  match op with
  | CreateVideo ins video_data user =>
      fst (VideosCrud.create_video ins video_data user (open_session db q))
  | UpdateVideo utcnow video_id video_data user =>
      fst (VideosCrud.update_video utcnow video_id video_data user
             (open_session db q))
  | DeleteVideo video_id user =>
      fst (VideosCrud.delete_video video_id user (open_session db q))
  | RequestGeneration video_id user =>
      fst (VideosApi.generate_video video_id user (open_session db q))
  | RequestUpload video_id user =>
      fst (VideosApi.upload_video video_id user (open_session db q))
  | RequestAnalytics utcnow video_id user =>
      fst (AnalyticsApi.get_video_analytics utcnow video_id user
             (open_session db q))
  | GenerateJob w video_id =>
      fst (VideoTasks.generate_video_task w video_id (open_session db q))
  | UploadJob w video_id privacy_status notify_subscribers =>
      fst (VideoTasks.upload_video_task w video_id privacy_status
             notify_subscribers (open_session db q))
  | SyncJob w video_id =>
      fst (AnalyticsTasks.sync_video_analytics w video_id
             (open_session db q))
  | AutoGenerateJob w =>
      fst (Campaigns.auto_generate_videos w (open_session db q))
  | AutoUploadJob =>
      fst (VideoTasks.auto_upload_videos (open_session db q))
  | SyncAllJob =>
      fst (Campaigns.sync_all_analytics (open_session db q))
  end.

(** Every database state a reader can see while [ops] run in sequence:
    the initial one and the one after each commit. *)
Fixpoint observed (ops : list Op) (db : DB) (q : list Job) : list DB :=
  db :: match ops with
        | [] => []
        | op :: rest =>
            let s := run op db q in
            commits s ++ observed rest (rows s) (queue s)
        end.

(** GENERATED or later on the happy path. *)
Definition generated_or_later (st : VideoStatus) : bool :=
  match st with
  | GENERATED | UPLOADING | UPLOADED => true
  | _ => false
  end.

(** The progress property as the specification words it. *)
Definition progress_iff (v : Video) : Prop :=
  0 <= generation_progress v <= 100
  /\ (generation_progress v = 100
      <-> generated_or_later (status v) = true).

(** The property at every observable state of a run of [ops]. *)
Definition progress_iff_always (ops : list Op) (db : DB) (q : list Job)
    : Prop :=
  forall d, In d (observed ops db q) ->
  forall v, In v (videos d) -> progress_iff v.

(** Every video of [db] has a progress in [P]. *)
Definition progress_in (P : Z -> Prop) (db : DB) : Prop :=
  Forall (fun v => P (generation_progress v)) (videos db).

(** The percentages the renderer reports in the run of [op], and stores
    at the end when it answers, are in [P]. *)
Definition reports_in (P : Z -> Prop) (op : Op) : Prop :=
  match op with
  | GenerateJob w _ =>
      match VideoBuilder.fault (VideoTasks.builder w) with
      | Some (k, _) =>
          forall p, In p (firstn k VideoBuilder.steps) -> P (fst p)
      | None =>
          (forall p, In p VideoBuilder.steps -> P (fst p)) /\ P 100
      end
  | _ => True
  end.

(** The jobs of [ops] run as the repository calls its services. *)
Definition unawaited (op : Op) : Prop :=
  match op with
  | GenerateJob w _ => Unawaited.generates w
  | UploadJob w _ _ _ => Unawaited.uploads w
  | SyncJob w _ => Unawaited.syncs w
  | _ => True
  end.

(** A database with one channel of user 7 and no video yet. *)
Definition db_empty : DB := mkDB [] [Samples.channel1] [].

(** Two requests: create a video, then set its status. *)
Definition create_then_mark_generated : list Op :=
  [ CreateVideo MoreSamples.insert MoreSamples.create_request 7;
    UpdateVideo 800 1 (MoreViews.status_only "generated") 7 ].

(** The same after a generation job and an upload job of the
    repository. *)
Definition create_generate_upload : list Op :=
  [ CreateVideo MoreSamples.insert MoreSamples.create_request 7;
    GenerateJob (Unawaited.generate_world (fun _ _ _ => inr "Script") 900)
      1;
    UpdateVideo 950 1 (MoreViews.status_only "generated") 7;
    UploadJob (Unawaited.upload_world 1000) 1 "public" true ].

End Pipeline.

(* ===================================================================== *)
(** ** Lookup and update of rows *)
(* ===================================================================== *)

Module OrmFacts.
Import Py Models Orm.

Lemma status_eqb_eq a b : status_eqb a b = true <-> a = b.
Proof. destruct a, b; simpl; split; intro H; congruence. Qed.

Lemma status_eqb_neq a b : status_eqb a b = false <-> a <> b.
Proof. destruct a, b; simpl; split; intro H; congruence. Qed.

Lemma find_video_update_same video_id f l :
  (forall v, id (f v) = id v) ->
  find_video video_id (update_video video_id f l)
  = option_map f (find_video video_id l).
Proof.
  intros Hid. unfold find_video, update_video.
  induction l as [|v l IH]; simpl; [reflexivity|].
  destruct (id v =? video_id) eqn:E.
  - rewrite Hid, E. reflexivity.
  - rewrite E. exact IH.
Qed.

Lemma update_video_compose video_id f g l :
  (forall v, id (g v) = id v) ->
  update_video video_id f (update_video video_id g l)
  = update_video video_id (fun v => f (g v)) l.
Proof.
  intros Hid. unfold update_video. rewrite map_map.
  apply map_ext. intros v.
  destruct (id v =? video_id) eqn:E.
  - rewrite Hid, E. reflexivity.
  - rewrite E. reflexivity.
Qed.

Lemma find_video_id video_id l v :
  find_video video_id l = Some v -> id v = video_id.
Proof.
  unfold find_video. intros H. apply find_some in H.
  destruct H as [_ H]. apply Z.eqb_eq in H. exact H.
Qed.

Lemma find_video_In video_id l v :
  find_video video_id l = Some v -> In v l.
Proof. unfold find_video. intros H. apply find_some in H. tauto. Qed.

Lemma find_owned_video_found video_id user db v :
  VideosApi.find_owned_video video_id user db = Some v ->
  id v = video_id /\ In v (videos db)
  /\ exists v0, find_video video_id (videos db) = Some v0.
Proof.
  unfold VideosApi.find_owned_video. intros H.
  apply find_some in H. destruct H as [Hin H].
  apply andb_true_iff in H. destruct H as [Hid _].
  split; [apply Z.eqb_eq; exact Hid|]. split; [exact Hin|].
  unfold find_video.
  destruct (find (fun v1 => id v1 =? video_id) (videos db)) as [v0|] eqn:E.
  - exists v0. reflexivity.
  - exfalso. apply (find_none _ _ E) in Hin.
    rewrite Hid in Hin. discriminate.
Qed.

(** Normalisation of a session after a run of attribute writes. *)
Ltac run_orm :=
  repeat (first
    [ progress simpl
    | rewrite update_video_compose by reflexivity
    | rewrite find_video_update_same by reflexivity ]).

End OrmFacts.

(* ===================================================================== *)
(** ** Properties of the retry wrapper *)
(* ===================================================================== *)

Module ProviderFacts.
Import Py Provider Spec Samples.

Lemma range_of_nat n : range (Z.of_nat n) = map Z.of_nat (seq 0 n).
Proof. unfold range. rewrite Nat2Z.id. reflexivity. Qed.

Lemma range_nonpos m : m <= 0 -> range m = [].
Proof.
  intros H. unfold range.
  replace (Z.to_nat m) with 0%nat by lia. reflexivity.
Qed.

(** The loop from attempt [a] on, when the next [k] calls raise and the
    one after them answers. *)
Lemma retry_loop_success gt m (err : nat -> Exn) r :
  forall k a n sl le,
    (k < n)%nat ->
    Z.of_nat (a + n) <= m ->
    (forall i, (a <= i < a + k)%nat -> gt i = inl (err i)) ->
    gt (a + k)%nat = inr r ->
    retry_loop gt m (map Z.of_nat (seq a n)) (mkRun a sl le)
    = (mkRun (S (a + k))
         (sl ++ map (fun x => 2 ^ x) (map Z.of_nat (seq a k)))
         (match k with O => le | S k' => Some (err (a + k')%nat) end),
       inr r).
Proof.
  induction k as [|k IH]; intros a n sl le Hk Hm Herr Hok.
  - destruct n as [|n]; [lia|]. simpl.
    rewrite Nat.add_0_r in Hok. rewrite Hok.
    rewrite Nat.add_0_r, app_nil_r. reflexivity.
  - destruct n as [|n]; [lia|]. simpl.
    rewrite (Herr a) by lia.
    replace (Z.of_nat a <? m - 1) with true
      by (symmetry; apply Z.ltb_lt; lia).
    rewrite (IH (S a) n) .
    + rewrite <- app_assoc.
      destruct k as [|k']; simpl;
        rewrite ?Nat.add_succ_r, ?Nat.add_0_r; reflexivity.
    + lia.
    + lia.
    + intros i Hi. apply Herr. lia.
    + replace (S a + k)%nat with (a + S k)%nat by lia. exact Hok.
Qed.

(** The loop from attempt [a] on, when every remaining call raises. *)
Lemma retry_loop_exhausted gt m (err : nat -> Exn) :
  forall n a sl le,
    Z.of_nat (a + n) = m ->
    (forall i, (a <= i < a + n)%nat -> gt i = inl (err i)) ->
    retry_loop gt m (map Z.of_nat (seq a n)) (mkRun a sl le)
    = (mkRun (a + n)
         (sl ++ map (fun x => 2 ^ x) (map Z.of_nat (seq a (n - 1))))
         (match n with O => le | S n' => Some (err (a + n')%nat) end),
       inl (raise_value
              (match n with O => le | S n' => Some (err (a + n')%nat) end))).
Proof.
  induction n as [|n IH]; intros a sl le Hm Herr.
  - simpl. rewrite Nat.add_0_r, app_nil_r. reflexivity.
  - simpl. rewrite (Herr a) by lia.
    destruct n as [|n'].
    + replace (Z.of_nat a <? m - 1) with false
        by (symmetry; apply Z.ltb_ge; lia).
      simpl. rewrite Nat.add_0_r, app_nil_r.
      replace (a + 1)%nat with (S a) by lia. reflexivity.
    + replace (Z.of_nat a <? m - 1) with true
        by (symmetry; apply Z.ltb_lt; lia).
      rewrite (IH (S a)).
      * rewrite <- app_assoc. simpl.
        rewrite ?Nat.sub_0_r, ?Nat.add_succ_r, ?Nat.add_0_r. reflexivity.
      * lia.
      * intros i Hi. apply Herr. lia.
Qed.

(** C4, as stated, fails: an authentication failure on the first call is
    not propagated; the wrapper sleeps one second, calls again and
    returns the second call's answer. *)
Lemma retry_auth_error_is_retried :
  generate_with_retry auth_then_answer 3
  = (mkRun 2 [1] (Some auth_error), inr answer)
  /\ ~ propagates_immediately auth_then_answer 3.
Proof.
  split; [reflexivity|].
  intros H. specialize (H auth_error eq_refl eq_refl).
  vm_compute in H. discriminate H.
Qed.

(** C4, amended: [generate_with_retry] retries after every exception,
    whatever its class.  If the first [k] calls raise and [k] is below
    [max_retries], call [k] is made after the backoff delays
    2^0, ..., 2^(k-1) and its answer is returned; if all [max_retries]
    calls raise, the delays are 2^0, ..., 2^(max_retries-2) and the last
    error is raised. *)
Theorem generate_with_retry_retries_every_failure
    (generate_text : GenerateText) (err : nat -> Exn) (max_retries : Z)
    (k : nat) :
  (forall i, (i < k)%nat -> generate_text i = inl (err i)) ->
  (Z.of_nat k < max_retries ->
   forall r, generate_text k = inr r ->
     generate_with_retry generate_text max_retries
     = (mkRun (S k) (backoff k) (last_of err k), inr r))
  /\ (Z.of_nat k = max_retries -> 0 < max_retries ->
      generate_with_retry generate_text max_retries
      = (mkRun k (backoff (k - 1)) (last_of err k),
         inl (err (k - 1)%nat))).
Proof.
  intros Herr. split.
  - intros Hk r Hr. unfold generate_with_retry, start, backoff.
    rewrite <- (Z2Nat.id max_retries) at 2 by lia.
    rewrite !range_of_nat.
    rewrite (retry_loop_success generate_text max_retries err r k 0
               (Z.to_nat max_retries) [] None).
    + simpl. destruct k; reflexivity.
    + lia.
    + simpl. lia.
    + intros i Hi. apply Herr. lia.
    + exact Hr.
  - intros Hk Hpos. unfold generate_with_retry, start, backoff.
    rewrite <- Hk. rewrite !range_of_nat.
    rewrite (retry_loop_exhausted generate_text (Z.of_nat k) err k 0
               [] None).
    + destruct k as [|k']; [simpl in Hk; lia|].
      simpl. rewrite Nat.sub_0_r. reflexivity.
    + reflexivity.
    + intros i Hi. apply Herr. lia.
Qed.

Lemma generate_with_retry_retries_every_failure_witness :
  generate_with_retry two_transient_then_answer 3
  = (mkRun 3 [1; 2] (Some (transient 1)), inr answer).
Proof.
  refine (proj1 (generate_with_retry_retries_every_failure
                   two_transient_then_answer transient 3 2 _) _ answer _).
  - intros i Hi. destruct i as [|[|i]]; [reflexivity | reflexivity | lia].
  - reflexivity.
  - reflexivity.
Defined.

(** C9: with a non-positive [max_retries] the wrapper makes no call to
    the provider, sleeps never, returns no response, and raises the
    [TypeError] of [raise None], which is not a provider error. *)
Theorem generate_with_retry_no_budget (generate_text : GenerateText)
    (max_retries : Z) :
  max_retries <= 0 ->
  exists e,
    generate_with_retry generate_text max_retries
    = (mkRun 0 [] None, inl e)
    /\ e = raise_value None
    /\ exn_class e = TypeError
    /\ is_provider_error e = false.
Proof.
  intros H. exists (raise_value None).
  unfold generate_with_retry. rewrite (range_nonpos max_retries H).
  simpl. repeat split; reflexivity.
Qed.

Lemma generate_with_retry_no_budget_witness :
  exists e,
    generate_with_retry two_transient_then_answer 0
    = (mkRun 0 [] None, inl e)
    /\ e = raise_value None
    /\ exn_class e = TypeError
    /\ is_provider_error e = false.
Proof.
  apply (generate_with_retry_no_budget two_transient_then_answer 0).
  lia.
Defined.

End ProviderFacts.

(* ===================================================================== *)
(** ** Properties of the request entry points *)
(* ===================================================================== *)

Module ApiFacts.
Import Py Models Orm VideosApi OrmFacts Spec Views Samples.

(** C1: on a video in GENERATING the request returns the current status
    and progress and changes nothing: no attribute is written, nothing
    is committed, no job is added to the queue. *)
Theorem generate_video_idempotent_while_generating
    (db : DB) (q : list Job) (video_id user : Z) (v : Video) :
  find_owned_video video_id user db = Some v ->
  status v = GENERATING ->
  generate_video video_id user (open_session db q)
  = (open_session db q,
     inr (mkProgress video_id "generating" (generation_progress v)
            "Video generation in progress" None)).
Proof.
  intros Hfind Hst.
  destruct (find_owned_video_found _ _ _ _ Hfind) as [Hid _].
  unfold generate_video, bind, query_owned_video, open_session; simpl.
  rewrite Hfind, Hst, Hid. reflexivity.
Qed.

Lemma generate_video_idempotent_while_generating_witness :
  generate_video 5 7
    (open_session (mkDB [video_in 5 GENERATING 40 10] [channel1] [])
       [GenerateVideoJob 5])
  = (open_session (mkDB [video_in 5 GENERATING 40 10] [channel1] [])
       [GenerateVideoJob 5],
     inr (mkProgress 5 "generating" 40 "Video generation in progress" None)).
Proof.
  apply (generate_video_idempotent_while_generating
           (mkDB [video_in 5 GENERATING 40 10] [channel1] [])
           [GenerateVideoJob 5] 5 7 (video_in 5 GENERATING 40 10));
    reflexivity.
Defined.

(** What the request does from any other state. *)
Lemma generate_video_restarts
    (db : DB) (q : list Job) (video_id user : Z) (v : Video) :
  find_owned_video video_id user db = Some v ->
  status v <> GENERATING ->
  generate_video video_id user (open_session db q)
  = (mkSession (with_video video_id start_generating db)
       (with_video video_id start_generating db) q
       [with_video video_id start_generating db],
     inr (mkProgress video_id "generating" 0
            "Video generation queued (STUB - Celery task not implemented yet)"
            None)).
Proof.
  intros Hfind Hst.
  destruct (find_owned_video_found _ _ _ _ Hfind) as [Hid [_ [v0 Hv0]]].
  apply status_eqb_neq in Hst.
  unfold generate_video, bind, query_owned_video, open_session; simpl.
  rewrite Hfind, Hst. unfold setattr, commit, load, ret; simpl.
  rewrite Hid.
  rewrite update_video_compose by reflexivity.
  rewrite find_video_update_same by reflexivity.
  rewrite Hv0. simpl.
  rewrite (find_video_id _ _ _ Hv0). reflexivity.
Qed.

(** C8, as stated, fails: the request moves a video that is already
    UPLOADED back to GENERATING. *)
Lemma generate_video_restarts_uploaded :
  option_map status
    (find_video 5
       (videos (rows (fst (generate_video 5 7 (open_session db_uploaded []))))))
  = Some GENERATING
  /\ ~ generation_only_from_draft_or_failed db_uploaded 5 7.
Proof.
  split; [reflexivity|].
  intros H.
  specialize (H (video_in 5 UPLOADED 100 10) eq_refl).
  simpl in H. assert (Some GENERATING = Some UPLOADED) as E.
  { apply H; discriminate. }
  discriminate E.
Qed.

(** C8, amended: the request is refused for no state; only GENERATING is
    answered without a change.  From every other state (DRAFT and
    FAILED, and also GENERATED, UPLOADING and UPLOADED) it commits the
    video as GENERATING with progress 0 and answers "generating" with
    progress 0.  It adds no job to the queue. *)
Theorem generate_video_from_any_other_state
    (db : DB) (q : list Job) (video_id user : Z) (v : Video) :
  find_owned_video video_id user db = Some v ->
  status v <> GENERATING ->
  let run := generate_video video_id user (open_session db q) in
  (exists v', find_video video_id (videos (rows (fst run))) = Some v'
              /\ status v' = GENERATING /\ generation_progress v' = 0)
  /\ rows (fst run) = with_video video_id start_generating db
  /\ queue (fst run) = q
  /\ exists message,
       snd run = inr (mkProgress video_id "generating" 0 message None).
Proof.
  intros Hfind Hst. cbv zeta.
  rewrite (generate_video_restarts db q video_id user v Hfind Hst). simpl.
  destruct (find_owned_video_found _ _ _ _ Hfind) as [_ [_ [v0 Hv0]]].
  split; [|split; [reflexivity | split; [reflexivity | eauto]]].
  exists (start_generating v0).
  rewrite find_video_update_same by reflexivity.
  rewrite Hv0. simpl. auto.
Qed.

Lemma generate_video_from_any_other_state_witness :
  let run := generate_video 5 7 (open_session db_uploaded []) in
  (exists v', find_video 5 (videos (rows (fst run))) = Some v'
              /\ status v' = GENERATING /\ generation_progress v' = 0)
  /\ rows (fst run) = with_video 5 start_generating db_uploaded
  /\ queue (fst run) = []
  /\ exists message,
       snd run = inr (mkProgress 5 "generating" 0 message None).
Proof.
  apply (generate_video_from_any_other_state db_uploaded [] 5 7
           (video_in 5 UPLOADED 100 10)).
  - reflexivity.
  - discriminate.
Defined.

(** The upload request on a video that is not GENERATED. *)
Lemma upload_video_refused
    (db : DB) (q : list Job) (video_id user : Z) (v : Video) :
  find_owned_video video_id user db = Some v ->
  status v <> GENERATED ->
  upload_video video_id user (open_session db q)
  = (open_session db q,
     inl (mkExn (HTTPException 400)
            "Video must be generated before uploading")).
Proof.
  intros Hfind Hst. apply status_eqb_neq in Hst.
  unfold upload_video, bind, query_owned_video, open_session; simpl.
  rewrite Hfind, Hst. reflexivity.
Qed.

(** The upload request on a GENERATED video. *)
Lemma upload_video_accepted
    (db : DB) (q : list Job) (video_id user : Z) (v : Video) :
  find_owned_video video_id user db = Some v ->
  status v = GENERATED ->
  fst (upload_video video_id user (open_session db q))
  = mkSession (with_video video_id (set_status UPLOADING) db)
      (with_video video_id (set_status UPLOADING) db) q
      [with_video video_id (set_status UPLOADING) db].
Proof.
  intros Hfind Hst.
  destruct (find_owned_video_found _ _ _ _ Hfind) as [Hid _].
  unfold upload_video, bind, query_owned_video, open_session; simpl.
  rewrite Hfind, Hst. simpl. rewrite Hid. reflexivity.
Qed.

End ApiFacts.

(* ===================================================================== *)
(** ** Properties of the upload task *)
(* ===================================================================== *)

Module UploadFacts.
Import Py Models Orm VideoTasks OrmFacts Spec Views Samples.
Import VideosApi ApiFacts.

(** The task on a video that is not GENERATED. *)
Lemma upload_video_task_refused (w : UploadWorld) (db : DB) (q : list Job)
    (video_id : Z) (privacy_status : string) (notify_subscribers : bool)
    (v : Video) :
  find_video video_id (videos db) = Some v ->
  status v <> GENERATED ->
  upload_video_task w video_id privacy_status notify_subscribers
    (open_session db q)
  = (open_session db q,
     inr (TaskError None "Video must be generated before uploading")).
Proof.
  intros Hfind Hst. apply status_eqb_neq in Hst.
  unfold upload_video_task, upload_body, try_except, bind, query_video,
    open_session; simpl.
  rewrite Hfind, Hst. reflexivity.
Qed.

(** The task on a GENERATED video when the upload succeeds. *)
Lemma upload_video_task_uploaded (w : UploadWorld) (db : DB) (q : list Job)
    (video_id : Z) (privacy_status : string) (notify_subscribers : bool)
    (v : Video) :
  find_video video_id (videos db) = Some v ->
  status v = GENERATED ->
  Uploader.upload_fault (uploader w) = None ->
  exists youtube_id,
    fst (upload_video_task w video_id privacy_status notify_subscribers
           (open_session db q))
    = mkSession
        (with_video video_id (finish_upload youtube_id (upload_utcnow w)) db)
        (with_video video_id (finish_upload youtube_id (upload_utcnow w)) db)
        q
        [ with_video video_id (set_status UPLOADING) db;
          with_video video_id (finish_upload youtube_id (upload_utcnow w)) db ].
Proof.
  intros Hfind Hst Hok.
  pose proof (find_video_id _ _ _ Hfind) as Hid.
  eexists.
  unfold upload_video_task, upload_body, try_except, bind, query_video,
    open_session; simpl.
  rewrite Hfind, Hst. simpl.
  unfold Uploader.upload_video. rewrite Hok. rewrite Hid.
  unfold with_video, finish_upload. run_orm.
  reflexivity.
Qed.

(** The task on a GENERATED video when the upload raises. *)
Lemma upload_video_task_failed (w : UploadWorld) (db : DB) (q : list Job)
    (video_id : Z) (privacy_status : string) (notify_subscribers : bool)
    (v : Video) (e : Exn) :
  find_video video_id (videos db) = Some v ->
  status v = GENERATED ->
  Uploader.upload_fault (uploader w) = Some e ->
  upload_video_task w video_id privacy_status notify_subscribers
    (open_session db q)
  = (mkSession
       (with_video video_id
          (fun x => fail_with e (set_status UPLOADING x)) db)
       (with_video video_id
          (fun x => fail_with e (set_status UPLOADING x)) db)
       q
       [ with_video video_id (set_status UPLOADING) db;
         with_video video_id
           (fun x => fail_with e (set_status UPLOADING x)) db ],
     inr (TaskError (Some video_id) (str e))).
Proof.
  intros Hfind Hst Hko.
  pose proof (find_video_id _ _ _ Hfind) as Hid.
  unfold upload_video_task, upload_body, try_except, bind, query_video,
    open_session; simpl.
  rewrite Hfind, Hst. simpl.
  unfold Uploader.upload_video. rewrite Hko. rewrite Hid.
  unfold mark_failed, bind, query_video. run_orm.
  rewrite Hfind. run_orm. rewrite Hid. run_orm.
  reflexivity.
Qed.

(** C2: on a video that is not GENERATED the upload task returns the
    error result "Video must be generated before uploading" and the
    upload request raises the 400 error of the same text; neither writes
    an attribute, commits, or touches the queue.  On a GENERATED video
    both proceed: the first state the task commits, and the state the
    request commits, is the database with that video set to UPLOADING. *)
Theorem upload_requires_generated (db : DB) (q : list Job) (video_id : Z) :
  (forall w privacy_status notify_subscribers v,
      find_video video_id (videos db) = Some v ->
      (status v <> GENERATED ->
       upload_video_task w video_id privacy_status notify_subscribers
         (open_session db q)
       = (open_session db q,
          inr (TaskError None "Video must be generated before uploading")))
      /\ (status v = GENERATED ->
          hd_error
            (commits
               (fst (upload_video_task w video_id privacy_status
                       notify_subscribers (open_session db q))))
          = Some (with_video video_id (set_status UPLOADING) db)
          /\ option_map status
               (find_video video_id
                  (videos (with_video video_id (set_status UPLOADING) db)))
             = Some UPLOADING))
  /\ (forall user v,
        find_owned_video video_id user db = Some v ->
        (status v <> GENERATED ->
         upload_video video_id user (open_session db q)
         = (open_session db q,
            inl (mkExn (HTTPException 400)
                   "Video must be generated before uploading")))
        /\ (status v = GENERATED ->
            rows (fst (upload_video video_id user (open_session db q)))
            = with_video video_id (set_status UPLOADING) db)).
Proof.
  split.
  - intros w privacy_status notify_subscribers v Hfind. split.
    + intros Hst. apply (upload_video_task_refused _ _ _ _ _ _ v Hfind Hst).
    + intros Hst. split.
      * destruct (Uploader.upload_fault (uploader w)) as [e|] eqn:Hf.
        -- rewrite (upload_video_task_failed _ _ q _ privacy_status
                      notify_subscribers _ _ Hfind Hst Hf).
           reflexivity.
        -- destruct (upload_video_task_uploaded _ _ q _ privacy_status
                       notify_subscribers _ Hfind Hst Hf) as [y Hy].
           rewrite Hy. reflexivity.
      * simpl. rewrite find_video_update_same by reflexivity.
        rewrite Hfind. reflexivity.
  - intros user v Hfind. split.
    + intros Hst. apply (upload_video_refused _ _ _ _ v Hfind Hst).
    + intros Hst.
      rewrite (upload_video_accepted _ q _ _ v Hfind Hst). reflexivity.
Qed.

Lemma upload_requires_generated_witness :
  upload_video_task upload_world 5 "public" true (open_session db_two [])
  = (open_session db_two [],
     inr (TaskError None "Video must be generated before uploading"))
  /\ hd_error
       (commits (fst (upload_video_task upload_world 6 "public" true
                        (open_session db_two []))))
     = Some (with_video 6 (set_status UPLOADING) db_two)
  /\ upload_video 5 7 (open_session db_two [])
     = (open_session db_two [],
        inl (mkExn (HTTPException 400)
               "Video must be generated before uploading"))
  /\ rows (fst (upload_video 6 7 (open_session db_two [])))
     = with_video 6 (set_status UPLOADING) db_two.
Proof.
  pose proof (upload_requires_generated db_two [] 5) as [T5 A5].
  pose proof (upload_requires_generated db_two [] 6) as [T6 A6].
  split; [|split; [|split]].
  - apply (proj1 (T5 upload_world "public" true
                    (video_in 5 UPLOADED 100 10) eq_refl)).
    discriminate.
  - apply (proj2 (T6 upload_world "public" true
                    (video_in 6 GENERATED 100 20) eq_refl)).
    reflexivity.
  - apply (proj1 (A5 7 (video_in 5 UPLOADED 100 10) eq_refl)).
    discriminate.
  - apply (proj2 (A6 7 (video_in 6 GENERATED 100 20) eq_refl)).
    reflexivity.
Defined.

End UploadFacts.

(* ===================================================================== *)
(** ** Properties of the generation task *)
(* ===================================================================== *)

Module GenerateFacts.
Import Py Models Orm VideoTasks OrmFacts Spec Views Samples.

Lemma progressed_id ps : forall v, id (progressed ps v) = id v.
Proof. induction ps as [|p ps IH]; intros v; simpl; [|rewrite IH]; reflexivity. Qed.

Lemma progressed_video_path ps :
  forall v, video_path (progressed ps v) = video_path v.
Proof. induction ps as [|p ps IH]; intros v; simpl; [|rewrite IH]; reflexivity. Qed.

Lemma with_script_id w v x : id (with_script w v x) = id x.
Proof.
  unfold with_script.
  destruct (needs_script v); [destruct (script_call w v)|]; reflexivity.
Qed.

Lemma with_script_video_path w v x :
  video_path (with_script w v x) = video_path x.
Proof.
  unfold with_script.
  destruct (needs_script v); [destruct (script_call w v)|]; reflexivity.
Qed.

(** The progress callback over the steps [ps]. *)
Lemma for_each_report (video_id : Z) (db : DB) (q : list Job)
    (callback : Z -> string -> M unit) :
  (forall progress message s,
      callback progress message s
      = bind (setattr video_id (set_generation_progress progress))
          (fun _ => commit) s) ->
  forall ps f cs,
    (forall v, id (f v) = id v) ->
    for_each ps (VideoBuilder.report (Some callback))
      (mkSession
         (mkDB (update_video video_id f (videos db)) (channels db)
            (analytics db))
         (mkDB (update_video video_id f (videos db)) (channels db)
            (analytics db))
         q cs)
    = (mkSession
         (with_video video_id (fun v => progressed ps (f v)) db)
         (with_video video_id (fun v => progressed ps (f v)) db)
         q (cs ++ progress_trace video_id f db ps),
       inr tt).
Proof.
  intros Hcb.
  induction ps as [|p ps IH]; intros f cs Hf.
  - simpl. rewrite app_nil_r. reflexivity.
  - simpl. unfold bind at 1. simpl. rewrite Hcb. unfold bind at 1. simpl.
    rewrite update_video_compose by exact Hf.
    rewrite IH by (intros v; simpl; apply Hf).
    rewrite <- app_assoc. reflexivity.
Qed.

(** The rest of the task once the renderer has been entered: the loop,
    then the handler ... *)
Ltac render_raises Hfind Hid Hfault :=
  unfold VideoBuilder.generate_video; rewrite Hfault; unfold bind at 1;
  rewrite for_each_report by (intros; reflexivity);
  unfold raise, mark_failed, bind, query_video; simpl;
  rewrite find_video_update_same
    by (intros; rewrite progressed_id; reflexivity);
  rewrite Hfind; simpl; rewrite progressed_id; simpl; rewrite Hid;
  unfold setattr, commit, ret; simpl;
  rewrite !update_video_compose
    by (intros; simpl; rewrite ?progressed_id; reflexivity);
  reflexivity.

(** ... or the assignments of the result. *)
Ltac render_returns Hfind Hid Hfault :=
  unfold VideoBuilder.generate_video; rewrite Hfault; unfold bind at 1;
  rewrite for_each_report by (intros; reflexivity);
  unfold ret, setattr, commit, load;
  cbn [fst snd objs rows queue commits videos channels analytics
       with_video];
  rewrite !update_video_compose
    by (intros; simpl; rewrite ?progressed_id; reflexivity);
  rewrite find_video_update_same
    by (intros; simpl; rewrite ?progressed_id; reflexivity);
  rewrite Hfind; cbn [option_map]; rewrite Hid;
  reflexivity.

(** The task when script generation raises. *)
Lemma generate_video_task_script_failed (w : GenerateWorld) (db : DB)
    (q : list Job) (video_id : Z) (v : Video) (e : Exn) :
  find_video video_id (videos db) = Some v ->
  needs_script v = true ->
  script_call w v = inl e ->
  generate_video_task w video_id (open_session db q)
  = (mkSession
       (with_video video_id (fun x => fail_with e (start_generating x)) db)
       (with_video video_id (fun x => fail_with e (start_generating x)) db)
       q
       [ with_video video_id start_generating db;
         with_video video_id (fun x => fail_with e (start_generating x)) db ],
     inr (TaskError (Some video_id) (str e))).
Proof.
  intros Hfind Hneed Hcall.
  pose proof (find_video_id _ _ _ Hfind) as Hid.
  unfold needs_script in Hneed.
  unfold script_call, metadata_duration in Hcall.
  unfold generate_video_task, generate_body, try_except, bind, query_video,
    open_session, metadata_duration; simpl.
  rewrite Hfind. simpl. rewrite Hid. run_orm. rewrite Hfind. simpl.
  rewrite Hneed. simpl. rewrite Hcall. simpl.
  unfold mark_failed, bind, query_video. run_orm.
  rewrite Hfind. run_orm. rewrite Hid. run_orm.
  reflexivity.
Qed.

(** The task when rendering raises after [k] progress steps. *)
Lemma generate_video_task_render_failed (w : GenerateWorld) (db : DB)
    (q : list Job) (video_id : Z) (v : Video) (k : nat) (e : Exn) :
  find_video video_id (videos db) = Some v ->
  script_ok w v ->
  VideoBuilder.fault (builder w) = Some (k, e) ->
  generate_video_task w video_id (open_session db q)
  = (mkSession
       (with_video video_id
          (fun x => fail_with e
                      (progressed (firstn k VideoBuilder.steps)
                         (with_script w v x))) db)
       (with_video video_id
          (fun x => fail_with e
                      (progressed (firstn k VideoBuilder.steps)
                         (with_script w v x))) db)
       q
       (script_commits w v video_id db
        ++ progress_trace video_id (with_script w v) db
             (firstn k VideoBuilder.steps)
        ++ [with_video video_id
              (fun x => fail_with e
                          (progressed (firstn k VideoBuilder.steps)
                             (with_script w v x))) db]),
     inr (TaskError (Some video_id) (str e))).
Proof.
  intros Hfind Hscript Hfault.
  pose proof (find_video_id _ _ _ Hfind) as Hid.
  unfold script_commits, with_script.
  unfold generate_video_task, generate_body, try_except, bind, query_video,
    open_session, metadata_duration; simpl.
  rewrite Hfind. simpl. rewrite Hid. run_orm. rewrite Hfind. simpl.
  destruct Hscript as [Hneed | [s Hcall]].
  - rewrite Hneed. unfold needs_script in Hneed. rewrite Hneed. simpl.
    run_orm. rewrite Hfind. simpl.
    render_raises Hfind Hid Hfault.
  - rewrite Hcall. unfold script_call, metadata_duration in Hcall.
    destruct (negb (truthy_str (script v))) eqn:Hneed.
    + unfold needs_script. rewrite Hneed. rewrite Hcall. simpl.
      run_orm. rewrite Hfind. simpl.
      render_raises Hfind Hid Hfault.
    + unfold needs_script. rewrite Hneed. simpl.
      run_orm. rewrite Hfind. simpl.
      render_raises Hfind Hid Hfault.
Qed.

(** The task when nothing raises. *)
Lemma generate_video_task_generated (w : GenerateWorld) (db : DB)
    (q : list Job) (video_id : Z) (v : Video) :
  find_video video_id (videos db) = Some v ->
  script_ok w v ->
  VideoBuilder.fault (builder w) = None ->
  let r := VideoBuilder.video_result (builder w) video_id
             (metadata_duration v) in
  generate_video_task w video_id (open_session db q)
  = (mkSession
       (with_video video_id
          (fun x => finish_generation r (utcnow w)
                      (progressed VideoBuilder.steps (with_script w v x)))
          db)
       (with_video video_id
          (fun x => finish_generation r (utcnow w)
                      (progressed VideoBuilder.steps (with_script w v x)))
          db)
       q
       (script_commits w v video_id db
        ++ progress_trace video_id (with_script w v) db VideoBuilder.steps
        ++ [with_video video_id
              (fun x => finish_generation r (utcnow w)
                          (progressed VideoBuilder.steps
                             (with_script w v x))) db]),
     inr (GenerateSuccess video_id (Some (VideoBuilder.r_video_path r))
            (Some (VideoBuilder.r_duration r)))).
Proof.
  intros Hfind Hscript Hfault r. subst r.
  pose proof (find_video_id _ _ _ Hfind) as Hid.
  unfold script_commits, with_script.
  unfold generate_video_task, generate_body, try_except, bind, query_video,
    open_session; simpl.
  rewrite Hfind. simpl. rewrite Hid. run_orm. rewrite Hfind. simpl.
  destruct Hscript as [Hneed | [s Hcall]].
  - rewrite Hneed. unfold needs_script in Hneed. rewrite Hneed. simpl.
    run_orm. rewrite Hfind. simpl.
    render_returns Hfind Hid Hfault.
  - rewrite Hcall. unfold script_call, metadata_duration in Hcall.
    destruct (negb (truthy_str (script v))) eqn:Hneed.
    + unfold needs_script. rewrite Hneed.
      unfold metadata_duration at 1. simpl. rewrite Hcall. simpl.
      run_orm. rewrite Hfind. simpl.
      render_returns Hfind Hid Hfault.
    + unfold needs_script. rewrite Hneed. simpl.
      run_orm. rewrite Hfind. simpl.
      render_returns Hfind Hid Hfault.
Qed.

(** C3: whenever script generation or rendering raises [e], the task
    returns the error result carrying [video_id] and [str(e)] instead of
    raising, and the committed row of the video has status FAILED,
    [error_message = str(e)] and the [video_path] it had before the run
    (so it is still unset if it was unset). *)
Theorem generate_video_task_failure (w : GenerateWorld) (db : DB)
    (q : list Job) (video_id : Z) (v : Video) (e : Exn) :
  find_video video_id (videos db) = Some v ->
  job_raises w v e ->
  let run := generate_video_task w video_id (open_session db q) in
  snd run = inr (TaskError (Some video_id) (str e))
  /\ exists v',
       find_video video_id (videos (rows (fst run))) = Some v'
       /\ status v' = FAILED
       /\ error_message v' = Some (str e)
       /\ video_path v' = video_path v
       /\ (video_path v = None -> video_path v' = None).
Proof.
  intros Hfind [[Hneed Hcall] | [Hscript [k Hfault]]] run; subst run.
  - rewrite (generate_video_task_script_failed w db q video_id v e
               Hfind Hneed Hcall).
    split; [reflexivity|].
    exists (fail_with e (start_generating v)). simpl.
    rewrite find_video_update_same by reflexivity.
    rewrite Hfind. simpl. auto.
  - rewrite (generate_video_task_render_failed w db q video_id v k e
               Hfind Hscript Hfault).
    split; [reflexivity|].
    exists (fail_with e
              (progressed (firstn k VideoBuilder.steps) (with_script w v v))).
    simpl.
    rewrite find_video_update_same
      by (intros; simpl; rewrite progressed_id, with_script_id; reflexivity).
    rewrite Hfind. simpl.
    rewrite progressed_video_path, with_script_video_path. auto.
Qed.

Lemma generate_video_task_failure_witness :
  let run := generate_video_task timeout_world 9 (open_session db_draft []) in
  snd run = inr (TaskError (Some 9) "rendering timed out after 600s")
  /\ exists v',
       find_video 9 (videos (rows (fst run))) = Some v'
       /\ status v' = FAILED
       /\ error_message v' = Some "rendering timed out after 600s"
       /\ video_path v' = video_path draft
       /\ (video_path draft = None -> video_path v' = None).
Proof.
  apply (generate_video_task_failure timeout_world db_draft [] 9 draft
           render_timeout).
  - reflexivity.
  - right. split.
    + right. exists "Once upon a time"%string. reflexivity.
    + exists 4%nat. reflexivity.
Defined.

End GenerateFacts.

(* ===================================================================== *)
(** ** Properties of the analytics synchronizer *)
(* ===================================================================== *)

Module AnalyticsFacts.
Import Py Models Orm AnalyticsTasks OrmFacts Spec Views Samples.

Lemma find_analytics_update_same video_id f l :
  (forall a, a_video_id (f a) = a_video_id a) ->
  find_analytics video_id (update_analytics video_id f l)
  = option_map f (find_analytics video_id l).
Proof.
  intros Hid. unfold find_analytics, update_analytics.
  induction l as [|a l IH]; simpl; [reflexivity|].
  destruct (a_video_id a =? video_id) eqn:E.
  - rewrite Hid, E. reflexivity.
  - rewrite E. exact IH.
Qed.

Lemma find_analytics_added video_id l a :
  find_analytics video_id l = None ->
  a_video_id a = video_id ->
  find_analytics video_id (l ++ [a]) = Some a.
Proof.
  unfold find_analytics. intros Hnone Hid.
  induction l as [|b l IH]; simpl in *.
  - rewrite Hid, Z.eqb_refl. reflexivity.
  - destruct (a_video_id b =? video_id); [discriminate | auto].
Qed.

(** The conditional expression never raises. *)
Lemma engagement_guarded likes comments views :
  Uploader.engagement likes comments views
  = inr (if views >? 0
         then Float (Qdiv (inject_Z (likes + comments)) (inject_Z views))
         else Int 0).
Proof.
  unfold Uploader.engagement, truediv.
  destruct (views >? 0) eqn:E; [|reflexivity].
  apply Z.gtb_lt in E.
  replace (views =? 0) with false by (symmetry; apply Z.eqb_neq; lia).
  reflexivity.
Qed.

(** The dictionary a fetch returns when the service answers. *)
Lemma get_video_analytics_answer (h : Uploader.MetricsHost)
    (youtube_video_id : string) (s : Session) :
  Uploader.metrics_fault h = None ->
  exists d,
    Uploader.get_video_analytics h youtube_video_id s = (s, inr d)
    /\ Uploader.d_engagement_rate d
       = (if Uploader.d_views d >? 0
          then Float (Qdiv (inject_Z (Uploader.d_likes d
                                      + Uploader.d_comments d))
                        (inject_Z (Uploader.d_views d)))
          else Int 0).
Proof.
  intros Hok. unfold Uploader.get_video_analytics. rewrite Hok.
  unfold bind, lift. rewrite engagement_guarded.
  eexists. split; reflexivity.
Qed.

(** The sync when the fetch answers [d]. *)
Lemma sync_video_analytics_synced (w : SyncWorld) (db : DB)
    (q : list Job) (video_id : Z) (v : Video) (d : Uploader.AnalyticsData) :
  find_video video_id (videos db) = Some v ->
  status v = UPLOADED ->
  truthy_str (youtube_video_id v) = true ->
  Uploader.get_video_analytics (metrics w)
    (or_empty (youtube_video_id v)) (open_session db q)
  = (open_session db q, inr d) ->
  sync_video_analytics w video_id (open_session db q)
  = (mkSession (with_analytics video_id d (sync_utcnow w) db)
       (with_analytics video_id d (sync_utcnow w) db) q
       [with_analytics video_id d (sync_utcnow w) db],
     inr (SyncSuccess video_id (Uploader.d_views d)
            (Float (to_float (Uploader.d_engagement_rate d))))).
Proof.
  intros Hfind Hst Hyt Hd.
  unfold sync_video_analytics, try_except, bind at 1, query_video,
    open_session. simpl.
  rewrite Hfind, Hst, Hyt. simpl.
  unfold bind at 1. unfold open_session in Hd. rewrite Hd.
  unfold bind, query_analytics, with_analytics. simpl.
  destruct (find_analytics video_id (analytics db)); reflexivity.
Qed.

(** The analytics sync either leaves the session as it is or commits
    once, with the videos untouched. *)
Lemma sync_job_session w video_id db q :
  fst (sync_video_analytics w video_id (open_session db q))
  = open_session db q
  \/ exists d,
       fst (sync_video_analytics w video_id (open_session db q))
       = mkSession
           (with_analytics video_id d (sync_utcnow w) db)
           (with_analytics video_id d (sync_utcnow w) db)
           q
           [with_analytics video_id d (sync_utcnow w) db].
Proof.
  destruct (find_video video_id (videos db)) as [v|] eqn:Hfind.
  - destruct (negb (status_eqb (status v) UPLOADED)
              || negb (truthy_str (youtube_video_id v))) eqn:Hskip.
    + left.
      unfold sync_video_analytics, try_except, bind at 1,
        query_video, open_session. simpl.
      rewrite Hfind, Hskip. reflexivity.
    + destruct (Uploader.metrics_fault (metrics w)) as [e|] eqn:Hfault.
      * left.
        unfold sync_video_analytics, try_except, bind at 1,
          query_video, open_session. simpl.
        rewrite Hfind, Hskip.
        unfold bind at 1, Uploader.get_video_analytics.
        rewrite Hfault. reflexivity.
      * right.
        apply orb_false_iff in Hskip. destruct Hskip as [Hst Hyt].
        apply negb_false_iff in Hst, Hyt. apply status_eqb_eq in Hst.
        destruct (get_video_analytics_answer (metrics w)
                    (or_empty (youtube_video_id v)) (open_session db q)
                    Hfault) as [d [Hd _]].
        exists d.
        rewrite (sync_video_analytics_synced
                   w db q video_id v d Hfind Hst Hyt Hd).
        reflexivity.
  - left.
    unfold sync_video_analytics, try_except, bind at 1,
      query_video, open_session. simpl. rewrite Hfind. reflexivity.
Qed.

(** The sync of the repository: the fetch is not awaited. *)
Lemma sync_video_analytics_unawaited (w : SyncWorld) (db : DB)
    (q : list Job) (video_id : Z) :
  Unawaited.syncs w ->
  exists r,
    sync_video_analytics w video_id (open_session db q)
    = (open_session db q, inr r)
    /\ (r = TaskError None "Video not found"
        \/ r = TaskSkipped "Video not uploaded"
        \/ r = TaskError (Some video_id) (str Unawaited.not_subscriptable))
    /\ (forall v, find_video video_id (videos db) = Some v ->
                  status v = UPLOADED ->
                  truthy_str (youtube_video_id v) = true ->
                  r = TaskError (Some video_id)
                        (str Unawaited.not_subscriptable)).
Proof.
  intros Hw. unfold Unawaited.syncs in Hw.
  unfold sync_video_analytics, try_except, bind at 1, query_video,
    open_session. simpl.
  destruct (find_video video_id (videos db)) as [v|] eqn:Hfind.
  - destruct (negb (status_eqb (status v) UPLOADED)
              || negb (truthy_str (youtube_video_id v))) eqn:Hskip.
    + simpl. eexists. split; [reflexivity|]. split; [auto|].
      intros v' Hv' Hst Hyt. inversion Hv'; subst v'.
      rewrite Hst, Hyt in Hskip. discriminate Hskip.
    + unfold bind at 1, Uploader.get_video_analytics.
      rewrite Hw. simpl. eexists. split; [reflexivity|]. split; auto.
  - simpl. eexists. split; [reflexivity|]. split; [auto|].
    intros v' Hv'. discriminate Hv'.
Qed.

(** C7: the expression the claim describes is in the service, and a
    fetch that runs evaluates it: 50 likes and 10 comments on 1000 views
    give 60/1000.  The sync, however, calls the fetch without awaiting
    it: for a published video it ends in the error result of the
    [TypeError] raised by the first read of the fetched data, commits
    nothing, and leaves the video without an analytics record, so no
    engagement rate is stored. *)
Theorem sync_video_analytics_stores_no_rate :
  (exists d,
      Uploader.get_video_analytics some_views "STUB_123456"
        (open_session db_published [])
      = (open_session db_published [], inr d)
      /\ Uploader.d_views d = 1000
      /\ Uploader.d_engagement_rate d
         = Float (Qdiv (inject_Z (50 + 10)) (inject_Z 1000)))
  /\ let run := sync_video_analytics (Unawaited.sync_world 3000) 5
                  (open_session db_published []) in
     snd run
     = inr (TaskError (Some 5) "'coroutine' object is not subscriptable")
     /\ rows (fst run) = db_published
     /\ commits (fst run) = []
     /\ find_analytics 5 (analytics (rows (fst run))) = None.
Proof.
  split.
  - unfold Uploader.get_video_analytics, bind, lift, ret.
    cbn [Uploader.metrics_fault some_views].
    rewrite engagement_guarded.
    eexists. split; [reflexivity|]. split; reflexivity.
  - destruct (sync_video_analytics_unawaited (Unawaited.sync_world 3000)
                db_published [] 5 eq_refl) as [r [Hrun [_ Hr]]].
    cbv zeta. rewrite Hrun. cbn [fst snd].
    rewrite (Hr published eq_refl eq_refl eq_refl).
    repeat split; reflexivity.
Qed.

(** C10: when the fetch raises, the sync commits nothing and writes
    nothing: the database, its analytics table included, the session
    objects and the queue are as before, so no record is created and an
    existing one keeps its fields.  For an uploaded video the sync
    returns the error result with the exception's text. *)
Theorem sync_video_analytics_fetch_failure (w : SyncWorld) (db : DB)
    (q : list Job) (video_id : Z) (e : Exn) :
  Uploader.metrics_fault (metrics w) = Some e ->
  let run := sync_video_analytics w video_id (open_session db q) in
  fst run = open_session db q
  /\ analytics (rows (fst run)) = analytics db
  /\ commits (fst run) = []
  /\ (forall v, find_video video_id (videos db) = Some v ->
                status v = UPLOADED ->
                truthy_str (youtube_video_id v) = true ->
                snd run = inr (TaskError (Some video_id) (str e))).
Proof.
  intros Hfault run.
  assert (exists r,
            run = (open_session db q, r)
            /\ (forall v, find_video video_id (videos db) = Some v ->
                          status v = UPLOADED ->
                          truthy_str (youtube_video_id v) = true ->
                          r = inr (TaskError (Some video_id) (str e))))
    as [r [Hrun Hr]].
  { subst run.
    unfold sync_video_analytics, try_except, bind at 1, query_video,
      open_session. simpl.
    destruct (find_video video_id (videos db)) as [v|] eqn:Hfind.
    - destruct (negb (status_eqb (status v) UPLOADED)
                || negb (truthy_str (youtube_video_id v))) eqn:Hskip.
      + simpl. eexists. split; [reflexivity|].
        intros v' Hv' Hst Hyt. inversion Hv'; subst v'.
        rewrite Hst, Hyt in Hskip. discriminate Hskip.
      + unfold bind at 1, Uploader.get_video_analytics.
        rewrite Hfault. simpl. eexists. split; reflexivity.
    - simpl. eexists. split; [reflexivity|].
      intros v' Hv'. discriminate Hv'. }
  rewrite Hrun. simpl. auto.
Qed.

Lemma sync_video_analytics_fetch_failure_witness :
  let run := sync_video_analytics (mkSyncWorld no_metrics 3000) 5
               (open_session db_published []) in
  fst run = open_session db_published []
  /\ analytics (rows (fst run)) = analytics db_published
  /\ commits (fst run) = []
  /\ (forall v, find_video 5 (videos db_published) = Some v ->
                status v = UPLOADED ->
                truthy_str (youtube_video_id v) = true ->
                snd run = inr (TaskError (Some 5) (str service_down))).
Proof.
  apply (sync_video_analytics_fetch_failure (mkSyncWorld no_metrics 3000)
           db_published [] 5 service_down).
  reflexivity.
Defined.

End AnalyticsFacts.

(* ===================================================================== *)
(** ** Properties of the auto-upload campaign *)
(* ===================================================================== *)

Module CampaignFacts.
Import Py Models Orm VideoTasks OrmFacts Spec Views Samples.

Lemma firstn_1_filter {A} (p : A -> bool) (l : list A) :
  firstn 1 (filter p l)
  = match find p l with Some x => [x] | None => [] end.
Proof.
  induction l as [|x l IH]; simpl; [reflexivity|].
  destruct (p x); [reflexivity | exact IH].
Qed.

(** One channel of the loop. *)
Lemma auto_upload_channel_run (c : Channel) (n : Z) (s : Session) :
  auto_upload_channel c n s
  = (mkSession (rows s) (objs s)
       (queue s ++ jobs_of (find (generated_in c) (videos (objs s))))
       (commits s),
     inr (n + Z.of_nat
                (List.length
                   (jobs_of (find (generated_in c) (videos (objs s))))))).
Proof.
  unfold auto_upload_channel, try_except, bind at 1, query_videos.
  rewrite firstn_1_filter.
  change (fun v : Video =>
            (channel_id v =? c_id c) && status_eqb (status v) GENERATED)
    with (generated_in c).
  destruct (find (generated_in c) (videos (objs s))) as [v|]; simpl.
  - reflexivity.
  - rewrite app_nil_r, Z.add_0_r. destruct s; reflexivity.
Qed.

(** The loop over the channels. *)
Lemma auto_upload_loop (l : list Channel) :
  forall (n : Z) (s : Session),
    for_fold l auto_upload_channel n s
    = (mkSession (rows s) (objs s)
         (queue s
          ++ flat_map
               (fun c => jobs_of (find (generated_in c) (videos (objs s))))
               l)
         (commits s),
       inr (n + Z.of_nat
                  (List.length
                     (flat_map
                        (fun c =>
                           jobs_of (find (generated_in c) (videos (objs s))))
                        l)))).
Proof.
  induction l as [|c l IH]; intros n s; simpl.
  - rewrite app_nil_r, Z.add_0_r. destruct s; reflexivity.
  - unfold bind. rewrite auto_upload_channel_run. rewrite IH. simpl.
    rewrite <- app_assoc. rewrite length_app, Nat2Z.inj_add, Z.add_assoc.
    reflexivity.
Qed.

(** The whole campaign: no commit, and one job for every eligible
    channel that has a GENERATED video. *)
Lemma auto_upload_videos_run (db : DB) (q : list Job) :
  fst (auto_upload_videos (open_session db q))
  = mkSession db db
      (q ++ flat_map
              (fun c => jobs_of (find (generated_in c) (videos db)))
              (filter eligible (channels db)))
      [].
Proof.
  unfold auto_upload_videos, try_except, bind at 1, query_channels.
  unfold bind. simpl. rewrite auto_upload_loop. reflexivity.
Qed.

Lemma find_video_NoDup (l : list Video) (v : Video) :
  NoDup (map id l) -> In v l -> find_video (id v) l = Some v.
Proof.
  unfold find_video. induction l as [|x l IH]; intros Hnd Hin.
  - destruct Hin.
  - simpl in *. inversion Hnd as [|? ? Hx Hl]; subst.
    destruct Hin as [->|Hin].
    + rewrite Z.eqb_refl. reflexivity.
    + destruct (id x =? id v) eqn:E.
      * apply Z.eqb_eq in E. exfalso. apply Hx. rewrite E.
        apply in_map. exact Hin.
      * apply IH; assumption.
Qed.

(** A job enqueued for channel [c'] counts for channel [c] exactly when
    the two have the same key. *)
Lemma job_for_jobs_of (db : DB) (c c' : Channel) :
  NoDup (map id (videos db)) ->
  filter (job_for db c)
    (jobs_of (find (generated_in c') (videos db)))
  = if c_id c' =? c_id c
    then jobs_of (find (generated_in c') (videos db))
    else [].
Proof.
  intros Hnd.
  destruct (find (generated_in c') (videos db)) as [v|] eqn:Hfind.
  - apply find_some in Hfind. destruct Hfind as [Hin Hgen].
    unfold generated_in in Hgen. apply andb_true_iff in Hgen.
    destruct Hgen as [Hch _]. apply Z.eqb_eq in Hch.
    simpl. rewrite (find_video_NoDup _ _ Hnd Hin). rewrite Hch.
    destruct (c_id c' =? c_id c); reflexivity.
  - simpl. destruct (c_id c' =? c_id c); reflexivity.
Qed.

Lemma campaign_jobs_for (db : DB) (c : Channel) :
  NoDup (map id (videos db)) ->
  forall l,
    NoDup (map c_id l) ->
    (forall c', In c' l -> c_id c' = c_id c -> c' = c) ->
    eligible c = true ->
    filter (job_for db c)
      (flat_map (fun c' => jobs_of (find (generated_in c') (videos db)))
         (filter eligible l))
    = if existsb (fun c' => c_id c' =? c_id c) l
      then jobs_of (find (generated_in c) (videos db))
      else [].
Proof.
  intros Hv l. induction l as [|c' l IH]; intros Hnd Hkey Hel.
  - reflexivity.
  - simpl in Hnd. inversion Hnd as [|? ? Hc' Hl]; subst.
    assert (forall x, In x l -> c_id x = c_id c -> x = c) as Hkey'.
    { intros x Hx. apply Hkey. right. exact Hx. }
    specialize (IH Hl Hkey' Hel).
    simpl. destruct (c_id c' =? c_id c) eqn:E.
    + apply Z.eqb_eq in E.
      assert (c' = c) by (apply Hkey; [left; reflexivity | exact E]).
      subst c'. rewrite Hel. simpl.
      rewrite filter_app, job_for_jobs_of by exact Hv.
      rewrite Z.eqb_refl. rewrite IH.
      replace (existsb (fun c' => c_id c' =? c_id c) l) with false.
      * apply app_nil_r.
      * symmetry. apply not_true_is_false. intros Hex.
        apply existsb_exists in Hex. destruct Hex as [x [Hx Hid]].
        apply Z.eqb_eq in Hid. apply Hc'. rewrite <- Hid.
        apply in_map. exact Hx.
    + simpl. destruct (eligible c').
      * simpl. rewrite filter_app, job_for_jobs_of by exact Hv.
        rewrite E. simpl. exact IH.
      * exact IH.
Qed.

Lemma NoDup_map_key (l : list Channel) (c c' : Channel) :
  NoDup (map c_id l) -> In c l -> In c' l -> c_id c' = c_id c -> c' = c.
Proof.
  induction l as [|x l IH]; intros Hnd Hc Hc' Hid; [destruct Hc|].
  simpl in Hnd. inversion Hnd as [|? ? Hx Hl]; subst.
  destruct Hc as [->|Hc], Hc' as [->|Hc'].
  - reflexivity.
  - exfalso. apply Hx. rewrite <- Hid. apply in_map. exact Hc'.
  - exfalso. apply Hx. rewrite Hid. apply in_map. exact Hc.
  - apply IH; assumption.
Qed.

(** C6, as stated, fails on "the oldest such video": with the newer of
    two GENERATED videos first in the table, the campaign enqueues the
    upload of the newer one. *)
Lemma auto_upload_not_oldest :
  queue (fst (auto_upload_videos (open_session db_backlog [])))
  = [UploadVideoJob 2 "public" true]
  /\ oldest (filter (generated_in channel1) (videos db_backlog))
     = Some (video_in 1 GENERATED 100 100)
  /\ ~ uploads_oldest db_backlog.
Proof.
  split; [reflexivity|]. split; [reflexivity|].
  intros H. specialize (H channel1 (or_introl eq_refl) eq_refl).
  vm_compute in H. discriminate H.
Qed.

(** C6, amended: in one run, for every ACTIVE channel with
    [auto_upload] set, the queue receives exactly one upload job if the
    channel has a GENERATED video, and none otherwise, however many
    GENERATED videos it has.  The job is for the first GENERATED video
    of the channel in the order the unordered query returns the rows,
    which need not be the oldest. *)
Theorem auto_upload_one_per_channel (db : DB) (c : Channel) :
  NoDup (map c_id (channels db)) ->
  NoDup (map id (videos db)) ->
  In c (channels db) ->
  eligible c = true ->
  let jobs :=
    filter (job_for db c)
      (queue (fst (auto_upload_videos (open_session db [])))) in
  jobs = jobs_of (find (generated_in c) (videos db))
  /\ List.length jobs
     = (if existsb (generated_in c) (videos db) then 1 else 0)%nat.
Proof.
  intros Hc Hv Hin Hel jobs. subst jobs.
  rewrite auto_upload_videos_run. simpl.
  rewrite (campaign_jobs_for db c Hv (channels db) Hc
             (fun c' Hc' Hid => NoDup_map_key _ c c' Hc Hin Hc' Hid) Hel).
  replace (existsb (fun c' => c_id c' =? c_id c) (channels db)) with true.
  - split; [reflexivity|].
    destruct (find (generated_in c) (videos db)) as [v|] eqn:Hf.
    + apply find_some in Hf.
      replace (existsb (generated_in c) (videos db)) with true;
        [reflexivity|].
      symmetry. apply existsb_exists. exists v. exact Hf.
    + replace (existsb (generated_in c) (videos db)) with false;
        [reflexivity|].
      symmetry. apply not_true_is_false. intros Hex.
      apply existsb_exists in Hex. destruct Hex as [x [Hx Hp]].
      rewrite (find_none _ _ Hf x Hx) in Hp. discriminate Hp.
  - symmetry. apply existsb_exists. exists c.
    split; [exact Hin | apply Z.eqb_refl].
Qed.

Lemma auto_upload_one_per_channel_witness :
  let jobs :=
    filter (job_for db_backlog channel1)
      (queue (fst (auto_upload_videos (open_session db_backlog [])))) in
  jobs = jobs_of (find (generated_in channel1) (videos db_backlog))
  /\ List.length jobs
     = (if existsb (generated_in channel1) (videos db_backlog)
        then 1 else 0)%nat.
Proof.
  apply (auto_upload_one_per_channel db_backlog channel1).
  - simpl. repeat constructor; simpl; tauto.
  - simpl. repeat constructor; simpl; intuition lia.
  - left. reflexivity.
  - reflexivity.
Defined.

End CampaignFacts.

(* ===================================================================== *)
(** ** Further properties of the generation and upload tasks *)
(* ===================================================================== *)

Module TaskExtras.
Import Py Models Orm VideoTasks OrmFacts Spec Views Samples MoreSamples.
Import GenerateFacts UploadFacts.

Lemma with_script_error_message w v x :
  error_message (with_script w v x) = error_message x.
Proof.
  unfold with_script.
  destruct (needs_script v); [destruct (script_call w v)|]; reflexivity.
Qed.

Lemma progressed_script ps : forall x, script (progressed ps x) = script x.
Proof.
  induction ps as [|p ps IH]; intros x; simpl; [|rewrite IH]; reflexivity.
Qed.

Lemma with_script_status w v x : status (with_script w v x) = GENERATING.
Proof.
  unfold with_script.
  destruct (needs_script v); [destruct (script_call w v)|]; reflexivity.
Qed.

Lemma with_script_progress w v x :
  generation_progress (with_script w v x) = 0.
Proof.
  unfold with_script.
  destruct (needs_script v); [destruct (script_call w v)|]; reflexivity.
Qed.

Lemma find_with_video video_id f db v :
  (forall x, id (f x) = id x) ->
  find_video video_id (videos db) = Some v ->
  find_video video_id (videos (with_video video_id f db)) = Some (f v).
Proof.
  intros Hid Hfind. unfold with_video. cbn [videos].
  rewrite find_video_update_same by exact Hid.
  rewrite Hfind. reflexivity.
Qed.

(** X1: the generation task of the repository never succeeds.  The
    renderer is called without being awaited, so for every video that
    is found the task ends in the error result and the committed row is
    FAILED with progress 0: with the text of the [TypeError] of the
    first read of the result when the script step goes through, and
    with the text of the script error otherwise.  Every state the task
    commits has the video GENERATING or FAILED with progress 0: no
    percentage is reported.  The file path, thumbnail, duration and size
    of the row are as before. *)
Theorem generate_video_task_never_succeeds (w : GenerateWorld) (db : DB)
    (q : list Job) (video_id : Z) (v : Video) :
  Unawaited.generates w ->
  find_video video_id (videos db) = Some v ->
  let run := generate_video_task w video_id (open_session db q) in
  exists e,
    (script_ok w v -> e = Unawaited.not_subscriptable)
    /\ (forall e', needs_script v = true -> script_call w v = inl e' ->
                   e = e')
    /\ snd run = inr (TaskError (Some video_id) (str e))
    /\ queue (fst run) = q
    /\ (exists v',
          find_video video_id (videos (rows (fst run))) = Some v'
          /\ status v' = FAILED
          /\ generation_progress v' = 0
          /\ error_message v' = Some (str e)
          /\ video_path v' = video_path v
          /\ thumbnail_path v' = thumbnail_path v
          /\ duration v' = duration v
          /\ file_size v' = file_size v)
    /\ Forall
         (fun d =>
            exists x,
              find_video video_id (videos d) = Some x
              /\ generation_progress x = 0
              /\ (status x = GENERATING \/ status x = FAILED))
         (commits (fst run)).
Proof.
  intros Hw Hfind run. subst run. unfold Unawaited.generates in Hw.
  assert (forall f,
             (forall x, id (f x) = id x) ->
             generation_progress (f v) = 0 ->
             status (f v) = GENERATING \/ status (f v) = FAILED ->
             exists x,
               find_video video_id
                 (videos (with_video video_id f db)) = Some x
               /\ generation_progress x = 0
               /\ (status x = GENERATING \/ status x = FAILED)) as Hstate.
  { intros f Hid Hp Hs. exists (f v).
    split; [apply find_with_video; assumption | auto]. }
  assert (needs_script v = true /\ (exists e, script_call w v = inl e)
          \/ script_ok w v) as [[Hneed [e Hcall]] | Hok].
  { unfold script_ok. destruct (needs_script v); [|auto].
    destruct (script_call w v) as [e|s]; [left | right; right]; eauto. }
  - exists e.
    rewrite (generate_video_task_script_failed w db q video_id v e
               Hfind Hneed Hcall).
    cbn [fst snd rows queue commits].
    split.
    { intros [Hno | [s Hs]]; [congruence|].
      rewrite Hcall in Hs. discriminate Hs. }
    split.
    { intros e' _ He'. rewrite Hcall in He'. inversion He'. reflexivity. }
    split; [reflexivity|]. split; [reflexivity|]. split.
    + exists (fail_with e (start_generating v)).
      split;
        [apply (find_with_video video_id
                  (fun x => fail_with e (start_generating x)));
           [reflexivity | exact Hfind]|].
      repeat split; reflexivity.
    + apply Forall_cons; [|apply Forall_cons; [|apply Forall_nil]].
      * apply (Hstate start_generating);
          [reflexivity | reflexivity | left; reflexivity].
      * apply (Hstate (fun x => fail_with e (start_generating x)));
          [reflexivity | reflexivity | right; reflexivity].
  - exists Unawaited.not_subscriptable.
    rewrite (generate_video_task_render_failed w db q video_id v 0
               Unawaited.not_subscriptable Hfind Hok Hw).
    cbn [fst snd rows queue commits firstn progressed progress_trace app].
    split; [reflexivity|]. split.
    { intros e' Hneed He'. destruct Hok as [Hno | [s Hs]]; [congruence|].
      rewrite He' in Hs. discriminate Hs. }
    split; [reflexivity|]. split; [reflexivity|]. split.
    + exists (fail_with Unawaited.not_subscriptable (with_script w v v)).
      split.
      * apply (find_with_video video_id
                 (fun x => fail_with Unawaited.not_subscriptable
                             (with_script w v x)));
          [intros x; simpl; apply with_script_id | exact Hfind].
      * cbn [fail_with status generation_progress error_message video_path
             thumbnail_path duration file_size set_error_message
             set_status].
        rewrite with_script_progress, with_script_video_path.
        unfold with_script.
        destruct (needs_script v); [destruct (script_call w v)|];
          repeat split; reflexivity.
    + apply Forall_app. split.
      * unfold script_commits.
        apply Forall_cons.
        -- apply (Hstate start_generating);
             [reflexivity | reflexivity | left; reflexivity].
        -- destruct (needs_script v) eqn:Hneed; [|apply Forall_nil].
           destruct (script_call w v) eqn:Hcall; [apply Forall_nil|].
           apply Forall_cons; [|apply Forall_nil].
           apply (Hstate (with_script w v)).
           ++ intros x. apply with_script_id.
           ++ apply with_script_progress.
           ++ left. apply with_script_status.
      * apply Forall_cons; [|apply Forall_nil].
        apply (Hstate (fun x => fail_with Unawaited.not_subscriptable
                                  (with_script w v x))).
        -- intros x. simpl. apply with_script_id.
        -- simpl. apply with_script_progress.
        -- right. reflexivity.
Qed.

Lemma generate_video_task_never_succeeds_witness :
  let run := generate_video_task
               (Unawaited.generate_world (fun _ _ _ => inr "Script") 900)
               9 (open_session db_draft []) in
  exists e,
    (script_ok
       (Unawaited.generate_world (fun _ _ _ => inr "Script") 900) draft ->
     e = Unawaited.not_subscriptable)
    /\ (forall e',
          needs_script draft = true ->
          script_call
            (Unawaited.generate_world (fun _ _ _ => inr "Script") 900)
            draft = inl e' ->
          e = e')
    /\ snd run = inr (TaskError (Some 9) (str e))
    /\ queue (fst run) = []
    /\ (exists v',
          find_video 9 (videos (rows (fst run))) = Some v'
          /\ status v' = FAILED
          /\ generation_progress v' = 0
          /\ error_message v' = Some (str e)
          /\ video_path v' = video_path draft
          /\ thumbnail_path v' = thumbnail_path draft
          /\ duration v' = duration draft
          /\ file_size v' = file_size draft)
    /\ Forall
         (fun d =>
            exists x,
              find_video 9 (videos d) = Some x
              /\ generation_progress x = 0
              /\ (status x = GENERATING \/ status x = FAILED))
         (commits (fst run)).
Proof.
  apply (generate_video_task_never_succeeds
           (Unawaited.generate_world (fun _ _ _ => inr "Script") 900)
           db_draft [] 9 draft).
  - reflexivity.
  - reflexivity.
Defined.

(** X2: for a video that has a script the content service is not
    consulted: two runs that differ only in what [generate_script]
    would answer end in the same session and the same result. *)
Theorem generate_video_task_keeps_script (w1 w2 : GenerateWorld) (db : DB)
    (q : list Job) (video_id : Z) (v : Video) :
  find_video video_id (videos db) = Some v ->
  needs_script v = false ->
  builder w1 = builder w2 ->
  utcnow w1 = utcnow w2 ->
  generate_video_task w1 video_id (open_session db q)
  = generate_video_task w2 video_id (open_session db q).
Proof.
  intros Hfind Hneed Hb Hu.
  assert (script_ok w1 v) as Hok1 by (left; exact Hneed).
  assert (script_ok w2 v) as Hok2 by (left; exact Hneed).
  destruct (VideoBuilder.fault (builder w1)) as [[k e]|] eqn:Hf1.
  - assert (VideoBuilder.fault (builder w2) = Some (k, e)) as Hf2
      by (rewrite <- Hb; exact Hf1).
    rewrite (generate_video_task_render_failed w1 db q video_id v k e
               Hfind Hok1 Hf1).
    rewrite (generate_video_task_render_failed w2 db q video_id v k e
               Hfind Hok2 Hf2).
    unfold script_commits, with_script. rewrite Hneed. reflexivity.
  - assert (VideoBuilder.fault (builder w2) = None) as Hf2
      by (rewrite <- Hb; exact Hf1).
    rewrite (generate_video_task_generated w1 db q video_id v
               Hfind Hok1 Hf1).
    rewrite (generate_video_task_generated w2 db q video_id v
               Hfind Hok2 Hf2).
    unfold script_commits, with_script. rewrite Hneed, Hb, Hu.
    reflexivity.
Qed.

Lemma generate_video_task_keeps_script_witness :
  generate_video_task no_script_world 9 (open_session db_failed_once [])
  = generate_video_task fine_world 9 (open_session db_failed_once []).
Proof.
  apply (generate_video_task_keeps_script no_script_world fine_world
           db_failed_once [] 9 failed_once); reflexivity.
Defined.

(** X3: a script produced by the content service is committed before
    rendering starts: the second commit of the run holds it, and when
    rendering then raises, the FAILED row still has it. *)
Theorem generate_video_task_script_survives (w : GenerateWorld) (db : DB)
    (q : list Job) (video_id : Z) (v : Video) (s : string) (k : nat)
    (e : Exn) :
  find_video video_id (videos db) = Some v ->
  needs_script v = true ->
  script_call w v = inr s ->
  VideoBuilder.fault (builder w) = Some (k, e) ->
  let run := generate_video_task w video_id (open_session db q) in
  (exists v1,
      option_map (fun d => find_video video_id (videos d))
        (nth_error (commits (fst run)) 1)
      = Some (Some v1)
      /\ script v1 = Some s /\ status v1 = GENERATING)
  /\ exists v',
       find_video video_id (videos (rows (fst run))) = Some v'
       /\ script v' = Some s /\ status v' = FAILED.
Proof.
  intros Hfind Hneed Hcall Hfault run. subst run.
  assert (script_ok w v) as Hok by (right; exists s; exact Hcall).
  rewrite (generate_video_task_render_failed w db q video_id v k e
             Hfind Hok Hfault).
  cbn [fst rows commits].
  assert (forall x, script (with_script w v x) = Some s) as Hs.
  { intros x. unfold with_script. rewrite Hneed, Hcall. reflexivity. }
  split.
  - unfold script_commits. rewrite Hneed, Hcall. cbn [app nth_error option_map].
    exists (with_script w v v). split; [|split].
    + unfold with_video. cbn [videos].
      rewrite find_video_update_same by (intros; apply with_script_id).
      rewrite Hfind. reflexivity.
    + apply Hs.
    + unfold with_script. rewrite Hneed, Hcall. reflexivity.
  - eexists. split; [|split].
    + unfold with_video. cbn [videos].
      rewrite find_video_update_same
        by (intros; simpl; rewrite progressed_id; apply with_script_id).
      rewrite Hfind. reflexivity.
    + simpl. rewrite progressed_script. apply Hs.
    + reflexivity.
Qed.

Lemma generate_video_task_script_survives_witness :
  let run := generate_video_task timeout_world 9 (open_session db_draft []) in
  (exists v1,
      option_map (fun d => find_video 9 (videos d))
        (nth_error (commits (fst run)) 1)
      = Some (Some v1)
      /\ script v1 = Some "Once upon a time" /\ status v1 = GENERATING)
  /\ exists v',
       find_video 9 (videos (rows (fst run))) = Some v'
       /\ script v' = Some "Once upon a time" /\ status v' = FAILED.
Proof.
  apply (generate_video_task_script_survives timeout_world db_draft [] 9
           draft "Once upon a time" 4 render_timeout); reflexivity.
Defined.

(** X4: a task started for a key that has no row returns the error
    result "Video not found", without a [video_id] entry, and leaves the
    session as it was; this holds for generation, upload and analytics
    sync alike. *)
Theorem tasks_on_missing_video (db : DB) (q : list Job) (video_id : Z)
    (gw : GenerateWorld) (uw : UploadWorld) (sw : AnalyticsTasks.SyncWorld)
    (privacy_status : string) (notify_subscribers : bool) :
  find_video video_id (videos db) = None ->
  generate_video_task gw video_id (open_session db q)
  = (open_session db q, inr (TaskError None "Video not found"))
  /\ upload_video_task uw video_id privacy_status notify_subscribers
       (open_session db q)
     = (open_session db q, inr (TaskError None "Video not found"))
  /\ AnalyticsTasks.sync_video_analytics sw video_id (open_session db q)
     = (open_session db q, inr (TaskError None "Video not found")).
Proof.
  intros Hfind. repeat split.
  - unfold generate_video_task, generate_body, try_except, bind, query_video,
      open_session. simpl. rewrite Hfind. reflexivity.
  - unfold upload_video_task, upload_body, try_except, bind, query_video,
      open_session. simpl. rewrite Hfind. reflexivity.
  - unfold AnalyticsTasks.sync_video_analytics, try_except, bind, query_video,
      open_session. simpl. rewrite Hfind. reflexivity.
Qed.

Lemma tasks_on_missing_video_witness :
  generate_video_task fine_world 77 (open_session db_draft [])
  = (open_session db_draft [], inr (TaskError None "Video not found"))
  /\ upload_video_task upload_world 77 "public" true
       (open_session db_draft [])
     = (open_session db_draft [], inr (TaskError None "Video not found"))
  /\ AnalyticsTasks.sync_video_analytics
       (AnalyticsTasks.mkSyncWorld some_views 3000) 77
       (open_session db_draft [])
     = (open_session db_draft [], inr (TaskError None "Video not found")).
Proof.
  apply (tasks_on_missing_video db_draft [] 77 fine_world upload_world
           (AnalyticsTasks.mkSyncWorld some_views 3000) "public" true).
  reflexivity.
Defined.

(** The whole run of the upload task when the upload succeeds. *)
Lemma upload_video_task_uploaded_run (w : UploadWorld) (db : DB)
    (q : list Job) (video_id : Z) (privacy_status : string)
    (notify_subscribers : bool) (v : Video) :
  find_video video_id (videos db) = Some v ->
  status v = GENERATED ->
  Uploader.upload_fault (uploader w) = None ->
  let youtube_id :=
    ("STUB_" ++ str_int (Uploader.randint_id (uploader w)))%string in
  upload_video_task w video_id privacy_status notify_subscribers
    (open_session db q)
  = (mkSession
       (with_video video_id (finish_upload youtube_id (upload_utcnow w)) db)
       (with_video video_id (finish_upload youtube_id (upload_utcnow w)) db)
       q
       [ with_video video_id (set_status UPLOADING) db;
         with_video video_id (finish_upload youtube_id (upload_utcnow w)) db ],
     inr (UploadSuccess video_id (Some youtube_id)
            ("https://www.youtube.com/watch?v=" ++ youtube_id)%string)).
Proof.
  intros Hfind Hst Hok youtube_id. subst youtube_id.
  pose proof (find_video_id _ _ _ Hfind) as Hid.
  unfold upload_video_task, upload_body, try_except, bind, query_video,
    open_session; simpl.
  rewrite Hfind, Hst. simpl.
  unfold Uploader.upload_video. rewrite Hok. rewrite Hid.
  unfold with_video, finish_upload. run_orm. rewrite Hfind.
  reflexivity.
Qed.

Lemma In_update_video video_id f (l : list Video) (x : Video) :
  In x (update_video video_id f l) ->
  In x l \/ exists y, In y l /\ x = f y.
Proof.
  unfold update_video. intros H. apply in_map_iff in H.
  destruct H as [y [Hy Hin]].
  destruct (id y =? video_id); [right; exists y | left; subst x]; auto.
Qed.

(** X5: the upload task of the repository never publishes.  The
    uploader is called without being awaited, so the task never returns
    the success result and no video becomes UPLOADED through it: a
    video that is UPLOADED in a state the task commits or leaves was
    there, UPLOADED, before.  On a GENERATED video the task commits
    UPLOADING, then FAILED with the text of the [TypeError] of the first
    read of the upload result, and returns the error result; the
    platform identifier and the publication time are as before. *)
Theorem upload_video_task_never_uploads (w : UploadWorld) (db : DB)
    (q : list Job) (video_id : Z) (privacy_status : string)
    (notify_subscribers : bool) :
  Unawaited.uploads w ->
  let run := upload_video_task w video_id privacy_status notify_subscribers
               (open_session db q) in
  (exists r, snd run = inr r
             /\ forall i y u, r <> UploadSuccess i y u)
  /\ queue (fst run) = q
  /\ (forall d x,
        In d (commits (fst run) ++ [rows (fst run)]) ->
        In x (videos d) -> status x = UPLOADED -> In x (videos db))
  /\ (forall v,
        find_video video_id (videos db) = Some v ->
        status v = GENERATED ->
        snd run
        = inr (TaskError (Some video_id) (str Unawaited.not_subscriptable))
        /\ commits (fst run)
           = [with_video video_id (set_status UPLOADING) db;
              rows (fst run)]
        /\ exists v',
             find_video video_id (videos (rows (fst run))) = Some v'
             /\ status v' = FAILED
             /\ error_message v'
                = Some (str Unawaited.not_subscriptable)
             /\ youtube_video_id v' = youtube_video_id v
             /\ published_at v' = published_at v).
Proof.
  intros Hw run. unfold Unawaited.uploads in Hw.
  assert (run = upload_video_task w video_id privacy_status
                  notify_subscribers (open_session db q)) as Hrun
    by reflexivity.
  clearbody run.
  destruct (find_video video_id (videos db)) as [v|] eqn:Hfind.
  - destruct (status_eqb (status v) GENERATED) eqn:Hst.
    + apply status_eqb_eq in Hst.
      rewrite (upload_video_task_failed w db q video_id privacy_status
                 notify_subscribers v Unawaited.not_subscriptable
                 Hfind Hst Hw) in Hrun.
      subst run. cbn [fst snd rows queue commits app].
      split; [eexists; split; [reflexivity | discriminate]|].
      split; [reflexivity|]. split.
      * intros d x Hd Hx Hup.
        assert (exists f, (forall y, status (f y) <> UPLOADED)
                          /\ d = with_video video_id f db) as [f [Hf Hdf]].
        { destruct Hd as [Hd | [Hd | [Hd | []]]]; subst d.
          - exists (set_status UPLOADING). split; [discriminate | reflexivity].
          - eexists. split; [|reflexivity]. discriminate.
          - eexists. split; [|reflexivity]. discriminate. }
        subst d. unfold with_video in Hx. cbn [videos] in Hx.
        apply In_update_video in Hx.
        destruct Hx as [Hx | [y [_ Hy]]]; [exact Hx|].
        subst x. exfalso. apply (Hf y Hup).
      * intros v' Hv' _. inversion Hv'; subst v'.
        split; [reflexivity|]. split; [reflexivity|].
        exists (fail_with Unawaited.not_subscriptable
                  (set_status UPLOADING v)).
        split.
        -- apply (find_with_video video_id
                    (fun x => fail_with Unawaited.not_subscriptable
                                (set_status UPLOADING x)));
             [reflexivity | exact Hfind].
        -- repeat split; reflexivity.
    + apply status_eqb_neq in Hst.
      rewrite (upload_video_task_refused w db q video_id privacy_status
                 notify_subscribers v Hfind Hst) in Hrun.
      subst run. cbn [fst snd rows queue commits app open_session].
      split; [eexists; split; [reflexivity | discriminate]|].
      split; [reflexivity|]. split.
      * intros d x [Hd | []] Hx _. subst d. exact Hx.
      * intros v' Hv' Hgen. inversion Hv'; subst v'. contradiction.
  - assert (run = (open_session db q,
                   inr (TaskError None "Video not found"))) as Hrun'.
    { rewrite Hrun.
      unfold upload_video_task, upload_body, try_except, bind, query_video,
        open_session. simpl. rewrite Hfind. reflexivity. }
    rewrite Hrun'. cbn [fst snd rows queue commits app open_session].
    split; [eexists; split; [reflexivity | discriminate]|].
    split; [reflexivity|]. split.
    + intros d x [Hd | []] Hx _. subst d. exact Hx.
    + intros v' Hv'. discriminate Hv'.
Qed.

Lemma upload_video_task_never_uploads_witness :
  let run := upload_video_task (Unawaited.upload_world 1000) 6 "public"
               true (open_session db_two []) in
  (exists r, snd run = inr r
             /\ forall i y u, r <> UploadSuccess i y u)
  /\ queue (fst run) = []
  /\ (forall d x,
        In d (commits (fst run) ++ [rows (fst run)]) ->
        In x (videos d) -> status x = UPLOADED -> In x (videos db_two))
  /\ (forall v,
        find_video 6 (videos db_two) = Some v ->
        status v = GENERATED ->
        snd run
        = inr (TaskError (Some 6) (str Unawaited.not_subscriptable))
        /\ commits (fst run)
           = [with_video 6 (set_status UPLOADING) db_two;
              rows (fst run)]
        /\ exists v',
             find_video 6 (videos (rows (fst run))) = Some v'
             /\ status v' = FAILED
             /\ error_message v'
                = Some (str Unawaited.not_subscriptable)
             /\ youtube_video_id v' = youtube_video_id v
             /\ published_at v' = published_at v).
Proof.
  apply (upload_video_task_never_uploads (Unawaited.upload_world 1000)
           db_two [] 6 "public" true).
  reflexivity.
Defined.

(** X6: on a GENERATED video whose upload raises [e] the task returns
    the error result with [str(e)] instead of raising, and the committed
    row is FAILED with [error_message = str(e)]; the rendered file's
    path, the platform identifier and [published_at] are as before. *)
Theorem upload_video_task_failure (w : UploadWorld) (db : DB)
    (q : list Job) (video_id : Z) (privacy_status : string)
    (notify_subscribers : bool) (v : Video) (e : Exn) :
  find_video video_id (videos db) = Some v ->
  status v = GENERATED ->
  Uploader.upload_fault (uploader w) = Some e ->
  let run := upload_video_task w video_id privacy_status notify_subscribers
               (open_session db q) in
  snd run = inr (TaskError (Some video_id) (str e))
  /\ exists v',
       find_video video_id (videos (rows (fst run))) = Some v'
       /\ status v' = FAILED
       /\ error_message v' = Some (str e)
       /\ video_path v' = video_path v
       /\ youtube_video_id v' = youtube_video_id v
       /\ published_at v' = published_at v.
Proof.
  intros Hfind Hst Hko run. subst run.
  rewrite (upload_video_task_failed w db q video_id privacy_status
             notify_subscribers v e Hfind Hst Hko).
  cbn [fst snd rows].
  split; [reflexivity|].
  eexists. split.
  - unfold with_video. cbn [videos].
    rewrite find_video_update_same by reflexivity.
    rewrite Hfind. reflexivity.
  - repeat split; reflexivity.
Qed.

Lemma upload_video_task_failure_witness :
  let run := upload_video_task failing_upload_world 6 "public" true
               (open_session db_two []) in
  snd run = inr (TaskError (Some 6) (str quota_error))
  /\ exists v',
       find_video 6 (videos (rows (fst run))) = Some v'
       /\ status v' = FAILED
       /\ error_message v' = Some (str quota_error)
       /\ video_path v' = video_path (video_in 6 GENERATED 100 20)
       /\ youtube_video_id v' = youtube_video_id (video_in 6 GENERATED 100 20)
       /\ published_at v' = published_at (video_in 6 GENERATED 100 20).
Proof.
  apply (upload_video_task_failure failing_upload_world db_two [] 6 "public"
           true (video_in 6 GENERATED 100 20) quota_error); reflexivity.
Defined.

(** X7: an upload job delivered twice does its work once: after a first
    run on a GENERATED video, whatever its outcome, a second run for the
    same video returns the precondition failure and changes nothing. *)
Theorem upload_video_task_second_run_refused (w1 w2 : UploadWorld)
    (db : DB) (q q' : list Job) (video_id : Z)
    (p1 p2 : string) (n1 n2 : bool) (v : Video) :
  find_video video_id (videos db) = Some v ->
  status v = GENERATED ->
  let db1 := rows (fst (upload_video_task w1 video_id p1 n1
                          (open_session db q))) in
  upload_video_task w2 video_id p2 n2 (open_session db1 q')
  = (open_session db1 q',
     inr (TaskError None "Video must be generated before uploading")).
Proof.
  intros Hfind Hst db1. subst db1.
  destruct (Uploader.upload_fault (uploader w1)) as [e|] eqn:Hf.
  - rewrite (upload_video_task_failed w1 db q video_id p1 n1 v e
               Hfind Hst Hf).
    cbn [fst rows].
    apply (upload_video_task_refused w2 _ q' video_id p2 n2
             (fail_with e (set_status UPLOADING v))).
    + unfold with_video. cbn [videos].
      rewrite find_video_update_same by reflexivity.
      rewrite Hfind. reflexivity.
    + discriminate.
  - rewrite (upload_video_task_uploaded_run w1 db q video_id p1 n1 v
               Hfind Hst Hf).
    cbn [fst rows].
    apply (upload_video_task_refused w2 _ q' video_id p2 n2
             (finish_upload
                ("STUB_" ++ str_int (Uploader.randint_id (uploader w1)))
                (upload_utcnow w1) v)).
    + unfold with_video. cbn [videos].
      rewrite find_video_update_same by reflexivity.
      rewrite Hfind. reflexivity.
    + discriminate.
Qed.

Lemma upload_video_task_second_run_refused_witness :
  let db1 := rows (fst (upload_video_task upload_world 6 "public" true
                          (open_session db_two []))) in
  upload_video_task failing_upload_world 6 "public" true
    (open_session db1 [])
  = (open_session db1 [],
     inr (TaskError None "Video must be generated before uploading")).
Proof.
  apply (upload_video_task_second_run_refused upload_world
           failing_upload_world db_two [] [] 6 "public" "public" true true
           (video_in 6 GENERATED 100 20)); reflexivity.
Defined.

End TaskExtras.

(* ===================================================================== *)
(** ** Further properties of the scheduled campaigns *)
(* ===================================================================== *)

Module CampaignExtras.
Import Py Models Orm VideoTasks Campaigns OrmFacts Spec Views MoreViews.
Import Samples MoreSamples CampaignFacts.

Lemma NoDup_app_iff_cons_end (l : list Z) (x : Z) :
  NoDup l -> ~ In x l -> NoDup (l ++ [x]).
Proof.
  intros Hnd Hx. induction l as [|y l IH]; simpl.
  - constructor; [intros [] | constructor].
  - inversion Hnd as [|? ? Hy Hl]; subst.
    constructor.
    + intros Hin. apply in_app_or in Hin. destruct Hin as [Hin|[Hin|[]]].
      * apply Hy. exact Hin.
      * apply Hx. left. symmetry. exact Hin.
    + apply IH; [exact Hl|]. intros Hin. apply Hx. right. exact Hin.
Qed.

(** The whole run of the auto-upload campaign. *)
Lemma auto_upload_videos_whole_run (db : DB) (q : list Job) :
  auto_upload_videos (open_session db q)
  = (mkSession db db
       (q ++ flat_map
               (fun c => jobs_of (find (generated_in c) (videos db)))
               (filter eligible (channels db)))
       [],
     inr (BatchSuccess
            (Z.of_nat (List.length (filter eligible (channels db))))
            (Z.of_nat
               (List.length
                  (flat_map
                     (fun c => jobs_of (find (generated_in c) (videos db)))
                     (filter eligible (channels db))))))).
Proof.
  unfold auto_upload_videos, try_except, bind at 1, query_channels.
  unfold bind. simpl. rewrite auto_upload_loop. reflexivity.
Qed.

Lemma flat_map_jobs_length (db : DB) (cs : list Channel) :
  (List.length
     (flat_map (fun c => jobs_of (find (generated_in c) (videos db))) cs)
   <= List.length cs)%nat.
Proof.
  induction cs as [|c cs IH]; simpl; [lia|].
  rewrite length_app.
  destruct (find (generated_in c) (videos db)); simpl; lia.
Qed.

(** X8: the auto-upload campaign only enqueues: it commits nothing and
    leaves the database as it is.  It reports the number of ACTIVE
    auto-upload channels and the number of jobs added, at most one per
    such channel, and every job added is the upload, with the default
    privacy and notification, of a GENERATED video of such a channel. *)
Theorem auto_upload_videos_only_enqueues (db : DB) (q : list Job) :
  let run := auto_upload_videos (open_session db q) in
  rows (fst run) = db
  /\ commits (fst run) = []
  /\ exists jobs,
       queue (fst run) = (q ++ jobs)%list
       /\ snd run
          = inr (BatchSuccess
                   (Z.of_nat (List.length (filter eligible (channels db))))
                   (Z.of_nat (List.length jobs)))
       /\ (List.length jobs
           <= List.length (filter eligible (channels db)))%nat
       /\ Forall
            (fun j =>
               exists v c,
                 j = UploadVideoJob (id v) "public" true
                 /\ In v (videos db) /\ status v = GENERATED
                 /\ In c (channels db) /\ eligible c = true
                 /\ channel_id v = c_id c)
            jobs.
Proof.
  intros run. subst run. rewrite auto_upload_videos_whole_run.
  cbn [fst snd rows commits queue].
  split; [reflexivity|]. split; [reflexivity|].
  eexists. split; [reflexivity|]. split; [reflexivity|].
  split; [apply flat_map_jobs_length|].
  apply Forall_forall. intros j Hj.
  apply in_flat_map in Hj. destruct Hj as [c [Hc Hj]].
  apply filter_In in Hc. destruct Hc as [Hc Hel].
  destruct (find (generated_in c) (videos db)) as [v|] eqn:Hf;
    [|destruct Hj].
  destruct Hj as [Hj|[]]. subst j.
  apply find_some in Hf. destruct Hf as [Hv Hgen].
  unfold generated_in in Hgen. apply andb_true_iff in Hgen.
  destruct Hgen as [Hch Hst].
  exists v, c. repeat split; try assumption.
  - apply status_eqb_eq. exact Hst.
  - apply Z.eqb_eq. exact Hch.
Qed.

(** X9: every job the auto-upload campaign enqueues passes the upload
    task's precondition: run on the same database, with video keys
    distinct, the task commits the video as UPLOADING first instead of
    refusing it. *)
Theorem auto_upload_jobs_are_accepted (db : DB) (j : Job) :
  NoDup (map id (videos db)) ->
  In j (queue (fst (auto_upload_videos (open_session db [])))) ->
  exists video_id,
    j = UploadVideoJob video_id "public" true
    /\ forall w q,
         hd_error
           (commits (fst (upload_video_task w video_id "public" true
                            (open_session db q))))
         = Some (with_video video_id (set_status UPLOADING) db).
Proof.
  intros Hnd Hj.
  rewrite auto_upload_videos_whole_run in Hj. cbn [fst queue app] in Hj.
  apply in_flat_map in Hj. destruct Hj as [c [_ Hj]].
  destruct (find (generated_in c) (videos db)) as [v|] eqn:Hf;
    [|destruct Hj].
  destruct Hj as [Hj|[]]. subst j.
  apply find_some in Hf. destruct Hf as [Hv Hgen].
  unfold generated_in in Hgen. apply andb_true_iff in Hgen.
  destruct Hgen as [_ Hst]. apply status_eqb_eq in Hst.
  pose proof (find_video_NoDup _ _ Hnd Hv) as Hfind.
  exists (id v). split; [reflexivity|].
  intros w q.
  destruct (Uploader.upload_fault (uploader w)) as [e|] eqn:Hfault.
  - rewrite (UploadFacts.upload_video_task_failed w db q (id v) "public"
               true v e Hfind Hst Hfault).
    reflexivity.
  - rewrite (TaskExtras.upload_video_task_uploaded_run w db q (id v)
               "public" true v Hfind Hst Hfault).
    reflexivity.
Qed.

Lemma auto_upload_jobs_are_accepted_witness :
  exists video_id,
    UploadVideoJob 2 "public" true = UploadVideoJob video_id "public" true
    /\ forall w q,
         hd_error
           (commits (fst (upload_video_task w video_id "public" true
                            (open_session db_backlog q))))
         = Some (with_video video_id (set_status UPLOADING) db_backlog).
Proof.
  apply (auto_upload_jobs_are_accepted db_backlog
           (UploadVideoJob 2 "public" true)).
  - simpl. repeat constructor; simpl; intuition lia.
  - left. reflexivity.
Defined.

(** One channel of the auto-generate loop. *)
Lemma auto_generate_channel_run (w : GenerateCampaignWorld) (c : Channel)
    (n : Z) (d : DB) (q : list Job) (cs : list DB) :
  auto_generate_channel w c n (mkSession d d q cs)
  = match content_for w c with
    | inr content =>
        let v := new_video w c content (videos d) in
        (mkSession (with_new_videos [v] d) (with_new_videos [v] d)
           (q ++ [GenerateVideoJob (id v)])
           (cs ++ [with_new_videos [v] d]),
         inr (n + 1))
    | inl _ => (mkSession d d q cs, inr n)
    end.
Proof.
  unfold auto_generate_channel, try_except, bind, lift.
  destruct (content_for w c); reflexivity.
Qed.

(** The loop over the channels. *)
Lemma auto_generate_loop (w : GenerateCampaignWorld) (l : list Channel) :
  forall (n : Z) (d : DB) (q : list Job) (cs : list DB),
    for_fold l (auto_generate_channel w) n (mkSession d d q cs)
    = (mkSession (with_new_videos (created w l (videos d)) d)
         (with_new_videos (created w l (videos d)) d)
         (q ++ map (fun v => GenerateVideoJob (id v))
                 (created w l (videos d)))
         (cs ++ insert_trace (created w l (videos d)) d),
       inr (n + Z.of_nat (List.length (created w l (videos d))))).
Proof.
  induction l as [|c l IH]; intros n d q cs.
  - simpl. unfold with_new_videos.
    rewrite !app_nil_r, Z.add_0_r. destruct d; reflexivity.
  - cbn [for_fold]. unfold bind at 1.
    rewrite auto_generate_channel_run. cbn [created].
    destruct (content_for w c) as [e|content].
    + apply IH.
    + cbv zeta. rewrite IH. cbn [with_new_videos videos channels analytics
                                 map insert_trace List.length].
      unfold with_new_videos. cbn [videos channels analytics].
      rewrite <- !app_assoc. cbn [app].
      rewrite Nat2Z.inj_succ. f_equal. f_equal. lia.
Qed.

Lemma created_channels (w : GenerateCampaignWorld) (l : list Channel) :
  forall table,
    map channel_id (created w l table)
    = map c_id (filter (content_ok w) l).
Proof.
  induction l as [|c l IH]; intros table; [reflexivity|].
  cbn [created filter]. unfold content_ok at 1.
  destruct (content_for w c) as [e|content].
  - apply IH.
  - cbn [map]. rewrite IH. reflexivity.
Qed.

Lemma created_are_drafts (w : GenerateCampaignWorld) (l : list Channel) :
  forall table,
    Forall (fun v => status v = DRAFT /\ generation_progress v = 0
                     /\ video_path v = None /\ error_message v = None
                     /\ metadata_category_id v = "22"%string)
      (created w l table).
Proof.
  induction l as [|c l IH]; intros table; [apply Forall_nil|].
  cbn [created]. destruct (content_for w c) as [e|content].
  - apply IH.
  - apply Forall_cons; [|apply IH]. repeat split; reflexivity.
Qed.

(** The whole run of the auto-generate campaign. *)
Lemma auto_generate_videos_run (w : GenerateCampaignWorld) (db : DB)
    (q : list Job) :
  auto_generate_videos w (open_session db q)
  = (mkSession
       (with_new_videos
          (created w (filter generates (channels db)) (videos db)) db)
       (with_new_videos
          (created w (filter generates (channels db)) (videos db)) db)
       (q ++ map (fun v => GenerateVideoJob (id v))
               (created w (filter generates (channels db)) (videos db)))
       (insert_trace
          (created w (filter generates (channels db)) (videos db)) db),
     inr (BatchSuccess
            (Z.of_nat (List.length (filter generates (channels db))))
            (Z.of_nat (List.length
               (created w (filter generates (channels db)) (videos db)))))).
Proof.
  unfold auto_generate_videos, try_except, bind at 1, query_channels.
  unfold open_session. cbn [objs channels].
  change (fun c : Channel =>
            Bool.eqb (c_auto_generate c) true
            && channel_status_eqb (c_status c) ACTIVE)
    with generates.
  unfold bind. rewrite auto_generate_loop. reflexivity.
Qed.

(** X10: the auto-generate campaign inserts one DRAFT video with
    progress 0 and enqueues one generation job for every ACTIVE
    auto-generate channel for which content generation answers, in
    channel order, committing after each insert.  A channel for which
    it raises is skipped and the run goes on with the next one.  Rows
    that existed are not changed, and the result reports the channels
    considered and the videos queued.  The category the content service
    chooses is stored under the key "category", so the uploader's
    category of such a video is the default "22". *)
Theorem auto_generate_videos_continues_on_error
    (w : GenerateCampaignWorld) (db : DB) (q : list Job) :
  let cs := filter generates (channels db) in
  let vs := created w cs (videos db) in
  auto_generate_videos w (open_session db q)
  = (mkSession (with_new_videos vs db) (with_new_videos vs db)
       (q ++ map (fun v => GenerateVideoJob (id v)) vs)
       (insert_trace vs db),
     inr (BatchSuccess (Z.of_nat (List.length cs))
            (Z.of_nat (List.length vs))))
  /\ map channel_id vs = map c_id (filter (content_ok w) cs)
  /\ Forall (fun v => status v = DRAFT /\ generation_progress v = 0
                      /\ video_path v = None /\ error_message v = None
                      /\ metadata_category_id v = "22"%string) vs.
Proof.
  intros cs vs. subst cs vs. split; [|split].
  - apply auto_generate_videos_run.
  - apply created_channels.
  - apply created_are_drafts.
Qed.

Lemma created_NoDup (w : GenerateCampaignWorld) (l : list Channel) :
  fresh_ids w ->
  forall table,
    NoDup (map id table) ->
    NoDup (map id (table ++ created w l table)).
Proof.
  intros Hfresh. induction l as [|c l IH]; intros table Hnd.
  - simpl. rewrite app_nil_r. exact Hnd.
  - cbn [created]. destruct (content_for w c) as [e|content].
    + apply IH. exact Hnd.
    + cbv zeta.
      replace (table ++ new_video w c content table
                        :: created w l (table ++ [new_video w c content table]))%list
        with ((table ++ [new_video w c content table])
              ++ created w l (table ++ [new_video w c content table]))%list
        by (rewrite <- app_assoc; reflexivity).
      apply IH. rewrite map_app. simpl.
      apply NoDup_app_iff_cons_end; [exact Hnd | apply Hfresh].
Qed.

Lemma created_origin (w : GenerateCampaignWorld) (l : list Channel) :
  forall table v,
    In v (created w l table) ->
    exists c content table',
      In c l /\ content_for w c = inr content
      /\ v = new_video w c content table'.
Proof.
  induction l as [|c l IH]; intros table v Hv; [destruct Hv|].
  cbn [created] in Hv. destruct (content_for w c) as [e|content] eqn:Hc.
  - destruct (IH _ _ Hv) as [c' [ct [t' [Hin [Hct Heq]]]]].
    exists c', ct, t'. split; [right; exact Hin | auto].
  - destruct Hv as [Hv|Hv].
    + exists c, content, table. split; [left; reflexivity | auto].
    + destruct (IH _ _ Hv) as [c' [ct [t' [Hin [Hct Heq]]]]].
      exists c', ct, t'. split; [right; exact Hin | auto].
Qed.

(** X11: when the database assigns unused keys and the keys in the table
    are distinct, every job the auto-generate campaign enqueues names a
    video that is in the table afterwards: the DRAFT row created for an
    ACTIVE auto-generate channel, carrying the title and the script the
    content service returned for that channel. *)
Theorem auto_generate_jobs_find_their_video
    (w : GenerateCampaignWorld) (db : DB) (j : Job) :
  fresh_ids w ->
  NoDup (map id (videos db)) ->
  let run := auto_generate_videos w (open_session db []) in
  In j (queue (fst run)) ->
  exists v c content,
    j = GenerateVideoJob (id v)
    /\ find_video (id v) (videos (rows (fst run))) = Some v
    /\ In c (channels db) /\ generates c = true
    /\ content_for w c = inr content
    /\ status v = DRAFT
    /\ channel_id v = c_id c
    /\ title v = ct_title content
    /\ script v = Some (ct_script content).
Proof.
  intros Hfresh Hnd run Hj. subst run.
  rewrite auto_generate_videos_run in *.
  cbn [fst queue rows app] in *.
  apply in_map_iff in Hj. destruct Hj as [v [Hj Hv]]. subst j.
  destruct (created_origin w _ _ v Hv) as [c [content [t' [Hc [Hct Heq]]]]].
  apply filter_In in Hc. destruct Hc as [Hc Hgen].
  exists v, c, content. split; [reflexivity|]. split.
  - unfold with_new_videos. cbn [videos].
    apply find_video_NoDup.
    + apply created_NoDup; assumption.
    + apply in_or_app. right. exact Hv.
  - subst v. repeat split; try assumption; reflexivity.
Qed.

Lemma max_plus_one_fresh (table : list Video) :
  ~ In (max_plus_one table) (map id table).
Proof.
  unfold max_plus_one.
  assert (forall l x, In x l -> x <= fold_right Z.max 0 l) as Hmax.
  { induction l as [|y l IH]; intros x Hx; [destruct Hx|].
    simpl. destruct Hx as [->|Hx]; [lia|].
    specialize (IH x Hx). lia. }
  intros Hin. apply Hmax in Hin. lia.
Qed.

Lemma auto_generate_jobs_find_their_video_witness :
  let run := auto_generate_videos campaign_world
               (open_session db_three_channels []) in
  exists v c content,
    GenerateVideoJob 2 = GenerateVideoJob (id v)
    /\ find_video (id v) (videos (rows (fst run))) = Some v
    /\ In c (channels db_three_channels) /\ generates c = true
    /\ content_for campaign_world c = inr content
    /\ status v = DRAFT
    /\ channel_id v = c_id c
    /\ title v = ct_title content
    /\ script v = Some (ct_script content).
Proof.
  apply (auto_generate_jobs_find_their_video campaign_world
           db_three_channels (GenerateVideoJob 2)).
  - intros table. apply max_plus_one_fresh.
  - constructor.
  - vm_compute. right. left. reflexivity.
Defined.

(** The loop of the analytics fan-out. *)
Lemma sync_all_loop (l : list Video) :
  forall (n : Z) (s : Session),
    for_fold l sync_all_video (n, 0) s
    = (mkSession (rows s) (objs s)
         (queue s ++ map (fun v => SyncAnalyticsJob (id v)) l)
         (commits s),
       inr (n + Z.of_nat (List.length l), 0)).
Proof.
  induction l as [|v l IH]; intros n s.
  - simpl. rewrite app_nil_r, Z.add_0_r. destruct s; reflexivity.
  - cbn [for_fold]. unfold bind at 1.
    unfold sync_all_video at 1, try_except, bind, delay, ret.
    cbn [fst snd]. rewrite IH. cbn [rows objs queue commits map List.length].
    rewrite <- app_assoc. cbn [app].
    rewrite Nat2Z.inj_succ. f_equal. f_equal. f_equal. lia.
Qed.

(** The whole run of the analytics fan-out. *)
Lemma sync_all_analytics_run (db : DB) (q : list Job) :
  sync_all_analytics (open_session db q)
  = (mkSession db db
       (q ++ map (fun v => SyncAnalyticsJob (id v))
               (filter to_sync (videos db)))
       [],
     inr (SyncAllSuccess
            (Z.of_nat (List.length (filter to_sync (videos db))))
            (Z.of_nat (List.length (filter to_sync (videos db))))
            0)).
Proof.
  unfold sync_all_analytics, try_except, bind at 1, query_videos.
  unfold open_session. cbn [objs videos].
  unfold bind. rewrite sync_all_loop. reflexivity.
Qed.

Lemma NoDup_ids_filter (p : Video -> bool) (l : list Video) :
  NoDup (map id l) -> NoDup (map id (filter p l)).
Proof.
  induction l as [|x l IH]; intros Hnd; [exact Hnd|].
  cbn [map] in Hnd. inversion Hnd as [|? ? Hx Hl]; subst.
  cbn [filter]. destruct (p x); [|apply IH; exact Hl].
  cbn [map]. apply NoDup_cons; [|apply IH; exact Hl].
  intros Hin. apply Hx. apply in_map_iff in Hin.
  destruct Hin as [y [Hy Hin]]. apply filter_In in Hin.
  apply in_map_iff. exists y. tauto.
Qed.

(** X12: the hourly analytics campaign enqueues a sync job for a
    video exactly when the video is UPLOADED and its platform identifier
    is not NULL, one job per such row (so one per video when the keys
    are distinct), and adds nothing else.  The campaign commits nothing,
    leaves the database as it is, and reports the number of jobs it
    added both as the total and as the number synced. *)
Theorem sync_all_analytics_fans_out (db : DB) (q : list Job) :
  let run := sync_all_analytics (open_session db q) in
  rows (fst run) = db
  /\ commits (fst run) = []
  /\ exists vs,
       queue (fst run)
       = (q ++ map (fun v => SyncAnalyticsJob (id v)) vs)%list
       /\ (forall v,
             In v vs
             <-> In v (videos db) /\ status v = UPLOADED
                 /\ youtube_video_id v <> None)
       /\ (NoDup (map id (videos db)) -> NoDup (map id vs))
       /\ exists failed,
            snd run
            = inr (SyncAllSuccess (Z.of_nat (List.length vs))
                     (Z.of_nat (List.length vs)) failed).
Proof.
  intros run. subst run. rewrite sync_all_analytics_run.
  cbn [fst snd rows commits queue].
  split; [reflexivity|]. split; [reflexivity|].
  exists (filter to_sync (videos db)).
  split; [reflexivity|]. split; [|split].
  - intros v. rewrite filter_In. unfold to_sync.
    rewrite andb_true_iff, status_eqb_eq.
    destruct (youtube_video_id v) as [y|].
    + split; intros [H1 [H2 H3]]; repeat split; auto. discriminate.
    + split; intros [H1 [H2 H3]]; [discriminate H3|].
      exfalso. apply H3. reflexivity.
  - apply NoDup_ids_filter.
  - eexists. reflexivity.
Qed.

(** X13: the fan-out and the job disagree on the empty identifier: a
    video that is UPLOADED with the empty string as its platform
    identifier gets a sync job, and that job, run on the same database,
    returns "skipped" without fetching or writing anything. *)
Theorem sync_all_analytics_enqueues_skipped_job (db : DB) (v : Video) :
  NoDup (map id (videos db)) ->
  In v (videos db) ->
  status v = UPLOADED ->
  youtube_video_id v = Some ""%string ->
  In (SyncAnalyticsJob (id v))
     (queue (fst (sync_all_analytics (open_session db []))))
  /\ forall w q,
       AnalyticsTasks.sync_video_analytics w (id v) (open_session db q)
       = (open_session db q, inr (TaskSkipped "Video not uploaded")).
Proof.
  intros Hnd Hv Hst Hyt. split.
  - rewrite sync_all_analytics_run. cbn [fst queue app].
    apply in_map_iff. exists v. split; [reflexivity|].
    apply filter_In. split; [exact Hv|].
    unfold to_sync. rewrite Hst, Hyt. reflexivity.
  - intros w q.
    pose proof (find_video_NoDup _ _ Hnd Hv) as Hfind.
    unfold AnalyticsTasks.sync_video_analytics, try_except, bind,
      query_video, open_session. simpl.
    rewrite Hfind, Hst, Hyt. reflexivity.
Qed.

Lemma sync_all_analytics_enqueues_skipped_job_witness :
  In (SyncAnalyticsJob (id unnamed_upload))
     (queue (fst (sync_all_analytics (open_session db_uploads []))))
  /\ forall w q,
       AnalyticsTasks.sync_video_analytics w (id unnamed_upload)
         (open_session db_uploads q)
       = (open_session db_uploads q, inr (TaskSkipped "Video not uploaded")).
Proof.
  apply (sync_all_analytics_enqueues_skipped_job db_uploads unnamed_upload).
  - simpl. repeat constructor; simpl; intuition lia.
  - left. reflexivity.
  - reflexivity.
  - reflexivity.
Defined.

End CampaignExtras.

(* ===================================================================== *)
(** ** Further properties of the analytics synchronizer *)
(* ===================================================================== *)

Module AnalyticsExtras.
Import Py Models Orm AnalyticsTasks OrmFacts Spec Views.
Import Samples MoreSamples AnalyticsFacts.

(** X14: for a video that is not UPLOADED, or that has no platform
    identifier (NULL or empty), the sync returns "skipped" and leaves
    the session as it was; the publishing service is not asked, so the
    outcome is the same when the service is down. *)
Theorem sync_video_analytics_skips (w : SyncWorld) (db : DB)
    (q : list Job) (video_id : Z) (v : Video) :
  find_video video_id (videos db) = Some v ->
  status v <> UPLOADED \/ truthy_str (youtube_video_id v) = false ->
  sync_video_analytics w video_id (open_session db q)
  = (open_session db q, inr (TaskSkipped "Video not uploaded")).
Proof.
  intros Hfind Hskip.
  unfold sync_video_analytics, try_except, bind, query_video, open_session.
  simpl. rewrite Hfind.
  destruct Hskip as [Hst | Hyt].
  - apply status_eqb_neq in Hst. rewrite Hst. reflexivity.
  - rewrite Hyt, orb_true_r. reflexivity.
Qed.

Lemma sync_video_analytics_skips_witness :
  sync_video_analytics (mkSyncWorld no_metrics 3000) 6
    (open_session db_two [])
  = (open_session db_two [], inr (TaskSkipped "Video not uploaded")).
Proof.
  apply (sync_video_analytics_skips (mkSyncWorld no_metrics 3000) db_two []
           6 (video_in 6 GENERATED 100 20)).
  - reflexivity.
  - left. discriminate.
Defined.

(** The dictionary a fetch returns depends on the drawn values only. *)
(** X16: whatever the outcome, the sync never writes a video or a
    channel: in every state it commits and in the state it leaves, the
    video and channel tables are those it started from, so no video
    changes status. *)
Theorem sync_video_analytics_leaves_videos (w : SyncWorld) (db : DB)
    (q : list Job) (video_id : Z) :
  let s := fst (sync_video_analytics w video_id (open_session db q)) in
  videos (rows s) = videos db
  /\ channels (rows s) = channels db
  /\ queue s = q
  /\ Forall (fun d => videos d = videos db /\ channels d = channels db)
       (commits s).
Proof.
  intros s. subst s.
  destruct (AnalyticsFacts.sync_job_session w video_id db q)
    as [Hs | [d Hs]]; rewrite Hs; cbn [rows queue commits open_session].
  - repeat split. apply Forall_nil.
  - repeat split. apply Forall_cons; [split; reflexivity | apply Forall_nil].
Qed.

End AnalyticsExtras.

(* ===================================================================== *)
(** ** Further properties of the video endpoints *)
(* ===================================================================== *)

Module ApiExtras.
Import Py Models Orm VideosApi VideosCrud OrmFacts Spec Views MoreViews.
Import Samples MoreSamples.

Lemma find_owned_channel_found channel_id user db c :
  find_owned_channel channel_id user db = Some c ->
  In c (channels db) /\ c_id c = channel_id /\ c_owner_id c = user.
Proof.
  unfold find_owned_channel. intros H. apply find_some in H.
  destruct H as [Hin H]. apply andb_true_iff in H. destruct H as [H1 H2].
  apply Z.eqb_eq in H1, H2. auto.
Qed.

Lemma find_app_last {A} (p : A -> bool) (l : list A) (x : A) :
  (forall y, In y l -> p y = false) -> p x = true ->
  find p (l ++ [x]) = Some x.
Proof.
  intros Hl Hx. induction l as [|y l IH]; simpl.
  - rewrite Hx. reflexivity.
  - rewrite (Hl y (or_introl eq_refl)). apply IH.
    intros z Hz. apply Hl. right. exact Hz.
Qed.

Lemma find_video_app_old video_id (l : list Video) (x w : Video) :
  find_video video_id l = Some w ->
  find_video video_id (l ++ [x]) = Some w.
Proof.
  unfold find_video. induction l as [|y l IH]; simpl; [discriminate|].
  destruct (id y =? video_id); [auto | exact IH].
Qed.

(** X17: creating a video in a channel of the caller inserts a DRAFT
    row with progress 0, no script and the request's title, and returns
    it; with a fresh key assigned, the caller gets the same row back
    from [get_video], and the rows that existed are found as before.  In
    a channel that is not the caller's the request raises 404 "Channel
    not found" and inserts nothing. *)
Theorem create_video_then_get_video (ins : Insert) (data : VideoCreate)
    (user : Z) (db : DB) (q q' : list Job) :
  (find_owned_channel (vc_channel_id data) user db = None ->
   create_video ins data user (open_session db q)
   = (open_session db q, inl channel_not_found))
  /\ (forall c,
        find_owned_channel (vc_channel_id data) user db = Some c ->
        ~ In (insert_id ins (videos db)) (map id (videos db)) ->
        let run := create_video ins data user (open_session db q) in
        exists v,
          snd run = inr v
          /\ status v = DRAFT /\ generation_progress v = 0
          /\ script v = None /\ title v = vc_title data
          /\ channel_id v = vc_channel_id data
          /\ videos (rows (fst run)) = (videos db ++ [v])%list
          /\ queue (fst run) = q
          /\ get_video (id v) user (open_session (rows (fst run)) q')
             = (open_session (rows (fst run)) q', inr v)
          /\ forall i w, find_video i (videos db) = Some w ->
                         find_video i (videos (rows (fst run))) = Some w).
Proof.
  split.
  - intros Hnone.
    unfold create_video, bind, query_owned_channel, open_session. simpl.
    rewrite Hnone. reflexivity.
  - intros c Hc Hfresh run. subst run.
    destruct (find_owned_channel_found _ _ _ _ Hc) as [Hin [Hcid Howner]].
    unfold create_video, bind, query_owned_channel, open_session. simpl.
    rewrite Hc. simpl.
    eexists. split; [reflexivity|].
    repeat (split; [reflexivity|]).
    split.
    + unfold get_video, bind, query_owned_video, find_owned_video,
        open_session. simpl.
      rewrite find_app_last.
      * reflexivity.
      * intros y Hy. simpl.
        replace (id y =? insert_id ins (videos db)) with false;
          [reflexivity|].
        symmetry. apply Z.eqb_neq. intros E. apply Hfresh.
        rewrite <- E. apply in_map. exact Hy.
      * simpl. rewrite Z.eqb_refl. simpl.
        apply existsb_exists. exists c. split; [exact Hin|].
        rewrite Hcid, Howner, !Z.eqb_refl. reflexivity.
    + intros i w Hw. apply find_video_app_old. exact Hw.
Qed.

Lemma create_video_then_get_video_witness :
  let run := create_video insert create_request 7 (open_session db_shared [])
  in
  exists v,
    snd run = inr v
    /\ status v = DRAFT /\ generation_progress v = 0
    /\ script v = None /\ title v = vc_title create_request
    /\ channel_id v = vc_channel_id create_request
    /\ videos (rows (fst run)) = (videos db_shared ++ [v])%list
    /\ queue (fst run) = []
    /\ get_video (id v) 7 (open_session (rows (fst run)) [])
       = (open_session (rows (fst run)) [], inr v)
    /\ forall i w, find_video i (videos db_shared) = Some w ->
                   find_video i (videos (rows (fst run))) = Some w.
Proof.
  apply (proj2 (create_video_then_get_video insert create_request 7
                  db_shared [] []) channel1).
  - reflexivity.
  - vm_compute. intuition discriminate.
Defined.

Lemma find_video_removed video_id (l : list Video) :
  find_video video_id (filter (fun v => negb (id v =? video_id)) l) = None.
Proof.
  unfold find_video. induction l as [|y l IH]; [reflexivity|].
  simpl. destruct (id y =? video_id) eqn:E; simpl; [exact IH|].
  rewrite E. exact IH.
Qed.

Lemma find_video_kept video_id i (l : list Video) :
  i <> video_id ->
  find_video i (filter (fun v => negb (id v =? video_id)) l)
  = find_video i l.
Proof.
  intros Hne. unfold find_video. induction l as [|y l IH]; [reflexivity|].
  simpl. destruct (id y =? video_id) eqn:E; simpl.
  - apply Z.eqb_eq in E.
    replace (id y =? i) with false; [exact IH|].
    symmetry. apply Z.eqb_neq. congruence.
  - destruct (id y =? i); [reflexivity | exact IH].
Qed.

Lemma find_analytics_removed video_id (l : list VideoAnalytics) :
  find_analytics video_id
    (filter (fun a => negb (a_video_id a =? video_id)) l) = None.
Proof.
  unfold find_analytics. induction l as [|y l IH]; [reflexivity|].
  simpl. destruct (a_video_id y =? video_id) eqn:E; simpl; [exact IH|].
  rewrite E. exact IH.
Qed.

Lemma find_analytics_kept video_id i (l : list VideoAnalytics) :
  i <> video_id ->
  find_analytics i (filter (fun a => negb (a_video_id a =? video_id)) l)
  = find_analytics i l.
Proof.
  intros Hne. unfold find_analytics.
  induction l as [|y l IH]; [reflexivity|].
  simpl. destruct (a_video_id y =? video_id) eqn:E; simpl.
  - apply Z.eqb_eq in E.
    replace (a_video_id y =? i) with false; [exact IH|].
    symmetry. apply Z.eqb_neq. congruence.
  - destruct (a_video_id y =? i); [reflexivity | exact IH].
Qed.

Lemma find_owned_video_removed video_id user (db : DB) :
  find_owned_video video_id user
    (mkDB (filter (fun v => negb (id v =? video_id)) (videos db))
       (channels db)
       (filter (fun a => negb (a_video_id a =? video_id)) (analytics db)))
  = None.
Proof.
  unfold find_owned_video. cbn [videos channels].
  induction (videos db) as [|y l IH]; [reflexivity|].
  simpl. destruct (id y =? video_id) eqn:E; simpl; [exact IH|].
  rewrite E. simpl. exact IH.
Qed.

(** X18: deleting a video of the caller removes its row and, with it,
    its analytics record: afterwards neither is found, [get_video]
    answers 404, and every other video and analytics record is found as
    before.  For a video that is not the caller's (or does not exist)
    the request raises 404 and deletes nothing. *)
Theorem delete_video_removes_video_and_analytics (video_id user : Z)
    (db : DB) (q q' : list Job) :
  (find_owned_video video_id user db = None ->
   delete_video video_id user (open_session db q)
   = (open_session db q, inl not_found))
  /\ (forall v,
        find_owned_video video_id user db = Some v ->
        let run := delete_video video_id user (open_session db q) in
        snd run = inr tt
        /\ find_video video_id (videos (rows (fst run))) = None
        /\ find_analytics video_id (analytics (rows (fst run))) = None
        /\ get_video video_id user (open_session (rows (fst run)) q')
           = (open_session (rows (fst run)) q', inl not_found)
        /\ channels (rows (fst run)) = channels db
        /\ forall i, i <> video_id ->
             find_video i (videos (rows (fst run)))
             = find_video i (videos db)
             /\ find_analytics i (analytics (rows (fst run)))
                = find_analytics i (analytics db)).
Proof.
  split.
  - intros Hnone.
    unfold delete_video, bind, query_owned_video, open_session. simpl.
    rewrite Hnone. reflexivity.
  - intros v Hv run. subst run.
    destruct (find_owned_video_found _ _ _ _ Hv) as [Hid _].
    unfold delete_video, bind, query_owned_video, open_session. simpl.
    rewrite Hv. simpl. rewrite Hid.
    split; [reflexivity|].
    split; [apply find_video_removed|].
    split; [apply find_analytics_removed|].
    split.
    + unfold get_video, bind, query_owned_video, open_session. simpl.
      rewrite find_owned_video_removed. reflexivity.
    + split; [reflexivity|].
      intros i Hi. split.
      * apply find_video_kept. exact Hi.
      * apply find_analytics_kept. exact Hi.
Qed.

Lemma delete_video_removes_video_and_analytics_witness :
  delete_video 1 8 (open_session db_shared [])
  = (open_session db_shared [], inl not_found)
  /\ let run := delete_video 1 7 (open_session db_shared []) in
     snd run = inr tt
     /\ find_video 1 (videos (rows (fst run))) = None
     /\ find_analytics 1 (analytics (rows (fst run))) = None
     /\ get_video 1 7 (open_session (rows (fst run)) [])
        = (open_session (rows (fst run)) [], inl not_found)
     /\ channels (rows (fst run)) = channels db_shared
     /\ forall i, i <> 1 ->
          find_video i (videos (rows (fst run)))
          = find_video i (videos db_shared)
          /\ find_analytics i (analytics (rows (fst run)))
             = find_analytics i (analytics db_shared).
Proof.
  split.
  - apply (proj1 (delete_video_removes_video_and_analytics 1 8 db_shared
                    [] [])).
    reflexivity.
  - apply (proj2 (delete_video_removes_video_and_analytics 1 7 db_shared
                    [] []) (video_of 1 1 DRAFT)).
    reflexivity.
Defined.

Lemma status_of_value_value (x : VideoStatus) :
  status_of_value (value x) = inr x.
Proof. destruct x; reflexivity. Qed.

Lemma value_not_empty (x : VideoStatus) : String.eqb (value x) "" = false.
Proof. destruct x; reflexivity. Qed.

Lemma owned_videos_In (user : Z) (db : DB) (v : Video) :
  In v (owned_videos user db)
  <-> In v (videos db)
      /\ exists c, In c (channels db) /\ c_id c = channel_id v
                   /\ c_owner_id c = user.
Proof.
  unfold owned_videos. rewrite in_flat_map. split.
  - intros [x [Hx Hv]]. apply in_map_iff in Hv.
    destruct Hv as [c [Heq Hc]]. subst x.
    apply filter_In in Hc. destruct Hc as [Hc Hp].
    apply andb_true_iff in Hp. destruct Hp as [H1 H2].
    apply Z.eqb_eq in H1, H2. split; [exact Hx|]. exists c. auto.
  - intros [Hv [c [Hc [H1 H2]]]]. exists v. split; [exact Hv|].
    apply in_map_iff. exists c. split; [reflexivity|].
    apply filter_In. split; [exact Hc|].
    rewrite H1, H2, !Z.eqb_refl. reflexivity.
Qed.

(** The channel filter either raises [AttributeError] or keeps the
    videos of the wanted channel. *)
Lemma filter_by_channel_run (cid_filter : option Z) (st : option string)
    (user : Z) (query : list Video) (s : Session) :
  (exists e, filter_by_channel cid_filter st user query s = (s, inl e)
             /\ exn_class e = OtherError "AttributeError"
             /\ exists cid, cid_filter = Some cid /\ cid <> 0
                            /\ find_owned_channel cid user (objs s) = None)
  \/ exists l,
       filter_by_channel cid_filter st user query s = (s, inr l)
       /\ forall v, In v l
                    <-> In v query
                        /\ (forall cid, cid_filter = Some cid -> cid <> 0 ->
                                        channel_id v = cid).
Proof.
  unfold filter_by_channel.
  destruct cid_filter as [cid|].
  - destruct (cid =? 0) eqn:E0.
    + right. exists query. split; [reflexivity|].
      intros v. split; [|tauto]. intros Hv. split; [exact Hv|].
      intros c' Hc Hne. inversion Hc; subst c'.
      apply Z.eqb_eq in E0. contradiction.
    + unfold bind, query_owned_channel.
      destruct (find_owned_channel cid user (objs s)) eqn:Hfind.
      * right. eexists. split; [reflexivity|].
        intros v. rewrite filter_In. split.
        -- intros [Hv Hc]. split; [exact Hv|].
           intros c' Hcid _. inversion Hcid; subst c'.
           apply Z.eqb_eq. exact Hc.
        -- intros [Hv Hc]. split; [exact Hv|].
           apply Z.eqb_eq. apply Hc; [reflexivity|].
           apply Z.eqb_neq. exact E0.
      * left. eexists. split; [reflexivity|]. split.
        -- destruct st; reflexivity.
        -- exists cid. split; [reflexivity|].
           split; [apply Z.eqb_neq; exact E0 | exact Hfind].
  - right. exists query. split; [reflexivity|].
    intros v. split; [|tauto]. intros Hv. split; [exact Hv|].
    intros c' Hc. discriminate Hc.
Qed.

(** The status filter either raises [AttributeError] or keeps the
    videos in the wanted status. *)
Lemma filter_by_status_run (st : option string) (query : list Video)
    (s : Session) :
  (exists e, filter_by_status st query s = (s, inl e)
             /\ exn_class e = OtherError "AttributeError"
             /\ exists x err, st = Some x /\ x <> ""%string
                              /\ status_of_value x = inl err)
  \/ exists l,
       filter_by_status st query s = (s, inr l)
       /\ forall v, In v l
                    <-> In v query
                        /\ (forall x, st = Some x -> x <> ""%string ->
                                      status_of_value x = inr (status v)).
Proof.
  unfold filter_by_status.
  destruct st as [x|].
  - destruct (String.eqb x "") eqn:Ex.
    + right. exists query. split; [reflexivity|].
      intros v. split; [|tauto]. intros Hv. split; [exact Hv|].
      intros y Hy Hne. inversion Hy; subst y.
      apply String.eqb_eq in Ex. contradiction.
    + assert (x <> ""%string) as Hx.
      { intros E. rewrite E in Ex. discriminate Ex. }
      unfold try_except, bind, lift.
      destruct (status_of_value x) as [err|video_status] eqn:Hparse.
      * left. eexists. split; [reflexivity|]. split; [reflexivity|].
        exists x, err. auto.
      * right. eexists. split; [reflexivity|].
        intros v. rewrite filter_In. split.
        -- intros [Hv Hs]. split; [exact Hv|].
           intros y Hy _. inversion Hy; subst y.
           apply status_eqb_eq in Hs. rewrite Hs. exact Hparse.
        -- intros [Hv Hs]. split; [exact Hv|].
           apply status_eqb_eq.
           specialize (Hs x eq_refl Hx). rewrite Hparse in Hs.
           inversion Hs. reflexivity.
  - right. exists query. split; [reflexivity|].
    intros v. split; [|tauto]. intros Hv. split; [exact Hv|].
    intros y Hy. discriminate Hy.
Qed.

(** X19: when [list_videos] answers, it answers for every [skip] and
    [limit] and leaves the session alone: there is one list, made of
    exactly the videos that belong to a channel of the caller and pass
    the channel and status filters, such that [total] is its length and
    the page is the slice of at most [limit] items after the first
    [skip].  So the total does not depend on the page asked for, and no
    page shows a video of another user.  A channel filter of 0 and an
    empty status filter are ignored. *)
Theorem list_videos_pages (cid_filter : option Z) (st : option string)
    (skip limit user : Z) (s s' : Session) (r : VideoListResponse) :
  list_videos cid_filter st skip limit user s = (s', inr r) ->
  s' = s
  /\ exists all,
       (forall skip' limit',
           list_videos cid_filter st skip' limit' user s
           = (s, inr (mkVideoList (Z.of_nat (List.length all))
                        (firstn (Z.to_nat limit')
                           (skipn (Z.to_nat skip') all)))))
       /\ total r = Z.of_nat (List.length all)
       /\ page r = firstn (Z.to_nat limit) (skipn (Z.to_nat skip) all)
       /\ (List.length (page r) <= Z.to_nat limit)%nat
       /\ forall v,
            In v all
            <-> (In v (videos (objs s))
                 /\ exists c, In c (channels (objs s))
                              /\ c_id c = channel_id v
                              /\ c_owner_id c = user)
                /\ (forall cid, cid_filter = Some cid -> cid <> 0 ->
                                channel_id v = cid)
                /\ (forall x, st = Some x -> x <> ""%string ->
                              status_of_value x = inr (status v)).
Proof.
  intros Hrun.
  unfold list_videos, bind, query_owned_videos in *.
  destruct (filter_by_channel_run cid_filter st user
              (owned_videos user (objs s)) s)
    as [[e [He _]] | [l1 [H1 Hl1]]].
  - rewrite He in Hrun. discriminate Hrun.
  - rewrite H1 in *.
    destruct (filter_by_status_run st l1 s)
      as [[e [He _]] | [l2 [H2 Hl2]]].
    + rewrite He in Hrun. discriminate Hrun.
    + rewrite H2 in *. unfold ret in Hrun. inversion Hrun; subst s' r.
      split; [reflexivity|]. exists l2.
      split; [intros; reflexivity|].
      split; [reflexivity|]. split; [reflexivity|].
      split; [cbn [page]; apply firstn_le_length|].
      intros v. rewrite Hl2, Hl1, owned_videos_In. tauto.
Qed.

Lemma list_videos_pages_witness :
  (fun s' r =>
     s' = open_session db_shared []
     /\ exists all,
          (forall skip' limit',
              list_videos (Some 1) (Some "draft"%string) skip' limit' 7
                (open_session db_shared [])
              = (open_session db_shared [],
                 inr (mkVideoList (Z.of_nat (List.length all))
                        (firstn (Z.to_nat limit')
                           (skipn (Z.to_nat skip') all)))))
          /\ total r = Z.of_nat (List.length all)
          /\ page r = firstn (Z.to_nat 10) (skipn (Z.to_nat 0) all)
          /\ (List.length (page r) <= Z.to_nat 10)%nat
          /\ forall v,
               In v all
               <-> (In v (videos (objs (open_session db_shared [])))
                    /\ exists c,
                         In c (channels (objs (open_session db_shared [])))
                         /\ c_id c = channel_id v /\ c_owner_id c = 7)
                   /\ (forall cid, Some 1 = Some cid -> cid <> 0 ->
                                   channel_id v = cid)
                   /\ (forall x, Some "draft"%string = Some x ->
                                 x <> ""%string ->
                                 status_of_value x = inr (status v)))
    (open_session db_shared [])
    (mkVideoList 1 [video_of 1 1 DRAFT]).
Proof.
  apply (list_videos_pages (Some 1) (Some "draft"%string) 0 10 7
           (open_session db_shared []) (open_session db_shared [])
           (mkVideoList 1 [video_of 1 1 DRAFT])).
  reflexivity.
Defined.

(** X20: [list_videos] never raises an [HTTPException].  Its two error
    branches, a channel filter naming a channel that is not the
    caller's and a status filter that is not a status value, look up
    [HTTP_404_NOT_FOUND] and [HTTP_400_BAD_REQUEST] on the parameter
    [status], which hides the module of that name, and so end in
    [AttributeError]. *)
Theorem list_videos_raises_attribute_error (cid_filter : option Z)
    (st : option string) (skip limit user : Z) (s : Session) :
  (forall s' e,
      list_videos cid_filter st skip limit user s = (s', inl e) ->
      exn_class e = OtherError "AttributeError")
  /\ (forall cid,
        cid_filter = Some cid -> cid <> 0 ->
        find_owned_channel cid user (objs s) = None ->
        exists e, list_videos cid_filter st skip limit user s = (s, inl e))
  /\ (forall x err,
        cid_filter = None ->
        st = Some x -> x <> ""%string -> status_of_value x = inl err ->
        exists e, list_videos cid_filter st skip limit user s = (s, inl e)).
Proof.
  unfold list_videos, bind, query_owned_videos.
  split; [|split].
  - intros s' e Hrun.
    destruct (filter_by_channel_run cid_filter st user
                (owned_videos user (objs s)) s)
      as [[e1 [He1 [Hc1 _]]] | [l1 [H1 _]]].
    + rewrite He1 in Hrun. inversion Hrun; subst. exact Hc1.
    + rewrite H1 in Hrun.
      destruct (filter_by_status_run st l1 s)
        as [[e2 [He2 [Hc2 _]]] | [l2 [H2 _]]].
      * rewrite He2 in Hrun. inversion Hrun; subst. exact Hc2.
      * rewrite H2 in Hrun. discriminate Hrun.
  - intros cid Hcid Hne Hnone. subst cid_filter.
    unfold filter_by_channel, bind, query_owned_channel.
    replace (cid =? 0) with false by (symmetry; apply Z.eqb_neq; exact Hne).
    rewrite Hnone. eexists. reflexivity.
  - intros x err Hcid Hst Hne Hparse. subst cid_filter st.
    unfold filter_by_channel, filter_by_status, ret, try_except, bind, lift.
    replace (String.eqb x "") with false
      by (symmetry; apply String.eqb_neq; exact Hne).
    rewrite Hparse. eexists. reflexivity.
Qed.

Lemma list_videos_raises_attribute_error_witness :
  exists e,
    list_videos (Some 2) None 0 10 7 (open_session db_shared [])
    = (open_session db_shared [], inl e).
Proof.
  apply (proj1 (proj2 (list_videos_raises_attribute_error (Some 2) None
                         0 10 7 (open_session db_shared []))) 2).
  - reflexivity.
  - discriminate.
  - reflexivity.
Defined.

End ApiExtras.

(* ===================================================================== *)
(** ** The progress endpoint after a generation job *)
(* ===================================================================== *)

Module ProgressExtras.
Import Py Models Orm VideoTasks OrmFacts Spec Views Samples MoreSamples.
Import GenerateFacts.

Lemma find_owned_video_update video_id user (f : Video -> Video) (db : DB) :
  (forall x, id (f x) = id x) ->
  (forall x, channel_id (f x) = channel_id x) ->
  VideosApi.find_owned_video video_id user (with_video video_id f db)
  = option_map f (VideosApi.find_owned_video video_id user db).
Proof.
  intros Hid Hch. unfold VideosApi.find_owned_video, with_video, update_video.
  cbn [videos channels].
  induction (videos db) as [|a l IH]; [reflexivity|].
  cbn [map find]. destruct (id a =? video_id) eqn:E.
  - rewrite Hid, Hch, E. cbn [andb].
    destruct (existsb _ (channels db)); [reflexivity | exact IH].
  - rewrite E. cbn [andb]. exact IH.
Qed.

Lemma find_owned_video_row video_id user (db : DB) (v : Video) :
  NoDup (map id (videos db)) ->
  VideosApi.find_owned_video video_id user db = Some v ->
  find_video video_id (videos db) = Some v.
Proof.
  intros Hnd Hfind.
  destruct (find_owned_video_found _ _ _ _ Hfind) as [Hid [Hin _]].
  rewrite <- Hid. apply CampaignFacts.find_video_NoDup; assumption.
Qed.

Lemma progressed_channel_id ps :
  forall v, channel_id (progressed ps v) = channel_id v.
Proof.
  induction ps as [|p ps IH]; intros v; simpl; [|rewrite IH]; reflexivity.
Qed.

Lemma with_script_channel_id w v x :
  channel_id (with_script w v x) = channel_id x.
Proof.
  unfold with_script.
  destruct (needs_script v); [destruct (script_call w v)|]; reflexivity.
Qed.

(** X21: what the owner reads from the progress endpoint after a
    generation job, video keys being distinct.  After a job that raised
    [e] the endpoint reports status "failed" and [error = str(e)].  After
    a job of the repository, whose renderer is called without being
    awaited, that is what it always reports, with progress 0: the text
    of the script error, or of the [TypeError] of the first read of the
    renderer's result when the script step goes through.  The endpoint
    itself changes nothing. *)
Theorem get_video_progress_after_failed_generation (w : GenerateWorld)
    (db : DB) (q q' : list Job) (video_id user : Z) (v : Video) :
  NoDup (map id (videos db)) ->
  VideosApi.find_owned_video video_id user db = Some v ->
  let db1 := rows (fst (generate_video_task w video_id
                          (open_session db q))) in
  (forall e,
      job_raises w v e ->
      exists p,
        VideosCrud.get_video_progress video_id user (open_session db1 q')
        = (open_session db1 q',
           inr (VideosApi.mkProgress video_id "failed" p
                  "Video is failed" (Some (str e)))))
  /\ (Unawaited.generates w ->
      exists e,
        (script_ok w v -> e = Unawaited.not_subscriptable)
        /\ VideosCrud.get_video_progress video_id user
             (open_session db1 q')
           = (open_session db1 q',
              inr (VideosApi.mkProgress video_id "failed" 0
                     "Video is failed" (Some (str e))))).
Proof.
  intros Hnd Howned db1. subst db1.
  pose proof (find_owned_video_row _ _ _ _ Hnd Howned) as Hfind.
  pose proof (find_video_id _ _ _ Hfind) as Hid.
  assert (forall e,
             needs_script v = true -> script_call w v = inl e ->
             VideosCrud.get_video_progress video_id user
               (open_session
                  (rows (fst (generate_video_task w video_id
                                (open_session db q)))) q')
             = (open_session
                  (rows (fst (generate_video_task w video_id
                                (open_session db q)))) q',
                inr (VideosApi.mkProgress video_id "failed" 0
                       "Video is failed" (Some (str e))))) as Hscript.
  { intros e Hneed Hcall.
    rewrite (generate_video_task_script_failed w db q video_id v e
               Hfind Hneed Hcall).
    cbn [fst rows].
    unfold VideosCrud.get_video_progress, bind,
      VideosApi.query_owned_video, open_session.
    cbn [objs].
    rewrite find_owned_video_update by reflexivity.
    rewrite Howned. cbn [option_map]. unfold ret.
    f_equal. f_equal. simpl. rewrite Hid. reflexivity. }
  assert (forall k e,
             script_ok w v ->
             VideoBuilder.fault (builder w) = Some (k, e) ->
             VideosCrud.get_video_progress video_id user
               (open_session
                  (rows (fst (generate_video_task w video_id
                                (open_session db q)))) q')
             = (open_session
                  (rows (fst (generate_video_task w video_id
                                (open_session db q)))) q',
                inr (VideosApi.mkProgress video_id "failed"
                       (generation_progress
                          (progressed (firstn k VideoBuilder.steps)
                             (with_script w v v)))
                       "Video is failed" (Some (str e))))) as Hrender.
  { intros k e Hok Hfault.
    rewrite (generate_video_task_render_failed w db q video_id v k e
               Hfind Hok Hfault).
    cbn [fst rows].
    unfold VideosCrud.get_video_progress, bind,
      VideosApi.query_owned_video, open_session.
    cbn [objs].
    rewrite find_owned_video_update.
    - rewrite Howned. cbn [option_map]. unfold ret.
      f_equal. f_equal. unfold fail_with.
      cbn [id status generation_progress error_message
           set_error_message set_status value append].
      rewrite progressed_id, with_script_id, Hid. reflexivity.
    - intros x. simpl. rewrite progressed_id. apply with_script_id.
    - intros x. simpl. rewrite progressed_channel_id.
      apply with_script_channel_id. }
  split.
  - intros e [[Hneed Hcall] | [Hok [k Hfault]]].
    + eexists. apply Hscript; assumption.
    + eexists. apply (Hrender k e Hok Hfault).
  - intros Hw. unfold Unawaited.generates in Hw.
    assert (needs_script v = true /\ (exists e, script_call w v = inl e)
            \/ script_ok w v) as [[Hneed [e Hcall]] | Hok].
    { unfold script_ok. destruct (needs_script v); [|auto].
      destruct (script_call w v) as [e|s]; [left | right; right]; eauto. }
    + exists e. split; [|apply Hscript; assumption].
      intros [Hno | [s Hs]]; [congruence|].
      rewrite Hcall in Hs. discriminate Hs.
    + exists Unawaited.not_subscriptable. split; [reflexivity|].
      rewrite (Hrender 0%nat Unawaited.not_subscriptable Hok Hw).
      cbn [firstn progressed].
      rewrite TaskExtras.with_script_progress. reflexivity.
Qed.

Lemma get_video_progress_after_failed_generation_witness :
  exists e,
    (script_ok (Unawaited.generate_world (fun _ _ _ => inr "Script") 900)
       draft ->
     e = Unawaited.not_subscriptable)
    /\ VideosCrud.get_video_progress 9 7
         (open_session
            (rows (fst (generate_video_task
                          (Unawaited.generate_world
                             (fun _ _ _ => inr "Script") 900)
                          9 (open_session db_draft []))))
            [])
       = (open_session
            (rows (fst (generate_video_task
                          (Unawaited.generate_world
                             (fun _ _ _ => inr "Script") 900)
                          9 (open_session db_draft []))))
            [],
          inr (VideosApi.mkProgress 9 "failed" 0 "Video is failed"
                 (Some (str e)))).
Proof.
  apply (proj2 (get_video_progress_after_failed_generation
                  (Unawaited.generate_world (fun _ _ _ => inr "Script")
                     900)
                  db_draft [] [] 9 7 draft
                  (NoDup_cons 9 (fun H : In 9 [] => H) (NoDup_nil Z))
                  eq_refl)).
  reflexivity.
Defined.

End ProgressExtras.

(* ===================================================================== *)
(** ** Properties of the analytics endpoints *)
(* ===================================================================== *)

Module AnalyticsApiExtras.
Import Py Models Orm VideosApi VideosCrud AnalyticsApi AnalyticsViews.
Import OrmFacts Samples MoreSamples.

Lemma records_cons (db : DB) (v : Video) (vs : list Video) :
  records db (v :: vs)
  = (match find_analytics (id v) (analytics db) with
     | Some a => [(v, a)]
     | None => []
     end ++ records db vs)%list.
Proof. reflexivity. Qed.

(** The loop of [get_channel_analytics] reads only. *)
Lemma channel_loop (vs : list Video) :
  forall (t : Totals) (s : Session),
    for_fold vs channel_video t s
    = (s, inr (accounted (records (objs s) vs) t)).
Proof.
  induction vs as [|v vs IH]; intros t s; [reflexivity|].
  cbn [for_fold]. unfold bind at 1, channel_video at 1, bind, query_analytics.
  rewrite records_cons.
  destruct (find_analytics (id v) (analytics (objs s))) as [a|];
    unfold ret; rewrite IH; reflexivity.
Qed.

Lemma average_returns (l : list Num) :
  average l
  = inr (match l with
         | [] => inject_Z 0
         | _ :: _ => Qdiv (AnalyticsApi.sum l)
                       (inject_Z (Z.of_nat (List.length l)))
         end).
Proof. destruct l as [|x l]; reflexivity. Qed.

(** The endpoint for a channel of the caller. *)
Lemma get_channel_analytics_run (db : DB) (q : list Job)
    (channel_id user : Z) (c : Channel) :
  find_owned_channel channel_id user db = Some c ->
  get_channel_analytics channel_id user (open_session db q)
  = (open_session db q,
     inr (let t := accounted (records db (channel_videos channel_id db))
                     no_totals in
          mkChannelAnalytics channel_id
            (Z.of_nat (List.length (channel_videos channel_id db)))
            (t_views t) (t_likes t) (t_comments t) (t_watch_time t)
            (match t_engagement_rates t with
             | [] => inject_Z 0
             | _ :: _ =>
                 Qdiv (AnalyticsApi.sum (t_engagement_rates t))
                   (inject_Z (Z.of_nat
                      (List.length (t_engagement_rates t))))
             end)
            (t_revenue t) (t_top_video t) (t_recent_performance t))).
Proof.
  intros Hc.
  unfold get_channel_analytics, bind at 1, query_owned_channel.
  unfold open_session at 1 2. cbn [objs]. rewrite Hc.
  unfold bind at 1, query_videos. cbn [objs].
  unfold bind at 1. rewrite channel_loop. cbn [objs].
  unfold bind, lift. rewrite average_returns. reflexivity.
Qed.

Lemma get_channel_analytics_refused (db : DB) (q : list Job)
    (channel_id user : Z) :
  find_owned_channel channel_id user db = None ->
  get_channel_analytics channel_id user (open_session db q)
  = (open_session db q, inl channel_not_found).
Proof.
  intros Hc.
  unfold get_channel_analytics, bind, query_owned_channel, open_session.
  cbn [objs]. rewrite Hc. reflexivity.
Qed.

(** What the loop variables hold after the loop. *)
Lemma accounted_counters (rs : list (Video * VideoAnalytics)) :
  forall t,
    t_views (accounted rs t)
    = t_views t + sum_Z (map (fun p => views (snd p)) rs)
    /\ t_likes (accounted rs t)
       = t_likes t + sum_Z (map (fun p => likes (snd p)) rs)
    /\ t_comments (accounted rs t)
       = t_comments t + sum_Z (map (fun p => comments (snd p)) rs)
    /\ t_watch_time (accounted rs t)
       = t_watch_time t + sum_Z (map (fun p => watch_time (snd p)) rs).
Proof.
  induction rs as [|p rs IH]; intros t.
  - simpl. repeat split; lia.
  - cbn [accounted fold_left]. fold (accounted rs (account (fst p) (snd p) t)).
    destruct (IH (account (fst p) (snd p) t)) as [H1 [H2 [H3 H4]]].
    rewrite H1, H2, H3, H4. cbn [account t_views t_likes t_comments
      t_watch_time map sum_Z fold_right].
    fold (sum_Z (map (fun p => views (snd p)) rs)).
    fold (sum_Z (map (fun p => likes (snd p)) rs)).
    fold (sum_Z (map (fun p => comments (snd p)) rs)).
    fold (sum_Z (map (fun p => watch_time (snd p)) rs)).
    repeat split; lia.
Qed.

Lemma accounted_revenue (rs : list (Video * VideoAnalytics)) :
  forall t,
    Qeq (t_revenue (accounted rs t))
        (t_revenue t + sum_Q (map (fun p => revenue (snd p)) rs)).
Proof.
  induction rs as [|p rs IH]; intros t.
  - simpl. ring.
  - cbn [accounted fold_left]. fold (accounted rs (account (fst p) (snd p) t)).
    rewrite IH. cbn [account t_revenue map sum_Q fold_right].
    fold (sum_Q (map (fun p => revenue (snd p)) rs)). ring.
Qed.

Lemma accounted_rates (rs : list (Video * VideoAnalytics)) :
  forall t,
    t_engagement_rates (accounted rs t)
    = (t_engagement_rates t ++ positive_rates rs)%list.
Proof.
  induction rs as [|p rs IH]; intros t.
  - simpl. rewrite app_nil_r. reflexivity.
  - cbn [accounted fold_left]. fold (accounted rs (account (fst p) (snd p) t)).
    rewrite IH. cbn [account t_engagement_rates].
    unfold positive_rates. cbn [map filter].
    destruct (positive (engagement_rate (snd p))).
    + rewrite <- app_assoc. reflexivity.
    + reflexivity.
Qed.

Lemma accounted_recent (rs : list (Video * VideoAnalytics)) :
  forall t,
    t_recent_performance (accounted rs t)
    = (t_recent_performance t
       ++ firstn (10 - List.length (t_recent_performance t))
            (map (fun p => performance_of (fst p) (snd p)) rs))%list.
Proof.
  induction rs as [|p rs IH]; intros t.
  - simpl. rewrite firstn_nil, app_nil_r. reflexivity.
  - cbn [accounted fold_left]. fold (accounted rs (account (fst p) (snd p) t)).
    rewrite IH. cbn [account t_recent_performance map].
    destruct (List.length (t_recent_performance t) <? 10)%nat eqn:E.
    + apply Nat.ltb_lt in E. rewrite length_app. cbn [List.length].
      rewrite <- app_assoc. cbn [app]. f_equal.
      replace (10 - List.length (t_recent_performance t))%nat
        with (S (10 - (List.length (t_recent_performance t) + 1)))%nat
        by lia.
      reflexivity.
    + apply Nat.ltb_ge in E.
      replace (10 - List.length (t_recent_performance t))%nat with 0%nat
        by lia.
      reflexivity.
Qed.

(** The running maximum and the video that holds it. *)
Lemma accounted_top (rs : list (Video * VideoAnalytics)) :
  forall t,
    match t_top_video t with
    | None => t_max_views t = 0
    | Some top => tv_views top = t_max_views t /\ 0 < t_max_views t
    end ->
    (t_max_views t <= t_max_views (accounted rs t))
    /\ (forall p, In p rs -> views (snd p) <= t_max_views (accounted rs t))
    /\ match t_top_video (accounted rs t) with
       | None => t_max_views (accounted rs t) = 0
       | Some top =>
           tv_views top = t_max_views (accounted rs t)
           /\ 0 < t_max_views (accounted rs t)
           /\ (t_top_video t = Some top
               \/ exists p, In p rs /\ top = top_of (fst p) (snd p))
       end.
Proof.
  induction rs as [|p rs IH]; intros t Ht.
  - simpl. split; [lia|]. split; [tauto|].
    destruct (t_top_video t); [|exact Ht].
    destruct Ht as [H1 H2]. auto.
  - cbn [accounted fold_left]. fold (accounted rs (account (fst p) (snd p) t)).
    assert (match t_top_video (account (fst p) (snd p) t) with
            | None => t_max_views (account (fst p) (snd p) t) = 0
            | Some top =>
                tv_views top = t_max_views (account (fst p) (snd p) t)
                /\ 0 < t_max_views (account (fst p) (snd p) t)
            end) as Ht'.
    { cbn [account t_top_video t_max_views].
      destruct (t_max_views t <? views (snd p)) eqn:E.
      - apply Z.ltb_lt in E. split; [reflexivity|].
        destruct (t_top_video t) as [top|]; [destruct Ht|]; lia.
      - exact Ht. }
    destruct (IH _ Ht') as [Hle [Hall Htop]].
    assert (t_max_views t <= t_max_views (account (fst p) (snd p) t)
            /\ views (snd p) <= t_max_views (account (fst p) (snd p) t))
      as [Hm Hv].
    { cbn [account t_max_views].
      destruct (t_max_views t <? views (snd p)) eqn:E.
      - apply Z.ltb_lt in E. lia.
      - apply Z.ltb_ge in E. lia. }
    split; [lia|]. split.
    + intros p' [Hp|Hp]; [subst p'; lia | apply Hall; exact Hp].
    + destruct (t_top_video (accounted rs (account (fst p) (snd p) t)))
        as [top|]; [|exact Htop].
      destruct Htop as [H1 [H2 H3]]. split; [exact H1|]. split; [exact H2|].
      destruct H3 as [H3 | [p' [Hp' Heq]]].
      * cbn [account t_top_video] in H3.
        destruct (t_max_views t <? views (snd p)).
        -- right. exists p. split; [left; reflexivity|].
           inversion H3. reflexivity.
        -- left. exact H3.
      * right. exists p'. split; [right; exact Hp' | exact Heq].
Qed.

Lemma sum_float (l : list Num) :
  forall acc,
    Qeq (fold_left (fun acc x => Qplus acc (float x)) l acc)
        (acc + sum_Q (map float l)).
Proof.
  induction l as [|x l IH]; intros acc.
  - simpl. ring.
  - cbn [fold_left]. rewrite IH. cbn [map sum_Q fold_right].
    fold (sum_Q (map float l)). ring.
Qed.

(** X22: the channel report reads only, and for a channel of the
    caller it always answers.  [total_videos] counts every video of the
    channel; the other totals are sums over the videos that have an
    analytics record, a video without one adding nothing.
    [recent_performance] holds the first ten of those videos in the
    order of the query, which has no ordering.  For a channel that is
    not the caller's the request raises 404 "Channel not found". *)
Theorem get_channel_analytics_totals (db : DB) (q : list Job)
    (channel_id user : Z) :
  let run := get_channel_analytics channel_id user (open_session db q) in
  let rs := records db (channel_videos channel_id db) in
  fst run = open_session db q
  /\ (find_owned_channel channel_id user db = None ->
      snd run = inl channel_not_found)
  /\ (forall c,
        find_owned_channel channel_id user db = Some c ->
        exists r,
          snd run = inr r
          /\ ca_channel_id r = channel_id
          /\ total_videos r
             = Z.of_nat (List.length (channel_videos channel_id db))
          /\ total_views r = sum_Z (map (fun p => views (snd p)) rs)
          /\ total_likes r = sum_Z (map (fun p => likes (snd p)) rs)
          /\ total_comments r = sum_Z (map (fun p => comments (snd p)) rs)
          /\ total_watch_time r
             = sum_Z (map (fun p => watch_time (snd p)) rs)
          /\ Qeq (total_revenue r)
               (sum_Q (map (fun p => revenue (snd p)) rs))
          /\ recent_performance r
             = map (fun p => performance_of (fst p) (snd p))
                 (firstn 10 rs)).
Proof.
  intros run rs. subst run rs.
  destruct (find_owned_channel channel_id user db) as [c|] eqn:Hc.
  - rewrite (get_channel_analytics_run db q channel_id user c Hc).
    cbn [fst snd]. split; [reflexivity|]. split; [discriminate|].
    intros c' _. eexists. split; [reflexivity|].
    cbv zeta.
    cbn [ca_channel_id total_videos total_views total_likes total_comments
         total_watch_time total_revenue recent_performance].
    destruct (accounted_counters
                (records db (channel_videos channel_id db)) no_totals)
      as [H1 [H2 [H3 H4]]].
    rewrite H1, H2, H3, H4, accounted_recent.
    cbn [no_totals t_views t_likes t_comments t_watch_time
         t_recent_performance List.length app Nat.sub].
    repeat split; try reflexivity.
    + rewrite accounted_revenue. cbn [no_totals t_revenue]. ring.
    + apply firstn_map.
  - rewrite (get_channel_analytics_refused db q channel_id user Hc).
    cbn [fst snd]. split; [reflexivity|]. split; [reflexivity|].
    intros c' Hc'. discriminate Hc'.
Qed.

Lemma get_channel_analytics_answers (db : DB) (q : list Job)
    (channel_id user : Z) (r : ChannelAnalytics) :
  snd (get_channel_analytics channel_id user (open_session db q)) = inr r ->
  exists c, find_owned_channel channel_id user db = Some c.
Proof.
  intros Hrun.
  destruct (find_owned_channel channel_id user db) as [c|] eqn:Hc.
  - exists c. reflexivity.
  - rewrite (get_channel_analytics_refused db q channel_id user Hc) in Hrun.
    discriminate Hrun.
Qed.

(** X23: the top performing video of a channel report.  It is absent
    exactly when no record of the channel has more than 0 views;
    otherwise it is a video of the channel with its record's views,
    these are positive, and no record of the channel has more. *)
Theorem get_channel_analytics_top_video (db : DB) (q : list Job)
    (channel_id user : Z) (r : ChannelAnalytics) :
  snd (get_channel_analytics channel_id user (open_session db q)) = inr r ->
  let rs := records db (channel_videos channel_id db) in
  (top_performing_video r = None
   <-> forall p, In p rs -> views (snd p) <= 0)
  /\ forall top,
       top_performing_video r = Some top ->
       (exists p, In p rs /\ top = top_of (fst p) (snd p))
       /\ 0 < tv_views top
       /\ forall p, In p rs -> views (snd p) <= tv_views top.
Proof.
  intros Hrun rs. subst rs.
  destruct (get_channel_analytics_answers db q channel_id user r Hrun)
    as [c Hc].
  rewrite (get_channel_analytics_run db q channel_id user c Hc) in Hrun.
  cbn [snd] in Hrun. inversion Hrun as [Hr]. clear Hrun Hr.
  cbn [top_performing_video].
  destruct (accounted_top (records db (channel_videos channel_id db))
              no_totals eq_refl) as [Hle [Hall Htop]].
  cbn [no_totals t_max_views t_top_video] in Hle, Htop.
  destruct (t_top_video
              (accounted (records db (channel_videos channel_id db))
                 no_totals)) as [top|].
  - destruct Htop as [H1 [H2 [H3 | H3]]]; [discriminate H3|].
    split.
    + split; [discriminate|].
      intros Hnone. exfalso.
      destruct H3 as [p [Hp Heq]]. specialize (Hnone p Hp).
      subst top. cbn [top_of tv_views] in H1. lia.
    + intros top' Htop'. inversion Htop'; subst top'.
      split; [exact H3|]. split; [lia|].
      intros p Hp. rewrite H1. apply Hall. exact Hp.
  - split.
    + split; [|reflexivity].
      intros _ p Hp. rewrite <- Htop. apply Hall. exact Hp.
    + intros top' Htop'. discriminate Htop'.
Qed.

Lemma get_channel_analytics_top_video_witness :
  let r := mkChannelAnalytics 1 2 10 1 1 30 (inject_Z 0) (inject_Z 0)
             (Some (mkTopVideo 1 "Title" 10 (Int 0)))
             [mkPerformance 1 "Title" 10 1 (Int 0)] in
  let rs := records db_shared (channel_videos 1 db_shared) in
  (top_performing_video r = None
   <-> forall p, In p rs -> views (snd p) <= 0)
  /\ forall top,
       top_performing_video r = Some top ->
       (exists p, In p rs /\ top = top_of (fst p) (snd p))
       /\ 0 < tv_views top
       /\ forall p, In p rs -> views (snd p) <= tv_views top.
Proof.
  apply (get_channel_analytics_top_video db_shared [] 1 7).
  vm_compute. reflexivity.
Defined.

(** X24: the average engagement rate of a channel report is taken over
    the records of the channel whose rate is positive: it is 0.0 when
    there is none, and otherwise the average times their number is
    their sum; records with rate 0 do not enter the divisor.  The
    division never fails: the only exception the endpoint raises is the
    404. *)
Theorem get_channel_analytics_average (db : DB) (q : list Job)
    (channel_id user : Z) :
  let run := get_channel_analytics channel_id user (open_session db q) in
  let rates := positive_rates
                 (records db (channel_videos channel_id db)) in
  (forall e, snd run = inl e -> e = channel_not_found)
  /\ forall r,
       snd run = inr r ->
       (rates = [] -> average_engagement_rate r = inject_Z 0)
       /\ (rates <> [] ->
           Qeq (average_engagement_rate r
                * inject_Z (Z.of_nat (List.length rates)))
               (sum_Q (map float rates))).
Proof.
  intros run rates. subst run rates.
  destruct (find_owned_channel channel_id user db) as [c|] eqn:Hc.
  - rewrite (get_channel_analytics_run db q channel_id user c Hc).
    cbn [snd]. split; [discriminate|].
    intros r Hr. inversion Hr as [Hr']. clear Hr Hr'.
    cbn [average_engagement_rate].
    rewrite accounted_rates. cbn [no_totals t_engagement_rates app].
    destruct (positive_rates (records db (channel_videos channel_id db)))
      as [|x l] eqn:Hrates.
    + split; [reflexivity|]. intros H. contradiction.
    + split; [discriminate|]. intros _.
      unfold AnalyticsApi.sum. rewrite sum_float.
      set (n := inject_Z (Z.of_nat (List.length (x :: l)))).
      assert (~ Qeq n 0) as Hn.
      { subst n. cbn [List.length]. rewrite Nat2Z.inj_succ.
        unfold Qeq. simpl. lia. }
      field_simplify_eq; [ring | exact Hn].
  - rewrite (get_channel_analytics_refused db q channel_id user Hc).
    cbn [snd]. split.
    + intros e He. inversion He. reflexivity.
    + intros r Hr. discriminate Hr.
Qed.

(** X25: the analytics endpoint for a video gets or creates.  For a
    video of the caller that has a record it returns the record and
    writes nothing.  For one that has none it adds a record with every
    counter 0, commits it and returns it.  Either way the record it
    returned is the one found for the video afterwards, a second request
    returns the same record without writing, and no video is changed.
    For a video that is not the caller's it raises 404 and creates
    nothing. *)
Theorem get_video_analytics_gets_or_creates (utcnow utcnow' : Z)
    (video_id user : Z) (db : DB) (q q' : list Job) :
  let run := AnalyticsApi.get_video_analytics utcnow video_id user
               (open_session db q) in
  (find_owned_video video_id user db = None ->
   run = (open_session db q, inl not_found))
  /\ (forall v,
        find_owned_video video_id user db = Some v ->
        exists a,
          snd run = inr a
          /\ find_analytics video_id (analytics (rows (fst run))) = Some a
          /\ videos (rows (fst run)) = videos db
          /\ queue (fst run) = q
          /\ (forall a0,
                find_analytics video_id (analytics db) = Some a0 ->
                a = a0 /\ fst run = open_session db q)
          /\ (find_analytics video_id (analytics db) = None ->
              a = created_analytics video_id utcnow
              /\ rows (fst run) = with_record a db
              /\ commits (fst run) = [with_record a db])
          /\ AnalyticsApi.get_video_analytics utcnow' video_id user
               (open_session (rows (fst run)) q')
             = (open_session (rows (fst run)) q', inr a)).
Proof.
  intros run. subst run. split.
  - intros Hnone.
    unfold AnalyticsApi.get_video_analytics, bind, query_owned_video,
      open_session.
    cbn [objs]. rewrite Hnone. reflexivity.
  - intros v Hv.
    destruct (find_analytics video_id (analytics db)) as [a0|] eqn:Ha.
    + assert (forall k q0,
                 AnalyticsApi.get_video_analytics k video_id user
                   (open_session db q0)
                 = (open_session db q0, inr a0)) as Hrun.
      { intros k q0.
        unfold AnalyticsApi.get_video_analytics, bind, query_owned_video,
          query_analytics, open_session.
        cbn [objs]. rewrite Hv. cbn [objs]. rewrite Ha. reflexivity. }
      rewrite Hrun. cbn [fst snd].
      change (rows (open_session db q)) with db.
      change (queue (open_session db q)) with q.
      exists a0. split; [reflexivity|]. split; [exact Ha|].
      split; [reflexivity|]. split; [reflexivity|]. split.
      * intros a1 Ha1. inversion Ha1. split; reflexivity.
      * split; [discriminate | apply Hrun].
    + assert (AnalyticsApi.get_video_analytics utcnow video_id user
                (open_session db q)
              = (mkSession
                   (with_record (created_analytics video_id utcnow) db)
                   (with_record (created_analytics video_id utcnow) db)
                   q
                   [with_record (created_analytics video_id utcnow) db],
                 inr (created_analytics video_id utcnow))) as Hrun.
      { unfold AnalyticsApi.get_video_analytics, bind, query_owned_video,
          query_analytics, open_session.
        cbn [objs]. rewrite Hv. cbn [objs]. rewrite Ha. reflexivity. }
      rewrite Hrun. cbn [fst snd rows queue commits].
      assert (find_analytics video_id
                (analytics
                   (with_record (created_analytics video_id utcnow) db))
              = Some (created_analytics video_id utcnow)) as Hfound.
      { unfold with_record. cbn [analytics].
        apply AnalyticsFacts.find_analytics_added; [exact Ha | reflexivity]. }
      exists (created_analytics video_id utcnow).
      split; [reflexivity|]. split; [exact Hfound|].
      split; [reflexivity|]. split; [reflexivity|]. split.
      * intros a1 Ha1. discriminate Ha1.
      * split; [intros _; repeat split; reflexivity|].
        unfold AnalyticsApi.get_video_analytics, bind, query_owned_video,
          query_analytics, open_session.
        cbn [objs].
        change (find_owned_video video_id user
                  (with_record (created_analytics video_id utcnow) db))
          with (find_owned_video video_id user db).
        rewrite Hv. cbn [objs]. rewrite Hfound. reflexivity.
Qed.

Lemma get_video_analytics_gets_or_creates_witness :
  exists a,
    snd (AnalyticsApi.get_video_analytics 900 3 7
           (open_session db_shared [])) = inr a
    /\ views a = 0
    /\ find_analytics 3
         (analytics
            (rows (fst (AnalyticsApi.get_video_analytics 900 3 7
                          (open_session db_shared [])))))
       = Some a.
Proof.
  destruct (proj2 (get_video_analytics_gets_or_creates 900 901 3 7
                     db_shared [] []) (video_of 3 1 GENERATED) eq_refl)
    as [a [Hr [Hfound [_ [_ [_ [Hnew _]]]]]]].
  exists a. split; [exact Hr|]. split; [|exact Hfound].
  destruct (Hnew eq_refl) as [Ha _]. rewrite Ha. reflexivity.
Defined.

(** The loop of [get_analytics_summary] reads only. *)
Lemma summary_loop (vs : list Video) :
  forall (t : SummaryTotals) (s : Session),
    for_fold vs summary_video t s
    = (s, inr (summarised (records (objs s) vs) t)).
Proof.
  induction vs as [|v vs IH]; intros t s; [reflexivity|].
  cbn [for_fold]. unfold bind at 1, summary_video at 1, bind, query_analytics.
  rewrite records_cons.
  destruct (find_analytics (id v) (analytics (objs s))) as [a|];
    unfold ret; rewrite IH; reflexivity.
Qed.

Lemma summarised_views (rs : list (Video * VideoAnalytics)) :
  forall t,
    st_views (summarised rs t)
    = st_views t + sum_Z (map (fun p => views (snd p)) rs).
Proof.
  induction rs as [|p rs IH]; intros t.
  - simpl. lia.
  - cbn [summarised fold_left]. fold (summarised rs (summary_account (snd p) t)).
    rewrite IH. cbn [summary_account st_views map sum_Z fold_right].
    fold (sum_Z (map (fun p => views (snd p)) rs)). lia.
Qed.

Lemma records_views (db : DB) (vs : list Video) :
  sum_Z (map (fun p => views (snd p)) (records db vs))
  = sum_Z (map (views_of db) vs).
Proof.
  induction vs as [|v vs IH]; [reflexivity|].
  rewrite records_cons. cbn [map sum_Z fold_right].
  fold (sum_Z (map (views_of db) vs)). rewrite <- IH.
  unfold views_of.
  destruct (find_analytics (id v) (analytics db)); reflexivity.
Qed.

Lemma length_sum {A} (l : list A) :
  Z.of_nat (List.length l) = sum_Z (map (fun _ => 1) l).
Proof.
  induction l as [|x l IH]; [reflexivity|].
  cbn [List.length map sum_Z fold_right]. fold (sum_Z (map (fun _ => 1) l)).
  rewrite <- IH. lia.
Qed.

(** A sum over the videos of several channels is the sum of the sums
    over each channel, the keys of the channels being distinct. *)
Lemma sum_filter_or (g : Video -> Z) (p1 p2 : Video -> bool)
    (vs : list Video) :
  (forall v, p1 v = true -> p2 v = false) ->
  sum_Z (map g (filter (fun v => p1 v || p2 v) vs))
  = sum_Z (map g (filter p1 vs)) + sum_Z (map g (filter p2 vs)).
Proof.
  intros Hdisj. induction vs as [|v vs IH]; [reflexivity|].
  cbn [filter]. destruct (p1 v) eqn:E1.
  - rewrite (Hdisj v E1). cbn [orb map sum_Z fold_right].
    fold (sum_Z (map g (filter (fun v => p1 v || p2 v) vs))).
    fold (sum_Z (map g (filter p1 vs))). lia.
  - cbn [orb]. destruct (p2 v).
    + cbn [map sum_Z fold_right].
      fold (sum_Z (map g (filter (fun v => p1 v || p2 v) vs))).
      fold (sum_Z (map g (filter p2 vs))). lia.
    + exact IH.
Qed.

Lemma filter_none {A} (l : list A) : filter (fun _ => false) l = [].
Proof. induction l as [|x l IH]; [reflexivity | exact IH]. Qed.

Lemma sum_by_channel (g : Video -> Z) (vs : list Video) (ids : list Z) :
  NoDup ids ->
  sum_Z (map g (filter (fun v => existsb (Z.eqb (channel_id v)) ids) vs))
  = sum_Z (map (fun i =>
                  sum_Z (map g (filter (fun v => channel_id v =? i) vs)))
             ids).
Proof.
  induction ids as [|i ids IH]; intros Hnd.
  - cbn [existsb map sum_Z fold_right]. rewrite filter_none. reflexivity.
  - inversion Hnd as [|? ? Hi Hids]; subst.
    cbn [existsb map sum_Z fold_right].
    fold (sum_Z (map (fun i =>
                        sum_Z (map g (filter (fun v => channel_id v =? i)
                                        vs))) ids)).
    rewrite <- (IH Hids). apply sum_filter_or.
    intros v Hv. apply Z.eqb_eq in Hv.
    destruct (existsb (Z.eqb (channel_id v)) ids) eqn:E; [|reflexivity].
    apply existsb_exists in E. destruct E as [j [Hj Hvj]].
    apply Z.eqb_eq in Hvj. exfalso. apply Hi. congruence.
Qed.

Lemma NoDup_map_filter {A} (f : A -> Z) (p : A -> bool) (l : list A) :
  NoDup (map f l) -> NoDup (map f (filter p l)).
Proof.
  induction l as [|x l IH]; intros Hnd; [exact Hnd|].
  cbn [map] in Hnd. inversion Hnd as [|? ? Hx Hl]; subst.
  cbn [filter]. destruct (p x).
  - cbn [map]. constructor; [|apply IH; exact Hl].
    intros Hin. apply Hx. apply in_map_iff in Hin.
    destruct Hin as [y [Hy Hin]]. apply filter_In in Hin.
    apply in_map_iff. exists y. tauto.
  - apply IH. exact Hl.
Qed.

(** The reports of the channels in [l], all of them the user's. *)
Lemma reports_totals (user : Z) (db : DB) (l : list Channel) :
  forall reports,
    (forall c, In c l -> In c (channels db) /\ c_owner_id c = user) ->
    Forall2 (report_of user db) l reports ->
    map total_views reports
    = map (fun i =>
             sum_Z (map (views_of db)
                      (filter (fun v => channel_id v =? i) (videos db))))
        (map c_id l)
    /\ map total_videos reports
       = map (fun i =>
                sum_Z (map (fun _ => 1)
                         (filter (fun v => channel_id v =? i) (videos db))))
           (map c_id l).
Proof.
  induction l as [|c l IH]; intros reports Hown Hrep.
  - inversion Hrep. split; reflexivity.
  - inversion Hrep as [|? rc ? rest Hc Hrest]; subst.
    destruct (IH rest) as [IH1 IH2];
      [intros c' Hc'; apply Hown; right; exact Hc' | exact Hrest |].
    cbn [map]. rewrite IH1, IH2.
    destruct (Hown c (or_introl eq_refl)) as [Hin Howner].
    destruct (find_owned_channel (c_id c) user db) as [c0|] eqn:Hfind.
    + unfold report_of in Hc.
      rewrite (get_channel_analytics_run db [] (c_id c) user c0 Hfind)
        in Hc.
      cbn [snd] in Hc. inversion Hc as [Hrc]. clear Hc Hrc.
      cbn [total_views total_videos].
      destruct (accounted_counters
                  (records db (channel_videos (c_id c) db)) no_totals)
        as [H1 _].
      rewrite H1, records_views, length_sum.
      cbn [no_totals t_views]. split; reflexivity.
    + exfalso. unfold find_owned_channel in Hfind.
      apply (find_none _ _ Hfind) in Hin.
      rewrite Z.eqb_refl in Hin. cbn [andb] in Hin.
      apply Z.eqb_neq in Hin. contradiction.
Qed.

(** The summary endpoint. *)
Lemma get_analytics_summary_run (db : DB) (q : list Job) (user : Z) :
  get_analytics_summary user (open_session db q)
  = (open_session db q,
     inr (let t := summarised (records db (user_videos user db))
                     (mkSummaryTotals 0 (inject_Z 0) []) in
          mkAnalyticsSummary
            (Z.of_nat (List.length (user_channels user db)))
            (Z.of_nat (List.length (user_videos user db)))
            (st_views t) (st_revenue t)
            (match st_engagement_rates t with
             | [] => inject_Z 0
             | _ :: _ =>
                 Qdiv (AnalyticsApi.sum (st_engagement_rates t))
                   (inject_Z (Z.of_nat
                      (List.length (st_engagement_rates t))))
             end))).
Proof.
  unfold get_analytics_summary, bind, query_channels, query_videos,
    open_session.
  cbn [objs channels videos]. fold (user_channels user db).
  unfold user_videos.
  destruct (map c_id (user_channels user db)) as [|i ids] eqn:Hmap.
  - rewrite filter_none. reflexivity.
  - unfold ret, lift. cbv beta iota. rewrite summary_loop. cbn [objs].
    rewrite average_returns. reflexivity.
Qed.

(** X26: the summary agrees with the channel reports.  It reads only
    and always answers; [total_channels] is the number of the caller's
    channels, and with channel keys distinct [total_videos] and
    [total_views] are the sums of the same entries of the reports the
    caller gets for those channels. *)
Theorem get_analytics_summary_sums_channel_reports (db : DB)
    (q : list Job) (user : Z) (reports : list ChannelAnalytics) :
  NoDup (map c_id (channels db)) ->
  Forall2 (report_of user db) (user_channels user db) reports ->
  exists r,
    get_analytics_summary user (open_session db q)
    = (open_session db q, inr r)
    /\ s_total_channels r = Z.of_nat (List.length reports)
    /\ s_total_videos r = sum_Z (map total_videos reports)
    /\ s_total_views r = sum_Z (map total_views reports).
Proof.
  intros Hnd Hrep.
  assert (forall c, In c (user_channels user db) ->
                    In c (channels db) /\ c_owner_id c = user) as Hown.
  { intros c Hc. apply filter_In in Hc. destruct Hc as [Hin Ho].
    apply Z.eqb_eq in Ho. auto. }
  destruct (reports_totals user db _ reports Hown Hrep) as [Hviews Hvideos].
  pose proof (NoDup_map_filter c_id (fun c => c_owner_id c =? user)
                _ Hnd) as Hids.
  fold (user_channels user db) in Hids.
  assert (List.length reports = List.length (user_channels user db))
    as Hlen.
  { clear - Hrep. induction Hrep; simpl; congruence. }
  assert (sum_Z (map (views_of db) (user_videos user db))
          = sum_Z (map total_views reports)
          /\ Z.of_nat (List.length (user_videos user db))
             = sum_Z (map total_videos reports)) as [Hv Hn].
  { rewrite Hviews, Hvideos, length_sum. unfold user_videos.
    rewrite !sum_by_channel by exact Hids. split; reflexivity. }
  rewrite get_analytics_summary_run.
  eexists. split; [reflexivity|].
  cbv zeta. cbn [s_total_channels s_total_videos s_total_views].
  rewrite summarised_views, records_views. cbn [st_views].
  rewrite <- Hv, <- Hn, Hlen. repeat split; reflexivity.
Qed.

Lemma get_analytics_summary_sums_channel_reports_witness :
  exists r,
    get_analytics_summary 7 (open_session db_shared [])
    = (open_session db_shared [], inr r)
    /\ s_total_channels r = 1
    /\ s_total_videos r = 2
    /\ s_total_views r = 10.
Proof.
  apply (get_analytics_summary_sums_channel_reports db_shared [] 7
           [mkChannelAnalytics 1 2 10 1 1 30 (inject_Z 0) (inject_Z 0)
              (Some (mkTopVideo 1 "Title" 10 (Int 0)))
              [mkPerformance 1 "Title" 10 1 (Int 0)]]).
  - simpl. repeat constructor; simpl; intuition lia.
  - apply Forall2_cons; [vm_compute; reflexivity | apply Forall2_nil].
Defined.

End AnalyticsApiExtras.

(* ===================================================================== *)
(** ** The update endpoint *)
(* ===================================================================== *)

Module UpdateExtras.
Import Py Models Orm VideosApi VideosCrud OrmFacts Spec Views MoreViews.
Import Samples MoreSamples.

(** X27: an update request changes the fields it carries and
    [updated_at], and nothing else.  When the endpoint answers for a
    video of the caller, video keys being distinct, the row it returns
    is the committed row, committed once; its status is the requested
    one if the request has a status, and otherwise unchanged, and
    likewise its title, description, script and metadata; and its
    progress, file path, platform identifier, error message,
    publication time and channel are as before.  So a status written
    through this endpoint comes with whatever progress and file the
    video had. *)
Theorem update_video_changes_requested_fields (utcnow video_id user : Z)
    (d : VideoUpdate) (db : DB) (q : list Job) (v r : Video) :
  NoDup (map id (videos db)) ->
  find_owned_video video_id user db = Some v ->
  let run := update_video utcnow video_id d user (open_session db q) in
  snd run = inr r ->
  find_video video_id (videos (rows (fst run))) = Some r
  /\ commits (fst run) = [rows (fst run)]
  /\ queue (fst run) = q
  /\ match vu_status d with
     | Some x => status_of_field x = inr (status r)
     | None => status r = status v
     end
  /\ match vu_title d with
     | Some (Some x) => title r = x
     | _ => title r = title v
     end
  /\ match vu_description d with
     | Some x => description r = x
     | None => description r = description v
     end
  /\ match vu_script d with
     | Some x => script r = x
     | None => script r = script v
     end
  /\ match vu_metadata d with
     | Some x => metadata r = x
     | None => metadata r = metadata v
     end
  /\ updated_at r = utcnow
  /\ id r = video_id
  /\ generation_progress r = generation_progress v
  /\ video_path r = video_path v
  /\ youtube_video_id r = youtube_video_id v
  /\ error_message r = error_message v
  /\ published_at r = published_at v
  /\ channel_id r = channel_id v.
Proof.
  intros Hnd Howned run.
  pose proof (ProgressExtras.find_owned_video_row _ _ _ _ Hnd Howned)
    as Hfind.
  pose proof (find_video_id _ _ _ Hfind) as Hid.
  assert (run = update_video utcnow video_id d user (open_session db q))
    as Hrun by reflexivity.
  clearbody run.
  destruct d as [ti de sc me st].
  unfold update_video, bind at 1, query_owned_video in Hrun.
  unfold open_session at 1 2 in Hrun. cbn [objs] in Hrun.
  rewrite Howned in Hrun.
  cbn [vu_title vu_description vu_script vu_metadata vu_status] in *.
  rewrite Hid in Hrun.
  destruct st as [x|];
    [destruct (status_of_field x) as [e|s'] eqn:Hst|];
    destruct ti as [[t|]|]; destruct de as [de|]; destruct sc as [sc|];
    destruct me as [me|];
    unfold try_except, bind, lift, assign_field, setattr, commit, load, ret,
      raise in Hrun;
    cbn [objs rows queue commits videos channels analytics fst snd app]
      in Hrun;
    try rewrite Hst in Hrun;
    cbn [objs rows queue commits videos channels analytics fst snd app]
      in Hrun;
    subst run; cbn [fst snd rows queue commits videos];
    intros Hr; try discriminate Hr;
    repeat rewrite update_video_compose in * by reflexivity;
    rewrite Hid in *;
    rewrite find_video_update_same in * by reflexivity;
    rewrite Hfind in *; cbn [option_map] in *;
    inversion Hr; subst r;
    repeat split; try reflexivity; try exact Hid.
Qed.

Lemma update_video_changes_requested_fields_witness :
  let run := update_video 800 1 (status_only "uploaded") 7
               (open_session db_shared []) in
  let r := set_updated_at 800 (set_status UPLOADED (video_of 1 1 DRAFT)) in
  find_video 1 (videos (rows (fst run))) = Some r
  /\ commits (fst run) = [rows (fst run)]
  /\ queue (fst run) = []
  /\ status_of_field (Some "uploaded"%string) = inr (status r)
  /\ title r = title (video_of 1 1 DRAFT)
  /\ description r = description (video_of 1 1 DRAFT)
  /\ script r = script (video_of 1 1 DRAFT)
  /\ metadata r = metadata (video_of 1 1 DRAFT)
  /\ updated_at r = 800
  /\ id r = 1
  /\ generation_progress r = generation_progress (video_of 1 1 DRAFT)
  /\ video_path r = video_path (video_of 1 1 DRAFT)
  /\ youtube_video_id r = youtube_video_id (video_of 1 1 DRAFT)
  /\ error_message r = error_message (video_of 1 1 DRAFT)
  /\ published_at r = published_at (video_of 1 1 DRAFT)
  /\ channel_id r = channel_id (video_of 1 1 DRAFT).
Proof.
  apply (update_video_changes_requested_fields 800 1 7
           (status_only "uploaded") db_shared [] (video_of 1 1 DRAFT)).
  - simpl. repeat constructor; simpl; intuition lia.
  - reflexivity.
  - reflexivity.
Defined.

(** The endpoint on a request that changes only the status. *)
Lemma update_video_status_only (utcnow video_id user : Z) (x : string)
    (st : VideoStatus) (db : DB) (q : list Job) (v : Video) :
  find_video video_id (videos db) = Some v ->
  find_owned_video video_id user db = Some v ->
  status_of_value x = inr st ->
  update_video utcnow video_id (status_only x) user (open_session db q)
  = (mkSession
       (with_video video_id
          (fun v => set_updated_at utcnow (set_status st v)) db)
       (with_video video_id
          (fun v => set_updated_at utcnow (set_status st v)) db)
       q
       [with_video video_id
          (fun v => set_updated_at utcnow (set_status st v)) db],
     inr (set_updated_at utcnow (set_status st v))).
Proof.
  intros Hfind Howned Hst.
  pose proof (find_video_id _ _ _ Hfind) as Hid.
  unfold update_video, bind at 1, query_owned_video.
  unfold open_session at 1 2. cbn [objs]. rewrite Howned.
  unfold status_only.
  cbn [vu_title vu_description vu_script vu_metadata vu_status
       status_of_field].
  rewrite Hid.
  unfold try_except, bind, lift, assign_field, setattr, commit, load, ret.
  rewrite Hst.
  cbn [objs rows queue commits videos channels analytics fst snd app].
  repeat rewrite update_video_compose by reflexivity.
  rewrite Hid.
  rewrite find_video_update_same by reflexivity.
  rewrite Hfind. reflexivity.
Qed.

(** X28: the update endpoint is not bound by the states of the
    pipeline.  For a video of the caller in any state and for every
    status, the request that carries only that status is accepted: the
    committed row has the requested status, with the progress, the file
    path and the platform identifier it had.  A DRAFT video with
    progress 0 and no file becomes GENERATED or UPLOADED this way, and
    the upload task then accepts a video that was never rendered. *)
Theorem update_video_reaches_any_status (utcnow video_id user : Z)
    (st : VideoStatus) (db : DB) (q : list Job) (v : Video) :
  NoDup (map id (videos db)) ->
  find_owned_video video_id user db = Some v ->
  let run := update_video utcnow video_id (status_only (value st)) user
               (open_session db q) in
  (exists r,
      snd run = inr r
      /\ find_video video_id (videos (rows (fst run))) = Some r
      /\ status r = st
      /\ generation_progress r = generation_progress v
      /\ video_path r = video_path v
      /\ youtube_video_id r = youtube_video_id v)
  /\ (st = GENERATED ->
      forall w p n q',
        hd_error
          (commits (fst (VideoTasks.upload_video_task w video_id p n
                           (open_session (rows (fst run)) q'))))
        = Some (with_video video_id (set_status UPLOADING)
                  (rows (fst run)))).
Proof.
  intros Hnd Howned run. subst run.
  pose proof (ProgressExtras.find_owned_video_row _ _ _ _ Hnd Howned)
    as Hfind.
  rewrite (update_video_status_only utcnow video_id user (value st) st db q
             v Hfind Howned (ApiExtras.status_of_value_value st)).
  cbn [fst snd rows].
  assert (find_video video_id
            (videos (with_video video_id
                       (fun v => set_updated_at utcnow (set_status st v))
                       db))
          = Some (set_updated_at utcnow (set_status st v))) as Hfound.
  { unfold with_video. cbn [videos].
    rewrite find_video_update_same by reflexivity.
    rewrite Hfind. reflexivity. }
  split.
  - eexists. split; [reflexivity|]. split; [exact Hfound|].
    repeat split; reflexivity.
  - intros Hst w p n q'. subst st.
    destruct (Uploader.upload_fault (VideoTasks.uploader w)) as [e|]
      eqn:Hfault.
    + rewrite (UploadFacts.upload_video_task_failed w _ q' video_id p n _ e
                 Hfound eq_refl Hfault).
      reflexivity.
    + destruct (UploadFacts.upload_video_task_uploaded w _ q' video_id p n
                  _ Hfound eq_refl Hfault) as [youtube_id Hrun].
      rewrite Hrun. reflexivity.
Qed.

Lemma update_video_reaches_any_status_witness :
  let run := update_video 800 1 (status_only (value GENERATED)) 7
               (open_session db_shared []) in
  (exists r,
      snd run = inr r
      /\ find_video 1 (videos (rows (fst run))) = Some r
      /\ status r = GENERATED
      /\ generation_progress r = generation_progress (video_of 1 1 DRAFT)
      /\ video_path r = video_path (video_of 1 1 DRAFT)
      /\ youtube_video_id r = youtube_video_id (video_of 1 1 DRAFT))
  /\ (GENERATED = GENERATED ->
      forall w p n q',
        hd_error
          (commits (fst (VideoTasks.upload_video_task w 1 p n
                           (open_session (rows (fst run)) q'))))
        = Some (with_video 1 (set_status UPLOADING) (rows (fst run)))).
Proof.
  apply (update_video_reaches_any_status 800 1 7 GENERATED db_shared []
           (video_of 1 1 DRAFT)).
  - simpl. repeat constructor; simpl; intuition lia.
  - reflexivity.
Defined.

(** X29: the update endpoint validates before it writes.  For a video
    that is not the caller's it raises 404; for a request whose status
    is not a status value ([null] included) it raises 400 with the
    rejected value in the detail, whatever other fields the request
    carries.  In both cases nothing is assigned and nothing is
    committed. *)
Theorem update_video_rejections (utcnow video_id user : Z)
    (d : VideoUpdate) (db : DB) (q : list Job) :
  let run := update_video utcnow video_id d user (open_session db q) in
  (find_owned_video video_id user db = None ->
   run = (open_session db q, inl not_found))
  /\ (forall v x e,
        find_owned_video video_id user db = Some v ->
        vu_status d = Some x ->
        status_of_field x = inl e ->
        run = (open_session db q, inl (invalid_status x)))
  /\ (forall e, snd run = inl e -> exn_class e = HTTPException 400 ->
                exists x, vu_status d = Some x /\ e = invalid_status x
                          /\ fst run = open_session db q).
Proof.
  intros run. subst run. split; [|split].
  - intros Hnone.
    unfold update_video, bind, query_owned_video, open_session.
    cbn [objs]. rewrite Hnone. reflexivity.
  - intros v x e Hv Hx Hst.
    unfold update_video, bind, query_owned_video, open_session.
    cbn [objs]. rewrite Hv, Hx. unfold try_except, bind, lift.
    rewrite Hst. reflexivity.
  - intros e.
    assert (exists run, run = update_video utcnow video_id d user
                                (open_session db q)) as [run Hrun]
      by (eexists; reflexivity).
    rewrite <- Hrun.
    destruct d as [ti de sc me st].
    unfold update_video, bind at 1, query_owned_video in Hrun.
    unfold open_session at 1 2 in Hrun. cbn [objs] in Hrun.
    cbn [vu_title vu_description vu_script vu_metadata vu_status] in *.
    destruct (find_owned_video video_id user db) as [v|].
    + destruct st as [x|];
        [destruct (status_of_field x) as [e'|s'] eqn:Hst|];
        destruct ti as [[t|]|]; destruct de as [de|]; destruct sc as [sc|];
        destruct me as [me|];
        unfold try_except, bind, lift, assign_field, setattr, commit, load,
          ret, raise in Hrun;
        cbn [objs rows queue commits videos channels analytics fst snd app]
          in Hrun;
        try rewrite Hst in Hrun;
        cbn [objs rows queue commits videos channels analytics fst snd app]
          in Hrun;
        subst run; cbn [fst snd];
        intros He Hclass; try discriminate He;
        inversion He; subst e; try discriminate Hclass;
        exists x; repeat split; reflexivity.
    + subst run. cbn [fst snd]. intros He Hclass.
      inversion He; subst e. discriminate Hclass.
Qed.

Lemma update_video_rejections_witness :
  update_video 800 1
    (mkVideoUpdate (Some (Some "New title"%string)) None None None
       (Some (Some "done"%string)))
    7 (open_session db_shared [])
  = (open_session db_shared [], inl (invalid_status (Some "done"%string))).
Proof.
  apply (proj1 (proj2 (update_video_rejections 800 1 7
                         (mkVideoUpdate (Some (Some "New title"%string))
                            None None None (Some (Some "done"%string)))
                         db_shared []))
           (video_of 1 1 DRAFT) (Some "done"%string)
           (mkExn (OtherError "ValueError")
              "'done' is not a valid VideoStatus")).
  - reflexivity.
  - reflexivity.
  - reflexivity.
Defined.

End UpdateExtras.

(* ===================================================================== *)
(** ** Properties of the pipeline as a whole *)
(* ===================================================================== *)

Module PipelineFacts.
Import Py Models Orm VideoTasks OrmFacts Spec Views MoreViews Samples.
Import MoreSamples Pipeline.

Ltac each_assumed :=
  repeat (apply Forall_cons; [assumption|]); apply Forall_nil.

Lemma steps_in_range p : In p VideoBuilder.steps -> 0 <= fst p <= 100.
Proof.
  unfold VideoBuilder.steps. simpl.
  intros H.
  repeat (destruct H as [H | H]; [subst p; simpl; lia|]).
  destruct H.
Qed.

Lemma firstn_steps_in_range k p :
  In p (firstn k VideoBuilder.steps) -> 0 <= fst p <= 100.
Proof.
  intros H. apply steps_in_range.
  rewrite <- (firstn_skipn k VideoBuilder.steps).
  apply in_or_app. left. exact H.
Qed.

(** The update request never assigns the progress. *)
Lemma update_video_session utcnow video_id video_data user db q :
  let s := fst (VideosCrud.update_video utcnow video_id video_data user
                  (open_session db q)) in
  (rows s = db /\ commits s = [])
  \/ exists key f,
       (forall x, generation_progress (f x) = generation_progress x)
       /\ rows s = with_video key f db
       /\ commits s = [with_video key f db].
Proof.
  intros s.
  assert (s = fst (VideosCrud.update_video utcnow video_id video_data user
                     (open_session db q))) as Hs by reflexivity.
  clearbody s.
  destruct video_data as [ti de sc me st].
  unfold VideosCrud.update_video, bind at 1, VideosApi.query_owned_video
    in Hs.
  unfold open_session at 1 2 in Hs. cbn [objs] in Hs.
  destruct (VideosApi.find_owned_video video_id user db) as [v|].
  - cbn [VideosCrud.vu_title VideosCrud.vu_description VideosCrud.vu_script
         VideosCrud.vu_metadata VideosCrud.vu_status] in Hs.
    destruct st as [x|];
      [destruct (VideosCrud.status_of_field x) as [e|s'] eqn:Hst|];
      destruct ti as [[t|]|]; destruct de as [de|]; destruct sc as [sc|];
      destruct me as [me|];
      unfold try_except, bind, lift, VideosCrud.assign_field, setattr,
        commit, load, ret, raise in Hs;
      cbn [objs rows queue commits videos channels analytics fst snd app]
        in Hs;
      try rewrite Hst in Hs;
      cbn [objs rows queue commits videos channels analytics fst snd app]
        in Hs;
      subst s; cbn [fst snd rows commits];
      first
        [ left; split; reflexivity
        | right;
          repeat rewrite update_video_compose by reflexivity;
          eexists; eexists;
          split; [|split; [unfold with_video; reflexivity | reflexivity]];
          intros y; reflexivity ].
  - subst s. left. split; reflexivity.
Qed.

Section Progress.
Variable P : Z -> Prop.
Hypothesis P0 : P 0.

Lemma progress_in_with_video db video_id f :
  (forall x, P (generation_progress x) -> P (generation_progress (f x))) ->
  progress_in P db -> progress_in P (with_video video_id f db).
Proof.
  intros Hf Hdb. unfold progress_in, with_video, update_video in *.
  cbn [videos]. apply Forall_map.
  eapply Forall_impl; [|exact Hdb].
  intros x Hx. cbn beta. destruct (id x =? video_id); [apply Hf|]; exact Hx.
Qed.

Lemma progressed_in ps :
  (forall p, In p ps -> P (fst p)) ->
  forall x, P (generation_progress x) ->
            P (generation_progress (progressed ps x)).
Proof.
  induction ps as [|p ps IH]; intros Hps x Hx; simpl; [exact Hx|].
  apply IH.
  - intros p' Hp'. apply Hps. right. exact Hp'.
  - simpl. apply Hps. left. reflexivity.
Qed.

Lemma with_script_in w v x : P (generation_progress (with_script w v x)).
Proof.
  unfold with_script.
  destruct (needs_script v); [destruct (script_call w v)|]; exact P0.
Qed.

(** The commits of the progress callback. *)
Lemma progress_trace_in db video_id :
  progress_in P db ->
  forall ps f,
    (forall p, In p ps -> P (fst p)) ->
    Forall (progress_in P) (progress_trace video_id f db ps).
Proof.
  intros Hdb. induction ps as [|p ps IH]; intros f Hps; simpl.
  - apply Forall_nil.
  - apply Forall_cons.
    + apply progress_in_with_video; [|exact Hdb].
      intros x _. simpl. apply Hps. left. reflexivity.
    + apply IH. intros p' Hp'. apply Hps. right. exact Hp'.
Qed.

Lemma script_commits_in w v video_id db :
  progress_in P db -> Forall (progress_in P) (script_commits w v video_id db).
Proof.
  intros Hdb. unfold script_commits.
  apply Forall_cons.
  - apply progress_in_with_video; [|exact Hdb].
    intros x _. exact P0.
  - destruct (needs_script v); [|apply Forall_nil].
    destruct (script_call w v); [apply Forall_nil|].
    apply Forall_cons; [|apply Forall_nil].
    apply progress_in_with_video; [|exact Hdb].
    intros x _. apply with_script_in.
Qed.

(** The generation job. *)
Lemma generate_job_in w video_id db q :
  reports_in P (GenerateJob w video_id) ->
  progress_in P db ->
  Forall (progress_in P) (commits (run (GenerateJob w video_id) db q))
  /\ progress_in P (rows (run (GenerateJob w video_id) db q)).
Proof.
  intros Hrep Hdb. cbn [run]. cbn [reports_in] in Hrep.
  destruct (find_video video_id (videos db)) as [v|] eqn:Hfind.
  - assert (needs_script v = true /\ (exists e, script_call w v = inl e)
            \/ script_ok w v) as [[Hneed [e Hcall]] | Hok].
    { unfold script_ok. destruct (needs_script v); [|auto].
      destruct (script_call w v) as [e|s]; [left | right; right]; eauto. }
    + rewrite (GenerateFacts.generate_video_task_script_failed
                 w db q video_id v e Hfind Hneed Hcall).
      cbn [fst commits rows].
      assert (progress_in P (with_video video_id start_generating db))
        as H1.
      { apply progress_in_with_video; [|exact Hdb]. intros x _. exact P0. }
      assert (progress_in P
                (with_video video_id
                   (fun x => fail_with e (start_generating x)) db)) as H2.
      { apply progress_in_with_video; [|exact Hdb]. intros x _. exact P0. }
      split; [each_assumed | exact H2].
    + destruct (VideoBuilder.fault (builder w)) as [[k e]|] eqn:Hfault.
      * rewrite (GenerateFacts.generate_video_task_render_failed
                   w db q video_id v k e Hfind Hok Hfault).
        cbn [fst commits rows].
        assert (progress_in P
                  (with_video video_id
                     (fun x =>
                        fail_with e
                          (progressed (firstn k VideoBuilder.steps)
                             (with_script w v x))) db)) as Hf.
        { apply progress_in_with_video; [|exact Hdb].
          intros x _.
          change (P (generation_progress
                       (progressed (firstn k VideoBuilder.steps)
                          (with_script w v x)))).
          apply progressed_in; [exact Hrep | apply with_script_in]. }
        split; [|exact Hf].
        apply Forall_app. split; [apply script_commits_in; exact Hdb|].
        apply Forall_app. split; [|each_assumed].
        apply progress_trace_in; [exact Hdb | exact Hrep].
      * destruct Hrep as [Hsteps H100].
        rewrite (GenerateFacts.generate_video_task_generated
                   w db q video_id v Hfind Hok Hfault).
        cbn [fst commits rows].
        match goal with
        | |- _ /\ progress_in P ?d => assert (progress_in P d) as Hf
        end.
        { apply progress_in_with_video; [|exact Hdb].
          intros x _. exact H100. }
        split; [|exact Hf].
        apply Forall_app. split; [apply script_commits_in; exact Hdb|].
        apply Forall_app. split; [|each_assumed].
        apply progress_trace_in; [exact Hdb | exact Hsteps].
  - unfold generate_video_task, generate_body, try_except, bind, query_video,
      open_session. simpl. rewrite Hfind. simpl.
    split; [apply Forall_nil | exact Hdb].
Qed.

(** The upload job. *)
Lemma upload_job_in w video_id privacy_status notify_subscribers db q :
  progress_in P db ->
  Forall (progress_in P)
    (commits (run (UploadJob w video_id privacy_status notify_subscribers)
                db q))
  /\ progress_in P
       (rows (run (UploadJob w video_id privacy_status notify_subscribers)
                db q)).
Proof.
  intros Hdb. cbn [run].
  destruct (find_video video_id (videos db)) as [v|] eqn:Hfind.
  - destruct (status_eqb (status v) GENERATED) eqn:Hst.
    + apply status_eqb_eq in Hst.
      assert (progress_in P (with_video video_id (set_status UPLOADING) db))
        as Hup.
      { apply progress_in_with_video; [|exact Hdb]. intros x Hx. exact Hx. }
      destruct (Uploader.upload_fault (uploader w)) as [e|] eqn:Hfault.
      * rewrite (UploadFacts.upload_video_task_failed
                   w db q video_id privacy_status notify_subscribers v e
                   Hfind Hst Hfault).
        cbn [fst commits rows].
        assert (progress_in P
                  (with_video video_id
                     (fun x => fail_with e (set_status UPLOADING x)) db))
          as Hf.
        { apply progress_in_with_video; [|exact Hdb].
          intros x Hx. exact Hx. }
        split; [each_assumed | exact Hf].
      * destruct (UploadFacts.upload_video_task_uploaded
                    w db q video_id privacy_status notify_subscribers v
                    Hfind Hst Hfault) as [y Hy].
        rewrite Hy. cbn [commits rows].
        assert (progress_in P
                  (with_video video_id
                     (finish_upload y (upload_utcnow w)) db)) as Hf.
        { apply progress_in_with_video; [|exact Hdb].
          intros x Hx. exact Hx. }
        split; [each_assumed | exact Hf].
    + apply status_eqb_neq in Hst.
      rewrite (UploadFacts.upload_video_task_refused
                 w db q video_id privacy_status notify_subscribers v
                 Hfind Hst).
      simpl. split; [apply Forall_nil | exact Hdb].
  - unfold upload_video_task, upload_body, try_except, bind, query_video,
      open_session. simpl. rewrite Hfind. simpl.
    split; [apply Forall_nil | exact Hdb].
Qed.

(** The generation request. *)
Lemma request_generation_in video_id user db q :
  progress_in P db ->
  Forall (progress_in P)
    (commits (run (RequestGeneration video_id user) db q))
  /\ progress_in P (rows (run (RequestGeneration video_id user) db q)).
Proof.
  intros Hdb. cbn [run].
  destruct (VideosApi.find_owned_video video_id user db) as [v|] eqn:Hfind.
  - destruct (status_eqb (status v) GENERATING) eqn:Hst.
    + unfold VideosApi.generate_video, bind, VideosApi.query_owned_video,
        open_session. simpl. rewrite Hfind, Hst. simpl.
      split; [apply Forall_nil | exact Hdb].
    + apply status_eqb_neq in Hst.
      rewrite (ApiFacts.generate_video_restarts db q video_id user v
                 Hfind Hst).
      cbn [fst commits rows].
      assert (progress_in P (with_video video_id start_generating db))
        as Hs.
      { apply progress_in_with_video; [|exact Hdb]. intros x _. exact P0. }
      split; [each_assumed | exact Hs].
  - unfold VideosApi.generate_video, bind, VideosApi.query_owned_video,
      open_session. simpl. rewrite Hfind. simpl.
    split; [apply Forall_nil | exact Hdb].
Qed.

(** The upload request. *)
Lemma request_upload_in video_id user db q :
  progress_in P db ->
  Forall (progress_in P) (commits (run (RequestUpload video_id user) db q))
  /\ progress_in P (rows (run (RequestUpload video_id user) db q)).
Proof.
  intros Hdb. cbn [run].
  destruct (VideosApi.find_owned_video video_id user db) as [v|] eqn:Hfind.
  - destruct (status_eqb (status v) GENERATED) eqn:Hst.
    + apply status_eqb_eq in Hst.
      rewrite (ApiFacts.upload_video_accepted db q video_id user v
                 Hfind Hst).
      cbn [commits rows].
      assert (progress_in P (with_video video_id (set_status UPLOADING) db))
        as Hs.
      { apply progress_in_with_video; [|exact Hdb]. intros x Hx. exact Hx. }
      split; [each_assumed | exact Hs].
    + apply status_eqb_neq in Hst.
      rewrite (ApiFacts.upload_video_refused db q video_id user v
                 Hfind Hst).
      simpl. split; [apply Forall_nil | exact Hdb].
  - unfold VideosApi.upload_video, bind, VideosApi.query_owned_video,
      open_session. simpl. rewrite Hfind. simpl.
    split; [apply Forall_nil | exact Hdb].
Qed.

(** The analytics sync and the analytics request write no video. *)
Lemma sync_job_in w video_id db q :
  progress_in P db ->
  Forall (progress_in P) (commits (run (SyncJob w video_id) db q))
  /\ progress_in P (rows (run (SyncJob w video_id) db q)).
Proof.
  intros Hdb. cbn [run].
  destruct (AnalyticsFacts.sync_job_session w video_id db q)
    as [Hs | [d Hs]]; rewrite Hs; cbn [commits rows open_session].
  - split; [apply Forall_nil | exact Hdb].
  - assert (progress_in P (with_analytics video_id d
                             (AnalyticsTasks.sync_utcnow w) db)) as Hr
      by exact Hdb.
    split; [each_assumed | exact Hr].
Qed.

Lemma request_analytics_in utcnow video_id user db q :
  progress_in P db ->
  Forall (progress_in P)
    (commits (run (RequestAnalytics utcnow video_id user) db q))
  /\ progress_in P (rows (run (RequestAnalytics utcnow video_id user) db q)).
Proof.
  intros Hdb. cbn [run].
  unfold AnalyticsApi.get_video_analytics, bind, VideosApi.query_owned_video,
    query_analytics, add_analytics, commit, ret, raise, open_session.
  cbn [objs].
  destruct (VideosApi.find_owned_video video_id user db) as [v|];
    cbn [objs fst commits rows analytics];
    [|split; [apply Forall_nil | exact Hdb]].
  destruct (find_analytics video_id (analytics db)) as [a|];
    cbn [objs fst commits rows queue app videos channels analytics].
  - split; [apply Forall_nil | exact Hdb].
  - split; [apply Forall_cons; [exact Hdb | apply Forall_nil] | exact Hdb].
Qed.

(** Creation appends a video with progress 0. *)
Lemma create_video_in ins video_data user db q :
  progress_in P db ->
  Forall (progress_in P)
    (commits (run (CreateVideo ins video_data user) db q))
  /\ progress_in P (rows (run (CreateVideo ins video_data user) db q)).
Proof.
  intros Hdb. cbn [run].
  unfold VideosCrud.create_video, bind, VideosCrud.query_owned_channel,
    Campaigns.current_videos, Campaigns.add_video, commit, ret, raise,
    open_session.
  cbn [objs].
  destruct (VideosCrud.find_owned_channel
              (VideosCrud.vc_channel_id video_data) user db) as [c|];
    cbn [objs fst commits rows queue app videos channels analytics];
    [|split; [apply Forall_nil | exact Hdb]].
  match goal with
  | |- _ /\ progress_in P ?d => assert (progress_in P d) as Hnew
  end.
  { unfold progress_in. cbn [videos]. apply Forall_app. split; [exact Hdb|].
    apply Forall_cons; [exact P0 | apply Forall_nil]. }
  split; [apply Forall_cons; [exact Hnew | apply Forall_nil] | exact Hnew].
Qed.

(** Deletion removes rows. *)
Lemma delete_video_in video_id user db q :
  progress_in P db ->
  Forall (progress_in P) (commits (run (DeleteVideo video_id user) db q))
  /\ progress_in P (rows (run (DeleteVideo video_id user) db q)).
Proof.
  intros Hdb. cbn [run].
  unfold VideosCrud.delete_video, bind, VideosApi.query_owned_video,
    VideosCrud.delete, commit, ret, raise, open_session.
  cbn [objs].
  destruct (VideosApi.find_owned_video video_id user db) as [v|];
    cbn [objs fst commits rows queue app videos channels analytics];
    [|split; [apply Forall_nil | exact Hdb]].
  match goal with
  | |- _ /\ progress_in P ?d => assert (progress_in P d) as Hdel
  end.
  { unfold progress_in in *. cbn [videos]. apply Forall_forall.
    intros x Hx. apply filter_In in Hx. destruct Hx as [Hx _].
    rewrite Forall_forall in Hdb. apply Hdb. exact Hx. }
  split; [apply Forall_cons; [exact Hdel | apply Forall_nil] | exact Hdel].
Qed.

Lemma update_video_in utcnow video_id video_data user db q :
  progress_in P db ->
  Forall (progress_in P)
    (commits (run (UpdateVideo utcnow video_id video_data user) db q))
  /\ progress_in P
       (rows (run (UpdateVideo utcnow video_id video_data user) db q)).
Proof.
  intros Hdb. cbn [run].
  destruct (update_video_session utcnow video_id video_data user db q)
    as [[Hr Hc] | [key [f [Hf [Hr Hc]]]]]; rewrite Hr, Hc.
  - split; [apply Forall_nil | exact Hdb].
  - assert (progress_in P (with_video key f db)) as Hnew.
    { apply progress_in_with_video; [|exact Hdb].
      intros x Hx. rewrite Hf. exact Hx. }
    split; [each_assumed | exact Hnew].
Qed.

(** The campaigns. *)
Lemma insert_trace_in vs :
  Forall (fun v => P (generation_progress v)) vs ->
  forall db, progress_in P db ->
    Forall (progress_in P) (insert_trace vs db)
    /\ progress_in P (with_new_videos vs db).
Proof.
  induction vs as [|v vs IH]; intros Hvs db Hdb.
  - split; [apply Forall_nil|].
    unfold progress_in, with_new_videos. cbn [videos].
    rewrite app_nil_r. exact Hdb.
  - inversion Hvs as [|? ? Hv Hrest]; subst.
    assert (progress_in P (with_new_videos [v] db)) as H1.
    { unfold progress_in, with_new_videos. cbn [videos].
      apply Forall_app. split; [exact Hdb|].
      apply Forall_cons; [exact Hv | apply Forall_nil]. }
    destruct (IH Hrest _ H1) as [Ht Hr].
    split.
    + cbn [insert_trace]. apply Forall_cons; assumption.
    + unfold progress_in, with_new_videos in *. cbn [videos] in *.
      rewrite <- app_assoc in Hr. exact Hr.
Qed.

Lemma auto_generate_in w db q :
  progress_in P db ->
  Forall (progress_in P) (commits (run (AutoGenerateJob w) db q))
  /\ progress_in P (rows (run (AutoGenerateJob w) db q)).
Proof.
  intros Hdb. cbn [run].
  rewrite CampaignExtras.auto_generate_videos_run. cbn [fst commits rows].
  apply insert_trace_in; [|exact Hdb].
  eapply Forall_impl; [|apply CampaignExtras.created_are_drafts].
  intros x [_ [Hp _]]. cbn beta. rewrite Hp. exact P0.
Qed.

(** Every operation. *)
Lemma run_in op db q :
  reports_in P op ->
  progress_in P db ->
  Forall (progress_in P) (commits (run op db q))
  /\ progress_in P (rows (run op db q)).
Proof.
  intros Hrep Hdb. destruct op.
  - apply create_video_in; exact Hdb.
  - apply update_video_in; exact Hdb.
  - apply delete_video_in; exact Hdb.
  - apply request_generation_in; exact Hdb.
  - apply request_upload_in; exact Hdb.
  - apply request_analytics_in; exact Hdb.
  - apply generate_job_in; [exact Hrep | exact Hdb].
  - apply upload_job_in; exact Hdb.
  - apply sync_job_in; exact Hdb.
  - apply auto_generate_in; exact Hdb.
  - cbn [run]. rewrite CampaignFacts.auto_upload_videos_run.
    cbn [commits rows]. split; [apply Forall_nil | exact Hdb].
  - cbn [run]. rewrite CampaignExtras.sync_all_analytics_run.
    cbn [fst commits rows]. split; [apply Forall_nil | exact Hdb].
Qed.

Lemma observed_in ops :
  Forall (reports_in P) ops ->
  forall db q, progress_in P db -> Forall (progress_in P) (observed ops db q).
Proof.
  induction ops as [|op ops IH]; intros Hops db q Hdb; simpl.
  - apply Forall_cons; [exact Hdb | apply Forall_nil].
  - inversion Hops as [|? ? Hop Hrest]; subst.
    destruct (run_in op db q Hop Hdb) as [Hcommits Hrows].
    apply Forall_cons; [exact Hdb|].
    apply Forall_app. split; [exact Hcommits | apply IH; assumption].
Qed.

End Progress.

(** Whatever the renderer does, what it reports is a percentage. *)
Lemma reports_percentages (op : Op) :
  reports_in (fun z => 0 <= z <= 100) op.
Proof.
  destruct op; cbn [reports_in]; try exact I.
  destruct (VideoBuilder.fault (builder w)) as [[k e]|].
  - intros p Hp. apply (firstn_steps_in_range k p Hp).
  - split; [apply steps_in_range | lia].
Qed.

(** The renderer of the repository reports nothing. *)
Lemma reports_nothing (Q : Z -> Prop) (op : Op) :
  unawaited op -> reports_in Q op.
Proof.
  destruct op; cbn [reports_in unawaited]; try (intros; exact I).
  unfold Unawaited.generates. intros Hw. rewrite Hw.
  intros p Hp. destruct Hp.
Qed.

(** C5, as stated, fails in the "if" direction.  Two requests, creating
    a video and then putting the status "generated" on it, leave a video
    that is GENERATED with progress 0: the update endpoint writes the
    status it is given and does not touch the progress. *)
Lemma generated_with_progress_0 :
  option_map (fun v => (status v, generation_progress v))
    (find_video 1
       (videos (last (observed create_then_mark_generated db_empty [])
                  db_empty)))
  = Some (GENERATED, 0)
  /\ ~ progress_iff_always create_then_mark_generated db_empty [].
Proof.
  split; [vm_compute; reflexivity|].
  intros H.
  set (d := last (observed create_then_mark_generated db_empty [])
              db_empty).
  assert (In d (observed create_then_mark_generated db_empty [])) as Hd.
  { subst d. vm_compute. repeat (first [left; reflexivity | right]). }
  assert (exists v, In v (videos d) /\ status v = GENERATED
                    /\ generation_progress v = 0) as [v [Hv [Hst Hp]]].
  { subst d. vm_compute. eexists. split; [left; reflexivity|].
    split; reflexivity. }
  destruct (H d Hd v Hv) as [_ [_ Hiff]].
  rewrite Hst in Hiff. specialize (Hiff eq_refl). lia.
Qed.

(** C5, amended: with requests, jobs and campaigns run one at a time,
    whatever the collaborators of the jobs do, on tables whose videos
    have a progress within [0,100] (as every video has when it is
    created), [generation_progress] is within [0,100] for every video at
    every state the database goes through. *)
Theorem progress_in_range_observed (ops : list Op) (db : DB)
    (q : list Job) :
  (forall v, In v (videos db) -> 0 <= generation_progress v <= 100) ->
  forall d, In d (observed ops db q) ->
  forall v, In v (videos d) ->
    0 <= generation_progress v <= 100.
Proof.
  intros Hstart d Hd v Hv.
  assert (progress_in (fun z => 0 <= z <= 100) db) as Hdb
    by (apply Forall_forall; exact Hstart).
  assert (Forall (reports_in (fun z => 0 <= z <= 100)) ops) as Hops
    by (apply Forall_forall; intros op _; apply reports_percentages).
  pose proof (observed_in (fun z => 0 <= z <= 100) (conj (Z.le_refl 0)
                (Zle_0_pos 100)) ops Hops db q Hdb) as Hall.
  rewrite Forall_forall in Hall. specialize (Hall d Hd).
  unfold progress_in in Hall. rewrite Forall_forall in Hall.
  apply (Hall v Hv).
Qed.

Lemma progress_in_range_observed_witness :
  0 <= generation_progress
         (set_updated_at 800
            (set_status GENERATED
               (mkVideo 1 "Fresh idea" (Some "Words") None DRAFT None None
                  None None None (Some (mkMetadata None None None)) 0 None
                  700 700 None 1)))
    <= 100.
Proof.
  apply (progress_in_range_observed create_then_mark_generated db_empty []
           (fun v (H : In v []) => match H with end)
           (last (observed create_then_mark_generated db_empty [])
              db_empty)).
  - vm_compute. repeat (first [left; reflexivity | right]).
  - vm_compute. left. reflexivity.
Defined.

(** X15: in the runs of the repository the progress never advances.
    With the jobs run as the repository calls its services, on tables
    whose videos have progress 0 (as every video has when it is
    created), every video has progress 0 at every state the database
    goes through, whatever requests, jobs and campaigns are run: the
    renderer, whose callback would advance it, is never awaited, and no
    request assigns it. *)
Theorem progress_never_advances (ops : list Op) (db : DB) (q : list Job) :
  Forall unawaited ops ->
  (forall v, In v (videos db) -> generation_progress v = 0) ->
  forall d, In d (observed ops db q) ->
  forall v, In v (videos d) ->
    generation_progress v = 0.
Proof.
  intros Hops Hstart d Hd v Hv.
  assert (progress_in (fun z => z = 0) db) as Hdb
    by (apply Forall_forall; exact Hstart).
  assert (Forall (reports_in (fun z => z = 0)) ops) as Hrep.
  { eapply Forall_impl; [|exact Hops].
    intros op Hop. apply reports_nothing. exact Hop. }
  pose proof (observed_in (fun z => z = 0) eq_refl ops Hrep db q Hdb)
    as Hall.
  rewrite Forall_forall in Hall. specialize (Hall d Hd).
  unfold progress_in in Hall. rewrite Forall_forall in Hall.
  apply (Hall v Hv).
Qed.

Lemma progress_never_advances_witness :
  Forall (fun v => generation_progress v = 0)
    (videos (last (observed create_generate_upload db_empty []) db_empty)).
Proof.
  apply Forall_forall.
  apply (progress_never_advances create_generate_upload db_empty []).
  - repeat (apply Forall_cons; [first [exact I | reflexivity]|]).
    apply Forall_nil.
  - intros v [].
  - vm_compute. repeat (first [left; reflexivity | right]).
Defined.

End PipelineFacts.

